(** * ProblemFinder: response validator, response interpreter, context
      accumulator and the Co-Founder Lab convergence state machine.

    Shallow embedding of the TypeScript sources:
    - the validation utilities ([isUniqueResponse]),
    - [lib/ai/assistants/ReviewAssistant.ts] ([parseResponse], [process]),
    - [lib/ai/orchestrator.ts] ([AIOrchestrator.buildContext], [process]),
    - [app/api/ai/route.ts] (the HTTP boundary),
    - the review-zone and review-fourws route handlers that the unified
      endpoint replaces (their response parsing),
    - the Co-Founder Lab step component ([CoFounderLabStep]) and
      [firebase.ts] ([updateProject]): its handlers, and its effects as
      a reactive system in which a handler runs up to its next [await]
      and the effects are run after every change of state,
    - the callers of the validator (the zone cards, the stakeholder
      map, the journey gates) and the Problem Incubator (the mentor
      endpoint's domain buttons, the input helper).

    JavaScript strings are modelled as [string] (sequences of 8-bit code
    units); white space and letter case are those of the code units
    below 256, the no-break space and the accented capitals of Latin-1
    included.  Numbers are kept as their JSON lexemes and are zero when
    they round to zero as doubles. *)

From Stdlib Require Import String Ascii List ZArith Lia Bool DecimalString.
From stdpp Require Import base option list gmap strings.
Import ListNotations.
Open Scope string_scope.

(* ================================================================== *)
(** * JavaScript built-ins used by the sources *)
(* ================================================================== *)

Module JS.

(** Code units that [String.prototype.trim] and the regular-expression
    class [\s] treat as white space, among the code units below 256:
    TAB, LF, VT, FF, CR, SPACE and the no-break space U+00A0. *)
Definition isWhiteSpace (c : ascii) : bool :=
  let n := nat_of_ascii c in
  ((9 <=? n)%nat && (n <=? 13)%nat) || (n =? 32)%nat || (n =? 160)%nat.

Fixpoint trimStartL (l : list ascii) : list ascii :=
  match l with
  | c :: r => if isWhiteSpace c then trimStartL r else l
  | [] => []
  end.

Definition trimEndL (l : list ascii) : list ascii :=
  rev (trimStartL (rev l)).

Definition trimL (l : list ascii) : list ascii := trimEndL (trimStartL l).

(** [s.trim()] *)
Definition trim (s : string) : string :=
  string_of_list_ascii (trimL (list_ascii_of_string s)).

(** [toLowerCase] on one code unit below 256: the letters A to Z and
    the capital letters U+00C0 to U+00DE, the multiplication sign U+00D7
    excepted, move up by 32; every other code unit is kept. *)
Definition lowerChar (c : ascii) : ascii :=
  let n := nat_of_ascii c in
  if ((65 <=? n)%nat && (n <=? 90)%nat)
     || ((192 <=? n)%nat && (n <=? 222)%nat && negb (n =? 215)%nat)
  then ascii_of_nat (n + 32) else c.

Fixpoint toLowerCase (s : string) : string :=
  match s with
  | EmptyString => EmptyString
  | String c r => String (lowerChar c) (toLowerCase r)
  end.

(** [a === b] on strings. *)
Definition strictEq (a b : string) : bool := bool_decide (a = b).

(** [arr.includes(x)] on an array of strings. *)
Definition includes (arr : list string) (x : string) : bool :=
  existsb (strictEq x) arr.

(** [arr.join(sep)] *)
Fixpoint join (sep : string) (arr : list string) : string :=
  match arr with
  | [] => ""
  | [x] => x
  | x :: r => x ++ sep ++ join sep r
  end.

Definition LF : string := String (ascii_of_nat 10) "".

(** The no-break space U+00A0. *)
Definition NBSP : string := String (ascii_of_nat 160) "".

(** [l.startsWith(p)] on code-unit lists. *)
Fixpoint startsWithL (p l : list ascii) : bool :=
  match p, l with
  | [], _ => true
  | a :: p', b :: l' => bool_decide (a = b) && startsWithL p' l'
  | _ :: _, [] => false
  end.

(** [s.indexOf(c)] for a one-character needle; [None] stands for -1. *)
Fixpoint indexOfL (c : ascii) (l : list ascii) : option nat :=
  match l with
  | [] => None
  | x :: r => if bool_decide (x = c) then Some 0%nat
              else option_map S (indexOfL c r)
  end.

(** [s.lastIndexOf(p)]: the greatest index at which [p] occurs. *)
Fixpoint lastIndexOfL (p l : list ascii) : option nat :=
  match l with
  | [] => if startsWithL p [] then Some 0%nat else None
  | _ :: r =>
      match lastIndexOfL p r with
      | Some i => Some (S i)
      | None => if startsWithL p l then Some 0%nat else None
      end
  end.

(** [s.slice(start, end)] for [0 <= start], [0 <= end]. *)
Definition sliceL (start stop : nat) (l : list ascii) : list ascii :=
  firstn (stop - start) (skipn start l).

End JS.

(* ================================================================== *)
(** * Validation utilities ([utils/validation]) *)
(* ================================================================== *)

Module Validation.

(** [isUniqueResponse(response, allResponses)] *)
Definition isUniqueResponse (response : string) (allResponses : list string)
  : bool :=
  let trimmed := JS.toLowerCase (JS.trim response) in
  (* Empty responses are considered unique *)
  if (String.length trimmed =? 0)%nat then true
  else
    let duplicateCount :=
      length (filter (fun r => r = trimmed)
                (map (fun r => JS.toLowerCase (JS.trim r)) allResponses)) in
    (* Should only appear once in the array *)
    (duplicateCount <=? 1)%nat.

(** ** The filler lexicon

    Every filler pattern is anchored at both ends and is a sequence of
    literal characters, optional characters and repeated characters;
    some ignore case. *)
Inductive Atom : Type :=
  | Lit (c : ascii)    (* the character itself *)
  | Opt (c : ascii)    (* the character or nothing *)
  | Plus (c : ascii).  (* the character, one or more times *)

Record Pattern : Type := {
  atoms : list Atom;
  ignoreCase : bool;
}.

(** Comparison of a pattern character with an input character. *)
Definition sameChar (ci : bool) (c x : ascii) : bool :=
  if ci then Ascii.eqb (JS.lowerChar c) (JS.lowerChar x) else Ascii.eqb c x.

(** The anchored match of a sequence of atoms against the whole input,
    with the alternatives of the engine (an optional character is tried
    first, a repetition takes as much as it can). *)
Fixpoint matchAtoms (ci : bool) (p : list Atom) (l : list ascii) : bool :=
  match p with
  | [] => match l with [] => true | _ :: _ => false end
  | Lit c :: p' =>
      match l with
      | x :: l' => sameChar ci c x && matchAtoms ci p' l'
      | [] => false
      end
  | Opt c :: p' =>
      match l with
      | x :: l' => sameChar ci c x && matchAtoms ci p' l'
      | [] => false
      end
      || matchAtoms ci p' l
  | Plus c :: p' =>
      (fix plus (l : list ascii) : bool :=
         match l with
         | x :: l' => sameChar ci c x && (plus l' || matchAtoms ci p' l')
         | [] => false
         end) l
  end.

(** [pattern.test(text)] *)
Definition test (p : Pattern) (text : string) : bool :=
  matchAtoms (ignoreCase p) (atoms p) (list_ascii_of_string text).

(** The literal characters of a word. *)
Definition word (s : string) : list Atom := map Lit (list_ascii_of_string s).

Definition insensitive (a : list Atom) : Pattern :=
  {| atoms := a; ignoreCase := true |}.

Definition sensitive (a : list Atom) : Pattern :=
  {| atoms := a; ignoreCase := false |}.

Definition FILLER_PATTERNS : list Pattern :=
  [ insensitive (word "idk");
    insensitive (word "idc");
    insensitive (word "i don" ++ [Opt "'"%char] ++ word "t know");
    insensitive (word "i don" ++ [Opt "'"%char] ++ word "t care");
    sensitive [Plus "."%char];
    sensitive [Plus "-"%char];
    insensitive (word "yes");
    insensitive (word "no");
    insensitive (word "n" ++ [Opt "/"%char] ++ word "a");
    insensitive (word "none");
    sensitive [Plus "?"%char];
    insensitive (word "ok");
    insensitive (word "okay");
    insensitive (word "whatever");
    insensitive (word "nothing");
    insensitive (word "same");
    insensitive (word "yeah");
    insensitive (word "yea");
    insensitive (word "sure");
    insensitive (word "maybe");
    insensitive (word "stuff");
    insensitive (word "things") ]%list.

(** [isValidResponse(response, minLength)]; the default [minLength] is
    10. *)
Definition isValidResponse (response : string) (minLength : nat) : bool :=
  let trimmed := JS.trim response in
  (* Check non-empty *)
  if (String.length trimmed =? 0)%nat then false
  (* Check minimum length *)
  else if (String.length trimmed <? minLength)%nat then false
  (* Check for filler text *)
  else if existsb (fun pattern => test pattern trimmed) FILLER_PATTERNS
       then false
  else true.

(** The [validResponses] that [getValidResponseCount] collects. *)
Definition validResponses (responses : list string) : list string :=
  List.filter
    (fun response =>
       isValidResponse response 10 && isUniqueResponse response responses)
    responses.

(** [getValidResponseCount(responses)] *)
Definition getValidResponseCount (responses : list string) : nat :=
  length (validResponses responses).

(** [isZoneComplete(responses, requiredCount)] *)
Definition isZoneComplete (responses : list string) (requiredCount : nat)
  : bool :=
  (requiredCount <=? getValidResponseCount responses)%nat.

(** [isSolutionStationComplete(idea, minLength, hasChecked)]; the
    defaults are 15 and false. *)
Definition isSolutionStationComplete (idea : string) (minLength : nat)
    (hasChecked : bool) : bool :=
  (* Must have checked feedback *)
  if negb hasChecked then false
  (* Must meet minimum length *)
  else if (String.length (JS.trim idea) <=? minLength)%nat then false
  (* Must pass validation *)
  else if negb (isValidResponse idea minLength) then false
  else true.

End Validation.

(* ================================================================== *)
(** * Callers of the validator: the steps and the journey *)
(* ================================================================== *)

(** The progress tracker of a zone card ([ExploreStep], [ZoneCardCorner]). *)
Module ExploreStep.

(** Whether the dot at [index] is filled: the answer at that position
    is valid and unique among the zone's answers. *)
Definition progressDot (answers : list string) (index : nat) : bool :=
  (* Check if this specific answer is valid and unique *)
  let answer := default "" (answers !! index) in
  let allAnswers := answers in
  Validation.isValidResponse answer 10
  && Validation.isUniqueResponse answer allAnswers.

(** The dots of a zone card: one for the motivation zone, three for the
    others. *)
Definition progressDots (isMotivation : bool) (answers : list string)
  : list bool :=
  map (progressDot answers) (seq 0 (if isMotivation then 1 else 3)).

End ExploreStep.

(** The stakeholder map ([StakeholderMapStep]). *)
Module StakeholderMap.

Record StakeholderAnswers : Type := {
  name : option string;
  contactMethod : option string;
  introductionMessage : option string;
  involvement : option string;
  appeal : option string;
}.

Record StakeholderNodeState : Type := {
  planned : option bool;
  answers : option StakeholderAnswers;
}.

(** The empty object that stands in for absent answers. *)
Definition noAnswers : StakeholderAnswers :=
  {| name := None; contactMethod := None; introductionMessage := None;
     involvement := None; appeal := None |}.

(** [x || ''] *)
Definition orEmpty (x : option string) : string := default "" x.

(** [isNodeComplete(id)], on the state of the node. *)
Definition isNodeComplete (node : option StakeholderNodeState) : bool :=
  let a := default noAnswers (node ≫= answers) in
  Validation.isValidResponse (orEmpty (name a)) 3
  && Validation.isValidResponse (orEmpty (contactMethod a)) 3
  && Validation.isValidResponse (orEmpty (introductionMessage a)) 3
  && Validation.isValidResponse (orEmpty (involvement a)) 3
  && Validation.isValidResponse (orEmpty (appeal a)) 3.

(** [anyComplete]; the nodes are listed in the order of their keys. *)
Definition anyComplete (nodes : list (string * StakeholderNodeState)) : bool :=
  existsb (fun kv => isNodeComplete (Some kv.2)) nodes.

End StakeholderMap.

(** The completion gates of the journey ([STEPS]) that call the
    validator. *)
Module Journey.

Record Zone : Type := {
  answers : option (list string);
  hasCheckedFeedback : option bool;
}.

Record ProblemExploration : Type := {
  thinkBig : option Zone;
  thinkSmall : option Zone;
  causes : option Zone;
  motivation : option Zone;
}.

(** [isZoneComplete(zone?.answers || [], n) &&
     zone?.hasCheckedFeedback === true] *)
Definition zoneOk (zone : option Zone) (requiredCount : nat) : bool :=
  Validation.isZoneComplete (default [] (zone ≫= answers)) requiredCount
  && bool_decide (zone ≫= hasCheckedFeedback = Some true).

(** The gate of the [explore] step. *)
Definition exploreIsComplete (exploration : option ProblemExploration) : bool :=
  match exploration with
  | None => false
  | Some exploration =>
      (* Think Big/Small/Causes need 3 responses, Motivation needs 1 *)
      zoneOk (thinkBig exploration) 3
      && zoneOk (thinkSmall exploration) 3
      && zoneOk (causes exploration) 3
      && zoneOk (motivation exploration) 1
  end.

(** The test that the gate of the [stakeholders] step applies to one
    node. *)
Definition nodeOk (node : StakeholderMap.StakeholderNodeState) : bool :=
  let a := default StakeholderMap.noAnswers (StakeholderMap.answers node) in
  let planned := bool_decide (StakeholderMap.planned node = Some true) in
  forallb (fun x => Validation.isValidResponse (StakeholderMap.orEmpty x) 10)
    [StakeholderMap.name a; StakeholderMap.contactMethod a;
     StakeholderMap.introductionMessage a; StakeholderMap.involvement a;
     StakeholderMap.appeal a]
  && planned.

(** The gate of the [stakeholders] step; [nodes] is [None] when the
    project has no stakeholders or no nodes. *)
Definition stakeholdersIsComplete
    (nodes : option (list (string * StakeholderMap.StakeholderNodeState)))
  : bool :=
  match nodes with
  | None => false
  | Some nodes =>
      (* Complete when at least one node has all 5 reflection fields valid *)
      existsb (fun kv => nodeOk kv.2) nodes
  end.

End Journey.

(* ================================================================== *)
(** * JavaScript values and [JSON.parse] *)
(* ================================================================== *)

(** Values that cross the JSON boundary.  A number keeps its source
    lexeme: no modelled code path computes with numbers. *)
#[warnings="-register-all"]
Inductive JsValue : Type :=
  | JUndefined
  | JNull
  | JBool (b : bool)
  | JNum (lexeme : string)
  | JStr (s : string)
  | JArr (items : list JsValue)
  | JObj (fields : gmap string JsValue).

Module Json.

Open Scope char_scope.

Definition dquote : ascii := ascii_of_nat 34.
Definition backslash : ascii := ascii_of_nat 92.

Definition isJsonWs (c : ascii) : bool :=
  let n := nat_of_ascii c in
  (n =? 9)%nat || (n =? 10)%nat || (n =? 13)%nat || (n =? 32)%nat.

Fixpoint skipWs (l : list ascii) : list ascii :=
  match l with
  | c :: r => if isJsonWs c then skipWs r else l
  | [] => []
  end.

Definition isDigit (c : ascii) : bool :=
  let n := nat_of_ascii c in (48 <=? n)%nat && (n <=? 57)%nat.

Definition hexVal (c : ascii) : option nat :=
  let n := nat_of_ascii c in
  if isDigit c then Some (n - 48)%nat
  else if ((97 <=? n)%nat && (n <=? 102)%nat) then Some (n - 87)%nat
  else if ((65 <=? n)%nat && (n <=? 70)%nat) then Some (n - 55)%nat
  else None.

(** The code unit denoted by [\uXXXX]; escapes above code unit 255 are
    outside the modelled character range. *)
Definition unicodeEscape (h1 h2 h3 h4 : ascii) : option ascii :=
  match hexVal h1, hexVal h2, hexVal h3, hexVal h4 with
  | Some a, Some b, Some c, Some d =>
      let n := (((a * 16 + b) * 16 + c) * 16 + d)%nat in
      if (n <? 256)%nat then Some (ascii_of_nat n) else None
  | _, _, _, _ => None
  end.

(** The code unit denoted by a two-character escape. *)
Definition simpleEscape (e : ascii) : option ascii :=
  if Ascii.eqb e dquote then Some dquote
  else if Ascii.eqb e backslash then Some backslash
  else if Ascii.eqb e "/" then Some "/"
  else if Ascii.eqb e "b" then Some (ascii_of_nat 8)
  else if Ascii.eqb e "f" then Some (ascii_of_nat 12)
  else if Ascii.eqb e "n" then Some (ascii_of_nat 10)
  else if Ascii.eqb e "r" then Some (ascii_of_nat 13)
  else if Ascii.eqb e "t" then Some (ascii_of_nat 9)
  else None.

Definition consChar (c : ascii) (p : option (list ascii * list ascii))
  : option (list ascii * list ascii) :=
  match p with
  | Some (s, t) => Some (c :: s, t)
  | None => None
  end.

(** Body of a string literal, after the opening quote: the characters
    it denotes and the input after the closing quote. *)
Fixpoint parseChars (l : list ascii) : option (list ascii * list ascii) :=
  match l with
  | [] => None
  | c :: r =>
      if Ascii.eqb c dquote then Some ([], r)
      else if Ascii.eqb c backslash then
        match r with
        | [] => None
        | e :: r1 =>
            if Ascii.eqb e "u" then
              match r1 with
              | h1 :: h2 :: h3 :: h4 :: r2 =>
                  match unicodeEscape h1 h2 h3 h4 with
                  | Some u => consChar u (parseChars r2)
                  | None => None
                  end
              | _ => None
              end
            else
              match simpleEscape e with
              | Some u => consChar u (parseChars r1)
              | None => None
              end
        end
      else if (nat_of_ascii c <? 32)%nat then None
      else consChar c (parseChars r)
  end.

(** Longest prefix of decimal digits, and what follows it. *)
Fixpoint spanDigits (l : list ascii) : list ascii * list ascii :=
  match l with
  | c :: r => if isDigit c
              then let '(d, t) := spanDigits r in (c :: d, t)
              else ([], l)
  | [] => ([], [])
  end.

(** A number lexeme: an optional minus sign; an integer part that is
    either 0 or a non-zero digit followed by digits; an optional
    fraction (a dot and one or more digits); an optional exponent
    (e or E, an optional sign, one or more digits). *)
Definition parseNumber (l : list ascii) : option (list ascii * list ascii) :=
  let '(sign, l1) :=
    match l with
    | c :: r => if Ascii.eqb c "-" then ([c], r) else ([], l)
    | [] => ([], l)
    end in
  let '(int, l2) := spanDigits l1 in
  match int with
  | [] => None
  | d :: ds =>
      if Ascii.eqb d "0" && negb (bool_decide (ds = [])) then
        (* a leading zero ends the integer part *)
        None
      else
        let frac :=
          match l2 with
          | c :: r =>
              if Ascii.eqb c "." then
                let '(f, t) := spanDigits r in
                match f with
                | [] => None
                | _ => Some (c :: f, t)
                end
              else Some ([], l2)
          | [] => Some ([], l2)
          end in
        match frac with
        | None => None
        | Some (f, l3) =>
            let expo :=
              match l3 with
              | c :: r =>
                  if Ascii.eqb c "e" || Ascii.eqb c "E" then
                    let '(sg, r1) :=
                      match r with
                      | s :: r' =>
                          if Ascii.eqb s "+" || Ascii.eqb s "-"
                          then ([s], r') else ([], r)
                      | [] => ([], r)
                      end in
                    let '(e, t) := spanDigits r1 in
                    match e with
                    | [] => None
                    | _ => Some ((c :: sg ++ e)%list, t)
                    end
                  else Some ([], l3)
              | [] => Some ([], l3)
              end in
            match expo with
            | None => None
            | Some (e, l4) => Some ((sign ++ int ++ f ++ e)%list, l4)
            end
        end
  end.

(** A literal name ([null], [true], [false]) at the head of the input. *)
Definition parseWord (w : string) (v : JsValue) (l : list ascii)
  : option (JsValue * list ascii) :=
  let p := list_ascii_of_string w in
  if JS.startsWithL p l then Some (v, skipn (length p) l) else None.

(** Recursive descent over the JSON grammar.  Every call consumes one
    unit of [fuel]; [JSON_parse] supplies more than any input needs. *)
Fixpoint parseValue (fuel : nat) (l : list ascii)
  : option (JsValue * list ascii) :=
  match fuel with
  | O => None
  | S f =>
      match skipWs l with
      | [] => None
      | c :: r =>
          if Ascii.eqb c "[" then
            match skipWs r with
            | c' :: r' =>
                if Ascii.eqb c' "]" then Some (JArr [], r')
                else parseElements f (c' :: r') []
            | [] => None
            end
          else if Ascii.eqb c "{" then
            match skipWs r with
            | c' :: r' =>
                if Ascii.eqb c' "}" then Some (JObj ∅, r')
                else parseMembers f (c' :: r') ∅
            | [] => None
            end
          else if Ascii.eqb c dquote then
            match parseChars r with
            | Some (s, t) => Some (JStr (string_of_list_ascii s), t)
            | None => None
            end
          else if Ascii.eqb c "n" then parseWord "null" JNull (c :: r)
          else if Ascii.eqb c "t" then parseWord "true" (JBool true) (c :: r)
          else if Ascii.eqb c "f" then parseWord "false" (JBool false) (c :: r)
          else
            match parseNumber (c :: r) with
            | Some (n, t) => Some (JNum (string_of_list_ascii n), t)
            | None => None
            end
      end
  end
with parseElements (fuel : nat) (l : list ascii) (acc : list JsValue)
  : option (JsValue * list ascii) :=
  match fuel with
  | O => None
  | S f =>
      match parseValue f l with
      | Some (v, t) =>
          match skipWs t with
          | c :: r =>
              if Ascii.eqb c "," then parseElements f r (acc ++ [v])%list
              else if Ascii.eqb c "]" then Some (JArr (acc ++ [v])%list, r)
              else None
          | [] => None
          end
      | None => None
      end
  end
with parseMembers (fuel : nat) (l : list ascii) (acc : gmap string JsValue)
  : option (JsValue * list ascii) :=
  match fuel with
  | O => None
  | S f =>
      match skipWs l with
      | q :: r0 =>
          if Ascii.eqb q dquote then
            match parseChars r0 with
            | Some (k, t0) =>
                match skipWs t0 with
                | colon :: t1 =>
                    if Ascii.eqb colon ":" then
                      match parseValue f t1 with
                      | Some (v, t) =>
                          let acc' := <[string_of_list_ascii k := v]> acc in
                          match skipWs t with
                          | c :: r =>
                              if Ascii.eqb c "," then parseMembers f r acc'
                              else if Ascii.eqb c "}" then Some (JObj acc', r)
                              else None
                          | [] => None
                          end
                      | None => None
                      end
                    else None
                | [] => None
                end
            | None => None
            end
          else None
      | [] => None
      end
  end.

(** [JSON.parse(text)]; [None] stands for a thrown [SyntaxError]. *)
Definition JSON_parse (text : string) : option JsValue :=
  let l := list_ascii_of_string text in
  match parseValue (2 * length l + 2) l with
  | Some (v, t) =>
      match skipWs t with
      | [] => Some v
      | _ :: _ => None
      end
  | None => None
  end.

(** [Array.isArray(parsed) && parsed.every((x) => typeof x === 'string')],
    giving the array's strings when it holds. *)
Definition asStringArray (parsed : JsValue) : option (list string) :=
  match parsed with
  | JArr items =>
      if forallb (fun x => match x with JStr _ => true | _ => false end) items
      then Some (omap (fun x => match x with JStr s => Some s | _ => None end)
                   items)
      else None
  | _ => None
  end.

End Json.

(* ================================================================== *)
(** * Shared AI types ([lib/ai/types.ts]) *)
(* ================================================================== *)

Inductive Action : Type := review | generate | suggest.

#[global] Instance Action_eq_dec : EqDecision Action.
Proof. solve_decision. Defined.

(** [AIRequest]; [data] is duck-typed ([any]); [action] is [None] when
    the request body has no action. *)
Record AIRequest : Type := {
  projectId : string;
  stepId : string;
  zoneId : option string;
  action : option Action;
  data : JsValue;
}.

(** [AIContext] is built and extended as a plain object. *)
Abbreviation AIContext := (gmap string JsValue).

(** [AIResponse]; the optional members are [None] when absent. *)
Record AIResponse : Type := {
  feedback : list string;
  followUpQuestion : option string;
  success : bool;
  error : option string;
  generatedItems : option (list string);
}.

(** [PromptTemplate], without the sampling parameters. *)
Record PromptTemplate : Type := {
  systemPrompt : string;
  userPromptTemplate : AIContext -> string;
  model : option string;
}.

(* ================================================================== *)
(** * The response interpreter ([ReviewAssistant.parseResponse]) *)
(* ================================================================== *)

Module ReviewAssistant.

Import JS.
Open Scope char_scope.

Definition fence : list ascii := ["`"; "`"; "`"].

(** First replacement of [stripFences] (line 100), pattern
    [/^```(?:json)?\s*/i]: an opening fence at the very start, an
    optional [json] tag in either case, and the white space after it
    are removed. *)
Definition stripOpenFence (l : list ascii) : list ascii :=
  if startsWithL fence l then
    let r := skipn 3 l in
    let r := if startsWithL ["j"; "s"; "o"; "n"] (map lowerChar (firstn 4 r))
             then skipn 4 r else r in
    trimStartL r
  else l.

(** Second replacement of [stripFences] (line 101), pattern
    [/\s*```$/i]: the match, when there is one, is the closing fence at
    the very end together with the white space before it. *)
Definition stripCloseFence (l : list ascii) : list ascii :=
  if startsWithL (rev fence) (rev l) then
    trimEndL (firstn (length l - 3) l)
  else l.

(** The follow-up question pattern (line 140): first group, a full
    stop or an exclamation mark and one or more white-space characters;
    second group, one or more characters other than those two marks, a
    question mark and optional white space; then the end of the input.
    It is matched the way the engine does: leftmost start, greedy
    quantifiers, backtracking. *)
Definition isSentenceEnd (c : ascii) : bool :=
  Ascii.eqb c "." || Ascii.eqb c "!".

(** The question mark, optional white space, the end of the input. *)
Definition questionTail (l : list ascii) : bool :=
  match l with
  | c :: t => Ascii.eqb c "?" && forallb isWhiteSpace t
  | [] => false
  end.

(** The second group up to the end of the input: one or more
    characters other than the two marks, then [questionTail]. *)
Fixpoint questionBody (l : list ascii) : bool :=
  match l with
  | [] => false
  | c :: r => negb (isSentenceEnd c) && (questionBody r || questionTail r)
  end.

(** White space followed by the second group: the longest run of
    white space after which the second group still matches. *)
Fixpoint spacesThenBody (l : list ascii)
  : option (list ascii * list ascii) :=
  match l with
  | c :: r =>
      if isWhiteSpace c then
        match spacesThenBody r with
        | Some (ws, g2) => Some (c :: ws, g2)
        | None => if questionBody r then Some ([c], r) else None
        end
      else None
  | [] => None
  end.

(** [responseText.match(pattern)]: the two captured groups. *)
Fixpoint questionMatch (l : list ascii)
  : option (list ascii * list ascii) :=
  match l with
  | [] => None
  | c :: r =>
      if isSentenceEnd c then
        match spacesThenBody r with
        | Some (ws, g2) => Some (c :: ws, g2)
        | None => questionMatch r
        end
      else questionMatch r
  end.

(** [stripFences]: the text without its code-fence markers. *)
Definition stripFences (text : string) : string :=
  string_of_list_ascii
    (trimL (stripCloseFence (stripOpenFence (list_ascii_of_string text)))).

(** [candidate]: the text from the first opening bracket to the last
    closing bracket, when the latter comes after the former. *)
Definition bracketCandidate (text : string) : option string :=
  let l := list_ascii_of_string text in
  match indexOfL "[" l, lastIndexOfL ["]"] l with
  | Some start, Some stop =>
      if (start <? stop)%nat then
        Some (string_of_list_ascii (sliceL start (stop + 1) l))
      else None
  | _, _ => None
  end.

(** One [try] block: [JSON.parse] followed by the check that the result
    is an array of strings; [None] when either fails. *)
Definition parseStringArray (s : string) : option (list string) :=
  Json.JSON_parse s ≫= Json.asStringArray.

(** Helper: try to extract a JSON array of strings from arbitrary text *)
Definition tryExtractArray (text : string) : option (list string) :=
  match parseStringArray (stripFences text) with
  | Some parsed => Some parsed
  | None =>
      (* Fallback: find the first opening and the last closing bracket *)
      bracketCandidate text ≫= parseStringArray
  end.

(** The object returned by [parseResponse]. *)
Record Parsed : Type := {
  p_feedback : list string;
  p_followUpQuestion : option string;
  p_generatedItems : option (list string);
}.

Definition parseResponse (responseText : string) : Parsed :=
  let trimmed := trim responseText in
  (* If the model returned a JSON array, treat it as generated items *)
  match tryExtractArray trimmed with
  | Some array =>
      {| p_feedback := []; p_followUpQuestion := None;
         p_generatedItems := Some array |}
  | None =>
      (* Try to extract follow-up question *)
      let l := list_ascii_of_string responseText in
      let '(feedbackText, followUp) :=
        match questionMatch l with
        | Some (g1, g2) =>
            let stop :=
              match lastIndexOfL g1 l with
              | Some i => (i + length g1)%nat
              | None => (length g1 - 1)%nat
              end in
            (string_of_list_ascii (trimL (firstn stop l)),
             Some (string_of_list_ascii (trimL g2)))
        | None => (responseText, None)
        end in
      let fb := if bool_decide (feedbackText = "")%string
                then [responseText] else [feedbackText] in
      {| p_feedback := fb; p_followUpQuestion := followUp;
         p_generatedItems := None |}
  end.

(** What [openai.chat.completions.create] does: it resolves with the
    first choice's message content, or rejects with an error that may
    carry an HTTP status and a message. *)
Inductive Completion : Type :=
  | Resolved (content : option string)
  | Rejected (status : option nat) (message : option string).

(** The request handed to the reasoning service. *)
Record ChatRequest : Type := {
  chat_model : string;
  chat_system : string;
  chat_user : string;
}.

Definition failure (msg : string) : AIResponse :=
  {| feedback := []; followUpQuestion := None; success := false;
     error := Some msg; generatedItems := None |}.

(** [ReviewAssistant.process] *)
Definition process (create : ChatRequest -> Completion)
    (request : AIRequest) (context : AIContext)
    (promptTemplate : PromptTemplate) : AIResponse :=
  let userPrompt := userPromptTemplate promptTemplate context in
  match create {| chat_model := default "gpt-4o-mini"%string
                                  (model promptTemplate);
                  chat_system := systemPrompt promptTemplate;
                  chat_user := userPrompt |} with
  | Resolved content =>
      let responseText :=
        match content with
        | Some c => trim c
        | None => ""%string
        end in
      let r := parseResponse responseText in
      {| feedback := p_feedback r;
         followUpQuestion := p_followUpQuestion r;
         success := true; error := None;
         generatedItems := p_generatedItems r |}
  | Rejected status message =>
      if bool_decide (status = Some 429%nat) then
        failure "Rate limit exceeded. Please try again in a moment."
      else if bool_decide (status = Some 401%nat) then
        failure "OpenAI API key invalid or missing"
      else
        failure (match message with
                 | Some m => if bool_decide (m = "")%string
                             then "Failed to get feedback"%string else m
                 | None => "Failed to get feedback"%string
                 end)
  end.

End ReviewAssistant.

(* ================================================================== *)
(** * The response parsing of the review-zone and review-fourws routes *)
(* ================================================================== *)

(** The two route handlers that the unified endpoint replaces parse the
    reply with the same three patterns; they differ in the number of
    feedback points they keep.  The bullet character U+2022 of their
    character classes lies outside the modelled character range, which
    leaves the hyphen as the only bullet. *)
Module LegacyReview.

Import JS.
Open Scope char_scope.

Definition LFc : ascii := ascii_of_nat 10.

(** The characters that the dot of a pattern does not match. *)
Definition isLineTerminator (c : ascii) : bool :=
  Ascii.eqb c LFc || Ascii.eqb c (ascii_of_nat 13).

Definition isBullet (c : ascii) : bool := Ascii.eqb c "-".

(** One or more digits and a full stop at the head of the input: the
    length of the match. *)
Definition digitsDot (l : list ascii) : option nat :=
  let '(d, t) := Json.spanDigits l in
  match d, t with
  | _ :: _, c :: _ => if Ascii.eqb c "." then Some (S (length d)) else None
  | _, _ => None
  end.

(** The list marker: a number and a full stop, or a bullet. *)
Definition marker (l : list ascii) : option nat :=
  match digitsDot l with
  | Some n => Some n
  | None =>
      match l with
      | c :: _ => if isBullet c then Some 1%nat else None
      | [] => None
      end
  end.

(** The look-ahead that ends an item: a line feed followed by a
    numbered marker, by a bullet or by another line feed, or the end of
    the input. *)
Definition itemEnds (r : list ascii) : bool :=
  match r with
  | [] => true
  | c :: r1 =>
      Ascii.eqb c LFc
      && (bool_decide (is_Some (digitsDot r1))
          || match r1 with
             | c2 :: _ => isBullet c2 || Ascii.eqb c2 LFc
             | [] => false
             end)
  end.

(** The lazily matched text of an item: the shortest non-empty run of
    characters, none a line terminator, after which the item ends. *)
Fixpoint lazyText (l : list ascii) : option nat :=
  match l with
  | [] => None
  | c :: r =>
      if isLineTerminator c then None
      else if itemEnds r then Some 1%nat
      else option_map S (lazyText r)
  end.

(** Greedy white space followed by the text of the item, giving white
    space back when the text cannot be matched after it. *)
Fixpoint spacesThenText (l : list ascii) : option nat :=
  match l with
  | c :: r =>
      if isWhiteSpace c then
        match spacesThenText r with
        | Some n => Some (S n)
        | None => lazyText l
        end
      else lazyText l
  | [] => None
  end.

(** The length of the match of the item pattern at the head of [l]. *)
Definition itemAt (l : list ascii) : option nat :=
  match marker l with
  | Some n =>
      match spacesThenText (skipn n l) with
      | Some m => Some (n + m)%nat
      | None => None
      end
  | None => None
  end.

(** [responseText.match(pattern)] with the global flag: all the matches,
    from left to right.  [fuel] bounds the number of start positions
    tried; the length of the input is enough. *)
Fixpoint allItems (fuel : nat) (l : list ascii) : list (list ascii) :=
  match fuel with
  | O => []
  | S f =>
      match l with
      | [] => []
      | _ :: r =>
          match itemAt l with
          | Some n => firstn n l :: allItems f (skipn n l)
          | None => allItems f r
          end
      end
  end.

(** White space, a bullet and white space at the head of the input:
    what follows the match. *)
Definition bulletAt (l : list ascii) : option (list ascii) :=
  match trimStartL l with
  | b :: r => if isBullet b then Some (trimStartL r) else None
  | [] => None
  end.

(** The input without the leftmost bullet and the white space around
    it. *)
Fixpoint stripBullet (l : list ascii) : option (list ascii) :=
  match l with
  | [] => None
  | c :: r =>
      match bulletAt l with
      | Some rest => Some rest
      | None => option_map (cons c) (stripBullet r)
      end
  end.

(** The replacement that removes the marker of an item. *)
Definition stripMarker (item : list ascii) : list ascii :=
  match digitsDot item with
  | Some n => skipn n item
  | None => default item (stripBullet item)
  end.

(** The lazily matched body of the question: the shortest non-empty run
    of characters followed by a question mark, white space and the end
    of the input. *)
Fixpoint lazyQuestion (l : list ascii) : option nat :=
  match l with
  | [] => None
  | _ :: r =>
      if ReviewAssistant.questionTail r then Some 1%nat
      else option_map S (lazyQuestion r)
  end.

(** The question pattern at the head of [l]: two line feeds, a character
    that is neither a digit nor a bullet, the body, the question mark. *)
Definition questionAt (l : list ascii) : option (list ascii) :=
  match l with
  | a :: b :: x :: rest =>
      if Ascii.eqb a LFc && Ascii.eqb b LFc
         && negb (Json.isDigit x || isBullet x)
      then option_map (fun m => x :: firstn (S m) rest) (lazyQuestion rest)
      else None
  | _ => None
  end.

(** The first captured group of the leftmost match. *)
Fixpoint questionGroup (l : list ascii) : option (list ascii) :=
  match l with
  | [] => None
  | _ :: r =>
      match questionAt l with
      | Some g => Some g
      | None => questionGroup r
      end
  end.

(** The parsing block of the handlers; [limit] is 5 for zones and 6 for
    the 4Ws. *)
Definition parseReview (limit : nat) (responseText : string)
  : list string * option string :=
  let l := list_ascii_of_string responseText in
  let feedbackMatch := allItems (length l) l in
  let feedback :=
    match feedbackMatch with
    | [] => [responseText]
    | _ :: _ =>
        map (fun item => string_of_list_ascii (trimL (stripMarker item)))
          feedbackMatch
    end in
  let followUpQuestion :=
    option_map (fun g => string_of_list_ascii (trimL g)) (questionGroup l) in
  (firstn limit feedback, followUpQuestion).

End LegacyReview.

(* ================================================================== *)
(** * Data model of the Co-Founder Lab and of a project document *)
(* ================================================================== *)

Inductive StageId : Type :=
  | initial_reflection
  | choosing_directions
  | co_design
  | variants
  | selection
  | next_panel
  | completed.

#[global] Instance StageId_eq_dec : EqDecision StageId.
Proof. solve_decision. Defined.

Inductive Role : Type := ai | student.

Record Message : Type := {
  role : Role;
  content : string;
  timestamp : Z;
  stage : option StageId;
}.

Record ProposedSolution : Type := {
  title : string;
  description : string;
  whoItsFor : string;
  howItWorks : string;
  whyItMatters : string;
}.

Record CoFounderLabData : Type := {
  conversationHistory : list Message;
  currentStage : StageId;
  selectedSolutions : list string;
  proposedSolution : option ProposedSolution;
  coDesignPhase : option string;
  variantOptions : option (list string);
  ideaBank : option (list string);
  lockedVariant : option string;
}.

Definition EMPTY_LAB_DATA : CoFounderLabData :=
  {| conversationHistory := [];
     currentStage := initial_reflection;
     selectedSolutions := [];
     proposedSolution := None;
     coDesignPhase := Some "choose-direction";
     variantOptions := None;
     ideaBank := None;
     lockedVariant := None |}.

(** A document of the [projects] collection, restricted to the fields
    the modelled code reads or writes.  Fields typed [any] in the
    sources are [JsValue]s ([JUndefined] when absent); [coFounderLab] is
    [None] when absent or [null]. *)
Record ProjectDoc : Type := {
  chosenProblem : JsValue;
  problemExploration : JsValue;
  problemStatement : JsValue;
  solutionWheel : JsValue;
  coFounderLab : option CoFounderLabData;
  currentStepId : option string;
  decision : JsValue;
}.

(** The [projects] collection. *)
Abbreviation Projects := (gmap string ProjectDoc).

(* ================================================================== *)
(** * Duck-typed property access *)
(* ================================================================== *)

Module Duck.

(** The number that a run of decimal digits denotes, after [acc]. *)
Fixpoint digitsValue (acc : Z) (l : list ascii) : Z :=
  match l with
  | [] => acc
  | c :: r => digitsValue (10 * acc + (Z.of_nat (nat_of_ascii c) - 48))%Z r
  end.

(** Whether a number lexeme denotes zero once it is read as a double.
    With the digits [m] of its integer part and fraction and its decimal
    exponent [e], the lexeme denotes [m * 10 ^ e]; the nearest double is
    zero when [m] is zero and when the number does not exceed [2 ^ -1075],
    half of the least positive double (a tie goes to the even neighbour,
    which is zero). *)
Definition isZeroNumber (lexeme : string) : bool :=
  let l := list_ascii_of_string lexeme in
  let l := match l with
           | c :: r => if Ascii.eqb c "-" then r else l
           | [] => l
           end in
  let '(int, l1) := Json.spanDigits l in
  let '(frac, l2) :=
    match l1 with
    | c :: r => if Ascii.eqb c "." then Json.spanDigits r else ([], l1)
    | [] => ([], l1)
    end in
  let exponent : Z :=
    match l2 with
    | c :: r =>
        if (Ascii.eqb c "e" || Ascii.eqb c "E")%char then
          match r with
          | s :: r' =>
              if Ascii.eqb s "-" then (- digitsValue 0 (Json.spanDigits r').1)%Z
              else if Ascii.eqb s "+" then digitsValue 0 (Json.spanDigits r').1
              else digitsValue 0 (Json.spanDigits r).1
          | [] => 0%Z
          end
        else 0%Z
    | [] => 0%Z
    end in
  let m := digitsValue 0 (int ++ frac)%list in
  let e := (exponent - Z.of_nat (length frac))%Z in
  if (m =? 0)%Z then true
  else if (0 <=? e)%Z then false
  else (m * 2 ^ 1075 <=? 10 ^ (- e))%Z.

(** JavaScript truthiness. *)
Definition truthy (v : JsValue) : bool :=
  match v with
  | JUndefined | JNull => false
  | JBool b => b
  | JNum lexeme => negb (isZeroNumber lexeme)
  | JStr s => negb (bool_decide (s = ""))
  | JArr _ | JObj _ => true
  end.

(** [a || b] *)
Definition orElse (a b : JsValue) : JsValue := if truthy a then a else b.

(** [v?.k] for a key that no array or string owns. *)
Definition optProp (v : JsValue) (k : string) : JsValue :=
  match v with
  | JObj fields => default JUndefined (fields !! k)
  | _ => JUndefined
  end.

Definition indexKey (i : nat) : string :=
  NilZero.string_of_uint (Nat.to_uint i).

(** The own enumerable properties that [{...v}] copies. *)
Definition spread (v : JsValue) : gmap string JsValue :=
  match v with
  | JObj fields => fields
  | JArr items =>
      list_to_map (imap (fun i x => (indexKey i, x)) items)
  | JStr s =>
      list_to_map (imap (fun i c => (indexKey i, JStr (String c "")))
                     (list_ascii_of_string s))
  | _ => ∅
  end.

End Duck.

(* ================================================================== *)
(** * The orchestrator ([AIOrchestrator]) *)
(* ================================================================== *)

Module Orchestrator.

Import Duck.

(** What [getDoc] does: it rejects, or resolves with a snapshot that
    holds the document's data when the document exists. *)
Inductive GetDoc : Type :=
  | GetDocRejected
  | Snapshot (projectData : option ProjectDoc).

(** Reading the [projects] collection; [reachable] is false when the
    read itself fails. *)
Definition getDoc (reachable : bool) (db : Projects) (id : string) : GetDoc :=
  if reachable then Snapshot (db !! id) else GetDocRejected.

(** The result of an [async] function. *)
Inductive Promise (A : Type) : Type :=
  | Fulfilled (value : A)
  | Threw (message : string).
Arguments Fulfilled {A} value.
Arguments Threw {A} message.

Definition nonEmpty (o : option string) : option string :=
  match o with
  | Some z => if bool_decide (z = "") then None else Some z
  | None => None
  end.

(** The body of the [try] block of [buildContext]. *)
Definition buildContextTry (reachable : bool) (db : Projects)
    (request : AIRequest) : Promise AIContext :=
  match getDoc reachable db (projectId request) with
  | GetDocRejected => Threw "getDoc failed"
  | Snapshot None => Threw "Project not found"
  | Snapshot (Some projectData) =>
      (* Build context with all available data *)
      let context : AIContext :=
        {[ "projectId" := JStr (projectId request);
           "chosenProblem" := orElse (chosenProblem projectData) JNull;
           "problemExploration" :=
             orElse (problemExploration projectData) JUndefined;
           "problemStatement" :=
             orElse (problemStatement projectData) JUndefined ]} in
      (* Add zone-specific data if reviewing a zone *)
      let context :=
        match nonEmpty (zoneId request) with
        | Some z =>
            if truthy (optProp (data request) "answers") then
              <["currentZoneData" :=
                  JObj {[ "zoneId" := JStr z;
                          "answers" := optProp (data request) "answers" ]}]>
                context
            else context
        | None => context
        end in
      (* Add 4Ws field-specific data if reviewing 4Ws *)
      let context :=
        if bool_decide (stepId request = "four-ws")
           && truthy (optProp (data request) "problemStatement")
        then <["problemStatement" :=
                 optProp (data request) "problemStatement"]> context
        else context in
      (* Add Co-Founder Lab specific data *)
      let context :=
        if bool_decide (stepId request = "cofounder-lab")
           && truthy (data request)
        then <["currentZoneData" :=
                 JObj (spread (data request) ∪
                       {[ "zoneId" :=
                            JStr (default "cofounder-lab"
                                    (nonEmpty (zoneId request)));
                          "answers" := JArr [] ]})]> context
        else context in
      Fulfilled context
  end.

(** The object returned by the [catch] block of [buildContext]. *)
Definition minimalContext (request : AIRequest) : AIContext :=
  {[ "projectId" := JStr (projectId request); "chosenProblem" := JNull ]}.

(** [AIOrchestrator.buildContext]: the [catch] block turns every error
    into the minimal context. *)
Definition buildContext (reachable : bool) (db : Projects)
    (request : AIRequest) : Promise AIContext :=
  match buildContextTry reachable db request with
  | Fulfilled context => Fulfilled context
  | Threw _ =>
      (* Return minimal context on error *)
      Fulfilled (minimalContext request)
  end.

Section Process.

(** The prompt library and the reasoning service. *)
Variable PROMPT_REGISTRY : gmap string PromptTemplate.
Variable create : ReviewAssistant.ChatRequest -> ReviewAssistant.Completion.

(** [getPrompt(stepId, zoneId)]: a lookup among the keys of the
    registry itself.  Keys that only [Object.prototype] answers (such
    as [constructor]) are not modelled: for them the code fails as
    well, after this lookup and with another error text. *)
Definition getPrompt (stepId : string) (zoneId : option string)
  : option PromptTemplate :=
  let key := match nonEmpty zoneId with
             | Some z => stepId ++ ":" ++ z
             | None => stepId
             end in
  PROMPT_REGISTRY !! key.

Definition actionName (a : Action) : string :=
  match a with
  | review => "review" | generate => "generate" | suggest => "suggest"
  end.

(** Steps 2 and 3 of [AIOrchestrator.process]: the prompt template is
    looked up and the request is routed to the assistant. *)
Definition dispatch (request : AIRequest) (context : AIContext)
  : AIResponse :=
  match getPrompt (stepId request) (zoneId request) with
  | None =>
      ReviewAssistant.failure
        ("No prompt template found for step: " ++ stepId request
         ++ ", zone: " ++ default "undefined" (zoneId request))
  | Some promptTemplate =>
      match action request with
      | Some review | Some generate =>
          ReviewAssistant.process create request context promptTemplate
      | _ =>
          ReviewAssistant.failure
            ("Unknown action: "
             ++ default "undefined" (actionName <$> action request))
      end
  end.

(** [AIOrchestrator.process] *)
Definition process (reachable : bool) (db : Projects)
    (request : AIRequest) : AIResponse :=
  match buildContext reachable db request with
  | Threw message =>
      ReviewAssistant.failure
        (if bool_decide (message = "") then "Orchestration failed"
         else message)
  | Fulfilled context => dispatch request context
  end.

End Process.

End Orchestrator.

(* ================================================================== *)
(** * The HTTP boundary ([app/api/ai/route.ts]) *)
(* ================================================================== *)

Module Route.

(** The JSON body of a response; absent members are [None], and so is a
    [null] member. *)
Record ApiResult : Type := {
  r_success : bool;
  r_feedback : option (list string);
  r_followUpQuestion : option string;
  r_generatedItems : option (list string);
  r_error : option string;
}.

Record HttpResponse : Type := {
  status : nat;
  body : ApiResult;
}.

Definition errorBody (msg : option string) : ApiResult :=
  {| r_success := false; r_feedback := None; r_followUpQuestion := None;
     r_generatedItems := None; r_error := msg |}.

Section Post.

Variable PROMPT_REGISTRY : gmap string PromptTemplate.
Variable create : ReviewAssistant.ChatRequest -> ReviewAssistant.Completion.

(** [POST]; [apiKey] is the [OPENAI_API_KEY] environment variable. *)
Definition POST (apiKey : option string) (reachable : bool) (db : Projects)
    (request : AIRequest) : HttpResponse :=
  (* Validate required fields *)
  if bool_decide (projectId request = "") || bool_decide (stepId request = "")
     || bool_decide (action request = None)
  then {| status := 400;
          body := errorBody
            (Some "Missing required fields: projectId, stepId, or action") |}
  else
    match Orchestrator.nonEmpty apiKey with
    | None => {| status := 500; body := errorBody (Some "Internal server error") |}
    | Some _ =>
        let response :=
          Orchestrator.process PROMPT_REGISTRY create reachable db request in
        if negb (success response) then
          {| status := 500; body := errorBody (error response) |}
        else
          {| status := 200;
             body := {| r_success := true;
                        r_feedback := Some (feedback response);
                        r_followUpQuestion := followUpQuestion response;
                        r_generatedItems := generatedItems response;
                        r_error := None |} |}
    end.

End Post.

End Route.

(* ================================================================== *)
(** * The Co-Founder Lab step ([CoFounderLabStep]) *)
(* ================================================================== *)

Module CoFounderLab.

(** ** Persistence ([firebase.ts]) *)

(** One field of the [partial] object handed to [updateProject]. *)
Inductive FieldWrite : Type :=
  | SetCoFounderLab (v : option CoFounderLabData)
  | SetCurrentStepId (s : string)
  | SetDecision (d : JsValue).

Definition applyWrite (d : ProjectDoc) (f : FieldWrite) : ProjectDoc :=
  match f with
  | SetCoFounderLab v =>
      {| chosenProblem := chosenProblem d;
         problemExploration := problemExploration d;
         problemStatement := problemStatement d;
         solutionWheel := solutionWheel d;
         coFounderLab := v;
         currentStepId := currentStepId d;
         decision := decision d |}
  | SetCurrentStepId s =>
      {| chosenProblem := chosenProblem d;
         problemExploration := problemExploration d;
         problemStatement := problemStatement d;
         solutionWheel := solutionWheel d;
         coFounderLab := coFounderLab d;
         currentStepId := Some s;
         decision := decision d |}
  | SetDecision v =>
      {| chosenProblem := chosenProblem d;
         problemExploration := problemExploration d;
         problemStatement := problemStatement d;
         solutionWheel := solutionWheel d;
         coFounderLab := coFounderLab d;
         currentStepId := currentStepId d;
         decision := v |}
  end.

(** [updateProject(projectId, partial)]: one [updateDoc] call that sets
    all the fields of [partial] together.  It rejects ([None]) when the
    write fails ([ok] false) or the document does not exist; the
    collection is then unchanged. *)
Definition updateProject (ok : bool) (id : string) (partial : list FieldWrite)
    (db : Projects) : option Projects :=
  match db !! id with
  | Some d => if ok then Some (<[id := foldl applyWrite d partial]> db)
              else None
  | None => None
  end.

(** ** The reasoning calls issued through [fetch('/api/ai')] *)

(** The [data] member of a request body. *)
Inductive CallData : Type :=
  | ReflectionCall (wheel : JsValue)
  | SelectionCall (history : list Message) (bank : list string)
  | VariantsCall (selected : list string) (history : list Message)
      (trigger : string) (wheel : JsValue).

(** What [fetch] followed by [response.json()] gives: a rejection, or
    the JSON body. *)
Inductive FetchOutcome : Type :=
  | FetchRejected
  | FetchJson (result : Route.ApiResult).

(** [result.success && result.feedback] *)
Definition successfulFeedback (o : FetchOutcome) : option (list string) :=
  match o with
  | FetchJson result =>
      if Route.r_success result then Route.r_feedback result else None
  | FetchRejected => None
  end.

(** ** Component state *)

Record Component : Type := {
  actualProjectId : option string;  (* [None] when absent or empty *)
  project : option ProjectDoc;
  labData : CoFounderLabData;
  inputValue : string;
  isAIThinking : bool;
  expandedStages : list StageId;
  pickedSolutions : list string;    (* the [selectedSolutions] state *)
  showResetWarning : bool;
  hasInitialized : bool;
  hasAutoStarted : bool;
}.

(** The component together with the store it writes to and the log of
    the reasoning calls it has issued (oldest first). *)
Record World : Type := {
  comp : Component;
  db : Projects;
  calls : list (string * CallData);
}.

Definition withComp (f : Component -> Component) (w : World) : World :=
  {| comp := f (comp w); db := db w; calls := calls w |}.

Definition withDb (d : Projects) (w : World) : World :=
  {| comp := comp w; db := d; calls := calls w |}.

Definition logCall (id : string) (c : CallData) (w : World) : World :=
  {| comp := comp w; db := db w; calls := calls w ++ [(id, c)] |}.

Definition setLabData (v : CoFounderLabData) (c : Component) : Component :=
  {| actualProjectId := actualProjectId c; project := project c;
     labData := v; inputValue := inputValue c;
     isAIThinking := isAIThinking c; expandedStages := expandedStages c;
     pickedSolutions := pickedSolutions c;
     showResetWarning := showResetWarning c;
     hasInitialized := hasInitialized c; hasAutoStarted := hasAutoStarted c |}.

Definition setInputValue (v : string) (c : Component) : Component :=
  {| actualProjectId := actualProjectId c; project := project c;
     labData := labData c; inputValue := v;
     isAIThinking := isAIThinking c; expandedStages := expandedStages c;
     pickedSolutions := pickedSolutions c;
     showResetWarning := showResetWarning c;
     hasInitialized := hasInitialized c; hasAutoStarted := hasAutoStarted c |}.

Definition setIsAIThinking (v : bool) (c : Component) : Component :=
  {| actualProjectId := actualProjectId c; project := project c;
     labData := labData c; inputValue := inputValue c;
     isAIThinking := v; expandedStages := expandedStages c;
     pickedSolutions := pickedSolutions c;
     showResetWarning := showResetWarning c;
     hasInitialized := hasInitialized c; hasAutoStarted := hasAutoStarted c |}.

Definition setExpandedStages (v : list StageId) (c : Component) : Component :=
  {| actualProjectId := actualProjectId c; project := project c;
     labData := labData c; inputValue := inputValue c;
     isAIThinking := isAIThinking c; expandedStages := v;
     pickedSolutions := pickedSolutions c;
     showResetWarning := showResetWarning c;
     hasInitialized := hasInitialized c; hasAutoStarted := hasAutoStarted c |}.

Definition setSelectedSolutions (v : list string) (c : Component) : Component :=
  {| actualProjectId := actualProjectId c; project := project c;
     labData := labData c; inputValue := inputValue c;
     isAIThinking := isAIThinking c; expandedStages := expandedStages c;
     pickedSolutions := v;
     showResetWarning := showResetWarning c;
     hasInitialized := hasInitialized c; hasAutoStarted := hasAutoStarted c |}.

Definition setShowResetWarning (v : bool) (c : Component) : Component :=
  {| actualProjectId := actualProjectId c; project := project c;
     labData := labData c; inputValue := inputValue c;
     isAIThinking := isAIThinking c; expandedStages := expandedStages c;
     pickedSolutions := pickedSolutions c;
     showResetWarning := v;
     hasInitialized := hasInitialized c; hasAutoStarted := hasAutoStarted c |}.

Definition setHasAutoStarted (v : bool) (c : Component) : Component :=
  {| actualProjectId := actualProjectId c; project := project c;
     labData := labData c; inputValue := inputValue c;
     isAIThinking := isAIThinking c; expandedStages := expandedStages c;
     pickedSolutions := pickedSolutions c;
     showResetWarning := showResetWarning c;
     hasInitialized := hasInitialized c; hasAutoStarted := v |}.

(** Spreads of [labData] with one or more members replaced. *)
Definition withIdeaBank (b : list string) (d : CoFounderLabData)
  : CoFounderLabData :=
  {| conversationHistory := conversationHistory d;
     currentStage := currentStage d;
     selectedSolutions := selectedSolutions d;
     proposedSolution := proposedSolution d;
     coDesignPhase := coDesignPhase d;
     variantOptions := variantOptions d;
     ideaBank := Some b;
     lockedVariant := lockedVariant d |}.

Definition withStage (s : StageId) (d : CoFounderLabData) : CoFounderLabData :=
  {| conversationHistory := conversationHistory d;
     currentStage := s;
     selectedSolutions := selectedSolutions d;
     proposedSolution := proposedSolution d;
     coDesignPhase := coDesignPhase d;
     variantOptions := variantOptions d;
     ideaBank := ideaBank d;
     lockedVariant := lockedVariant d |}.

Definition withHistory (h : list Message) (d : CoFounderLabData)
  : CoFounderLabData :=
  {| conversationHistory := h;
     currentStage := currentStage d;
     selectedSolutions := selectedSolutions d;
     proposedSolution := proposedSolution d;
     coDesignPhase := coDesignPhase d;
     variantOptions := variantOptions d;
     ideaBank := ideaBank d;
     lockedVariant := lockedVariant d |}.

Definition withVariantOptions (v : list string) (d : CoFounderLabData)
  : CoFounderLabData :=
  {| conversationHistory := conversationHistory d;
     currentStage := currentStage d;
     selectedSolutions := selectedSolutions d;
     proposedSolution := proposedSolution d;
     coDesignPhase := coDesignPhase d;
     variantOptions := Some v;
     ideaBank := ideaBank d;
     lockedVariant := lockedVariant d |}.

Definition withLock (choice : string) (p : ProposedSolution)
    (d : CoFounderLabData) : CoFounderLabData :=
  {| conversationHistory := conversationHistory d;
     currentStage := completed;
     selectedSolutions := selectedSolutions d;
     proposedSolution := Some p;
     coDesignPhase := coDesignPhase d;
     variantOptions := variantOptions d;
     ideaBank := ideaBank d;
     lockedVariant := Some choice |}.

(** [labData.ideaBank || []] *)
Definition bankOf (d : CoFounderLabData) : list string :=
  default [] (ideaBank d).

(** [labData.variantOptions || []] *)
Definition optionsOf (d : CoFounderLabData) : list string :=
  default [] (variantOptions d).

Definition aiMessage (fb : list string) (now : Z) (s : StageId) : Message :=
  {| role := ai; content := JS.join (JS.LF ++ JS.LF) fb;
     timestamp := now; stage := Some s |}.

(** ** Handlers

    Every handler takes the outcomes of the operations it awaits: [ok]
    flags for writes, a [FetchOutcome] for a reasoning call, and the
    clock reading [now] for [Date.now()]. *)

(** [saveLabData(data)]: a failed write is logged and swallowed. *)
Definition saveLabData (ok : bool) (data : CoFounderLabData) (w : World)
  : World :=
  match actualProjectId (comp w) with
  | None => w
  | Some id =>
      match updateProject ok id [SetCoFounderLab (Some data)] (db w) with
      | Some db' => withDb db' w
      | None => w
      end
  end.

(** The subscription callback of [subscribeToProject]. *)
Definition onSnapshot (updatedProject : option ProjectDoc) (w : World)
  : World :=
  withComp (fun c =>
    let c1 :=
      {| actualProjectId := actualProjectId c; project := updatedProject;
         labData := labData c; inputValue := inputValue c;
         isAIThinking := isAIThinking c; expandedStages := expandedStages c;
         pickedSolutions := pickedSolutions c;
         showResetWarning := showResetWarning c;
         hasInitialized := hasInitialized c;
         hasAutoStarted := hasAutoStarted c |} in
    match updatedProject with
    | Some p =>
        if hasInitialized c then c1
        else
          let c2 :=
            match coFounderLab p with
            | Some existing =>
                setExpandedStages [initial_reflection; currentStage existing]
                  (setLabData existing c1)
            | None => c1
            end in
          {| actualProjectId := actualProjectId c2; project := project c2;
             labData := labData c2; inputValue := inputValue c2;
             isAIThinking := isAIThinking c2;
             expandedStages := expandedStages c2;
             pickedSolutions := pickedSolutions c2;
             showResetWarning := showResetWarning c2;
             hasInitialized := true;
             hasAutoStarted := hasAutoStarted c2 |}
    | None => c1
    end) w.

(** [generateInitialReflection], up to the point where it awaits the
    reasoning call.  The continuation closes over the [labData] of the
    render that started it, which is returned with the new world;
    [None] when the function returns early. *)
Definition generateInitialReflection_begin (w : World)
  : option (World * CoFounderLabData) :=
  match actualProjectId (comp w), project (comp w) with
  | Some id, Some p =>
      Some (logCall id (ReflectionCall (solutionWheel p))
              (withComp (setIsAIThinking true) w),
            labData (comp w))
  | _, _ => None
  end.

(** [generateInitialReflection], from the arrival of the response. *)
Definition generateInitialReflection_resume (captured : CoFounderLabData)
    (reply : FetchOutcome) (now : Z) (ok : bool) (w : World) : World :=
  let w1 :=
    match successfulFeedback reply with
    | Some fb =>
        let updated :=
          withStage choosing_directions
            (withHistory [aiMessage fb now initial_reflection] captured) in
        let w' := withComp (setLabData updated) w in
        let w' := saveLabData ok updated w' in
        (* Keep reflection expanded, and open choosing-directions *)
        withComp (setExpandedStages [initial_reflection; choosing_directions]) w'
    | None => w
    end in
  withComp (setIsAIThinking false) w1.

Definition generateInitialReflection (reply : FetchOutcome) (now : Z)
    (ok : bool) (w : World) : World :=
  match generateInitialReflection_begin w with
  | Some (w', captured) =>
      generateInitialReflection_resume captured reply now ok w'
  | None => w
  end.

(** The condition of the auto-start effect. *)
Definition autoStartCondition (w : World) : bool :=
  let c := comp w in
  negb (hasAutoStarted c)
  && hasInitialized c
  && bool_decide (length (conversationHistory (labData c)) = 0%nat)
  && match project c with
     | Some p => Duck.truthy (solutionWheel p)
     | None => false
     end
  && negb (isAIThinking c)
  && bool_decide (is_Some (actualProjectId c)).

(** One evaluation of the auto-start effect: the new world and, when a
    reflection was started, the [labData] its continuation closes over. *)
Definition autoStartEffect (w : World) : World * option CoFounderLabData :=
  if autoStartCondition w then
    let w1 := withComp (setHasAutoStarted true) w in
    match generateInitialReflection_begin w1 with
    | Some (w2, captured) => (w2, Some captured)
    | None => (w1, None)
    end
  else (w, None).

(** [generateSelectionAI(data)] *)
Definition generateSelectionAI (data : CoFounderLabData)
    (reply : FetchOutcome) (now : Z) (ok : bool) (w : World) : World :=
  match actualProjectId (comp w) with
  | None => w
  | Some id =>
      let w := withComp (setIsAIThinking true) w in
      let w := logCall id
                 (SelectionCall (conversationHistory data) (bankOf data)) w in
      let w :=
        match successfulFeedback reply with
        | Some fb =>
            let next :=
              withHistory (conversationHistory data
                             ++ [aiMessage fb now selection])%list data in
            saveLabData ok next (withComp (setLabData next) w)
        | None => w
        end in
      withComp (setIsAIThinking false) w
  end.

(** [proceedToSelection]; [ok1] is the outcome of its own write, [reply]
    and [ok2] those of the reasoning call and of the write that follows
    a successful reply. *)
Definition proceedToSelection (ok1 : bool) (reply : FetchOutcome) (now : Z)
    (ok2 : bool) (w : World) : World :=
  match actualProjectId (comp w) with
  | None => w
  | Some _ =>
      if (length (bankOf (labData (comp w))) <? 3)%nat then w
      else
        let updated := withStage selection (labData (comp w)) in
        let w := withComp (setLabData updated) w in
        let w := saveLabData ok1 updated w in
        let w := withComp (setExpandedStages [initial_reflection; selection]) w in
        generateSelectionAI updated reply now ok2 w
  end.

(** [generateVariants(data, trigger)] *)
Definition generateVariants (data : CoFounderLabData) (trigger : string)
    (reply : FetchOutcome) (ok : bool) (w : World) : World :=
  match actualProjectId (comp w) with
  | None => w
  | Some id =>
      let w := withComp (setIsAIThinking true) w in
      let wheel := match project (comp w) with
                   | Some p => Duck.orElse (solutionWheel p) (JObj ∅)
                   | None => JObj ∅
                   end in
      let w := logCall id
                 (VariantsCall (selectedSolutions data)
                    (conversationHistory data) trigger wheel) w in
      let w :=
        match reply with
        | FetchJson result =>
            if Route.r_success result then
              let options := default [] (Route.r_generatedItems result) in
              let updated := withVariantOptions options data in
              saveLabData ok updated (withComp (setLabData updated) w)
            else w
        | FetchRejected => w
        end in
      withComp (setIsAIThinking false) w
  end.

(** The click handler of the Like button of the variant card at [idx]. *)
Definition likeVariant (idx : nat) (ok : bool) (w : World) : World :=
  match optionsOf (labData (comp w)) !! idx with
  | None => w
  | Some variant =>
      let bank := bankOf (labData (comp w)) in
      let inBank := JS.includes bank variant in
      let maxed := (3 <=? length bank)%nat in
      if inBank || maxed then w
      else
        let updated := withIdeaBank (bank ++ [variant])%list (labData (comp w)) in
        saveLabData ok updated (withComp (setLabData updated) w)
  end.

(** The submit handler of the add-your-own form. *)
Definition addOwnIdea (ok : bool) (w : World) : World :=
  let val := JS.trim (inputValue (comp w)) in
  let bank := bankOf (labData (comp w)) in
  if bool_decide (val = "") then w
  else if (3 <=? length bank)%nat then w
  else if JS.includes bank val then w
  else
    let updated := withIdeaBank (bank ++ [val])%list (labData (comp w)) in
    let w := saveLabData ok updated (withComp (setLabData updated) w) in
    withComp (setInputValue "") w.

(** The click handler of the Remove button of the banked idea at [idx]. *)
Definition removeIdea (idx : nat) (ok : bool) (w : World) : World :=
  match bankOf (labData (comp w)) !! idx with
  | None => w
  | Some item =>
      let updated :=
        filter (fun v => v ≠ item) (bankOf (labData (comp w))) in
      let next := withIdeaBank updated (labData (comp w)) in
      saveLabData ok next (withComp (setLabData next) w)
  end.

(** The seed written into the decision-tree feature. *)
Definition decisionSeed : JsValue :=
  JObj {[ "possible" := JObj ∅; "planetImpact" := JObj ∅;
          "impact" := JObj ∅; "originality" := JObj ∅ ]}.

(** The [proposed] solution that [onLock] builds from the choice. *)
Definition proposedFor (choice : string) : ProposedSolution :=
  {| title := "Chosen Direction"; description := choice;
     whoItsFor := ""; howItWorks := ""; whyItMatters := "" |}.

(** The [onLock] handler of the variant selector.  The second component
    is false when the handler rejected (the second write is not inside
    a [try]). *)
Definition onLock (choice : string) (ok1 ok2 : bool) (w : World)
  : World * bool :=
  let proposed := proposedFor choice in
  let next := withLock choice proposed (labData (comp w)) in
  let w := withComp (setLabData next) w in
  let w := saveLabData ok1 next w in
  (* Advance journey to decision-tree step *)
  match actualProjectId (comp w) with
  | Some id =>
      match updateProject ok2 id
              [SetCurrentStepId "decision-tree"; SetDecision decisionSeed]
              (db w) with
      | Some db' =>
          (withComp (setExpandedStages [selection]) (withDb db' w), true)
      | None => (w, false)
      end
  | None => (withComp (setExpandedStages [selection]) w, true)
  end.

(** [handleReset] *)
Definition handleReset (ok : bool) (w : World) : World :=
  match actualProjectId (comp w) with
  | None => w
  | Some id =>
      (* Clear all co-founder lab data *)
      let w := withComp (setLabData EMPTY_LAB_DATA) w in
      let w := withComp (setSelectedSolutions []) w in
      let w := withComp (setInputValue "") w in
      let w := withComp (setExpandedStages [initial_reflection]) w in
      (* Reset refs *)
      let w := withComp (setHasAutoStarted false) w in
      (* Clear from Firestore *)
      match updateProject ok id [SetCoFounderLab None] (db w) with
      | Some db' =>
          (* Close warning *)
          withComp (setShowResetWarning false) (withDb db' w)
      | None => w
      end
  end.

(** ** Learner operations on the idea bank *)

Inductive BankOp : Type :=
  | Like (idx : nat)
  | TypeIdea (text : string)
  | SubmitIdea
  | Remove (idx : nat).

(** One operation, with the outcome of the write it may perform. *)
Definition bankStep (w : World) (op : BankOp * bool) : World :=
  match op with
  | (Like idx, ok) => likeVariant idx ok w
  | (TypeIdea text, _) => withComp (setInputValue text) w
  | (SubmitIdea, ok) => addOwnIdea ok w
  | (Remove idx, ok) => removeIdea idx ok w
  end.

Definition bankRun (w : World) (ops : list (BankOp * bool)) : World :=
  foldl bankStep w ops.

(** ** The conversation handlers *)

(** The [data] member of the request body that [sendMessage] and
    [generateAIResponse] send. *)
Record ChatData : Type := {
  chat_stage : StageId;
  chat_selectedSolutions : list string;
  chat_coDesignPhase : string;
  chat_conversationHistory : list Message;
  chat_studentMessage : string;
  chat_solutionWheel : JsValue;
}.

(** [project?.solutionWheel || {}] *)
Definition wheelOf (c : Component) : JsValue :=
  match project c with
  | Some p => Duck.orElse (solutionWheel p) (JObj ∅)
  | None => JObj ∅
  end.

(** [data.coDesignPhase || 'choose-direction'] *)
Definition phaseOf (d : CoFounderLabData) : string :=
  default "choose-direction" (Orchestrator.nonEmpty (coDesignPhase d)).

(** [sendMessage(studentMessage)]; [now1] and [now2] are the two clock
    readings.  The second component is the request it issued, if any. *)
Definition sendMessage (studentMessage : string) (reply : FetchOutcome)
    (now1 now2 : Z) (ok : bool) (w : World) : World * option ChatData :=
  match actualProjectId (comp w) with
  | None => (w, None)
  | Some _ =>
      if bool_decide (JS.trim studentMessage = "") then (w, None)
      else
        let lab := labData (comp w) in
        let w := withComp (setIsAIThinking true) w in
        (* Add student message to history *)
        let studentMsg :=
          {| role := student; content := JS.trim studentMessage;
             timestamp := now1; stage := Some (currentStage lab) |} in
        let updatedHistory := (conversationHistory lab ++ [studentMsg])%list in
        let call :=
          {| chat_stage := currentStage lab;
             chat_selectedSolutions := selectedSolutions lab;
             chat_coDesignPhase := phaseOf lab;
             chat_conversationHistory := updatedHistory;
             chat_studentMessage := JS.trim studentMessage;
             chat_solutionWheel := wheelOf (comp w) |} in
        let w :=
          match successfulFeedback reply with
          | Some fb =>
              let updated :=
                withHistory
                  (updatedHistory ++ [aiMessage fb now2 (currentStage lab)])%list
                  lab in
              let w := saveLabData ok updated (withComp (setLabData updated) w) in
              withComp (setInputValue "") w
          | None => w
          end in
        (withComp (setIsAIThinking false) w, Some call)
  end.

(** [handleSubmit]: the submit handler of the message form. *)
Definition handleSubmit (reply : FetchOutcome) (now1 now2 : Z) (ok : bool)
    (w : World) : World * option ChatData :=
  if negb (bool_decide (JS.trim (inputValue (comp w)) = ""))
     && negb (isAIThinking (comp w))
  then sendMessage (inputValue (comp w)) reply now1 now2 ok w
  else (w, None).

(** [generateAIResponse(data, trigger)] *)
Definition generateAIResponse (data : CoFounderLabData) (trigger : string)
    (reply : FetchOutcome) (now : Z) (ok : bool) (w : World)
  : World * option ChatData :=
  match actualProjectId (comp w) with
  | None => (w, None)
  | Some _ =>
      let w := withComp (setIsAIThinking true) w in
      let call :=
        {| chat_stage := currentStage data;
           chat_selectedSolutions := selectedSolutions data;
           chat_coDesignPhase := phaseOf data;
           chat_conversationHistory := conversationHistory data;
           chat_studentMessage := trigger;
           chat_solutionWheel := wheelOf (comp w) |} in
      let w :=
        match successfulFeedback reply with
        | Some fb =>
            let updated :=
              withHistory
                (conversationHistory data
                   ++ [aiMessage fb now (currentStage data)])%list data in
            saveLabData ok updated (withComp (setLabData updated) w)
        | None => w
        end in
      (withComp (setIsAIThinking false) w, Some call)
  end.

(** [generateVariants(data, trigger)], up to the point where it awaits
    the reasoning call; [wheel] is [project?.solutionWheel || {}] in the
    render that created the function.  [None] when it returns early. *)
Definition generateVariants_begin (data : CoFounderLabData) (trigger : string)
    (wheel : JsValue) (w : World) : option World :=
  match actualProjectId (comp w) with
  | None => None
  | Some id =>
      let w := withComp (setIsAIThinking true) w in
      Some (logCall id
              (VariantsCall (selectedSolutions data)
                 (conversationHistory data) trigger wheel) w)
  end.

(** The [updated] lab data that [generateVariants] builds from a reply,
    if the reply reports success. *)
Definition variantsReply (data : CoFounderLabData) (reply : FetchOutcome)
  : option CoFounderLabData :=
  match reply with
  | FetchJson result =>
      if Route.r_success result then
        let options := default [] (Route.r_generatedItems result) in
        Some (withVariantOptions options data)
      else None
  | FetchRejected => None
  end.

(** The [updated] lab data of [handleConfirmDirection]. *)
Definition confirmedLab (lab : CoFounderLabData) : CoFounderLabData :=
  {| conversationHistory := conversationHistory lab;
     currentStage := variants;
     selectedSolutions := selectedSolutions lab;
     proposedSolution := proposedSolution lab;
     coDesignPhase := Some "concrete-variants";
     variantOptions := Some (optionsOf lab);
     ideaBank := Some (bankOf lab);
     lockedVariant := lockedVariant lab |}.

(** [handleConfirmDirection], up to the point where it awaits its
    write: the new world, and what the continuation closes over, the
    [updated] lab data and the solution wheel of the render of the
    click.  [None] when the handler returns early. *)
Definition handleConfirmDirection_begin (w : World)
  : option (World * (CoFounderLabData * JsValue)) :=
  match actualProjectId (comp w) with
  | None => None
  | Some _ =>
      let updated := confirmedLab (labData (comp w)) in
      Some (withComp (setLabData updated) w, (updated, wheelOf (comp w)))
  end.

(** [handleConfirmDirection], from the completion of its write, whose
    outcome is [ok], to the point where [generateVariants] awaits the
    reasoning call; the second component tells whether a call was
    issued. *)
Definition handleConfirmDirection_resume (updated : CoFounderLabData)
    (wheel : JsValue) (ok : bool) (w : World) : World * bool :=
  let w := saveLabData ok updated w in
  let w := withComp (setExpandedStages [initial_reflection; variants]) w in
  match generateVariants_begin updated "CONFIRM_DIRECTION" wheel w with
  | Some w' => (w', true)
  | None => (w, false)
  end.

(** The condition of the effect that generates variants on entering
    the Variants stage. *)
Definition autoVariantsCondition (w : World) : bool :=
  let c := comp w in
  hasInitialized c
  && bool_decide (is_Some (actualProjectId c))
  && bool_decide (currentStage (labData c) = variants)
  && match variantOptions (labData c) with
     | Some options => bool_decide (length options = 0%nat)
     | None => true
     end
  && negb (isAIThinking c).

(** One evaluation of that effect. *)
Definition autoVariantsEffect (reply : FetchOutcome) (ok : bool) (w : World)
  : World :=
  if autoVariantsCondition w
  then generateVariants (labData (comp w)) "AUTO_VARIANTS" reply ok w
  else w.

(** ** The component as a reactive system

    A handler or an effect runs up to its next [await]; what it awaits
    is completed by a later event, after which the effects whose
    conditions hold are run again. *)

(** A continuation that waits for the reply to a reasoning call or for
    the completion of a write. *)
Inductive Pending : Type :=
  | AwaitingVariants (data : CoFounderLabData)
      (* [generateVariants(data, ...)] at its [fetch] *)
  | SavingVariants (updated : CoFounderLabData)
      (* [generateVariants] at [saveLabData(updated)] *)
  | AwaitingReflection (captured : CoFounderLabData).
      (* [generateInitialReflection] at its [fetch] *)

(** What the effect that generates variants depends on:
    [labData.currentStage], the length of [labData.variantOptions] where
    there is such a member, [isAIThinking] and [actualProjectId]. *)
Definition VariantsDeps : Type :=
  (StageId * option nat * bool * option string)%type.

Definition autoVariantsDeps (w : World) : VariantsDeps :=
  let c := comp w in
  (currentStage (labData c), length <$> variantOptions (labData c),
   isAIThinking c, actualProjectId c).

Record Session : Type := {
  world : World;
  (* the dependencies of the last render, [None] before the first *)
  rendered : option VariantsDeps;
  (* [handleConfirmDirection] suspended at its write *)
  confirming : option (CoFounderLabData * JsValue);
  pending : list Pending;
}.

(** One render and its effects: the auto-start effect and then the
    effect that generates variants, the latter only when one of its
    dependencies differs from the last render.  Both read the state of
    this render.  The condition of the auto-start effect can only begin
    to hold together with a change of one of its dependencies (the
    references it reads are set along with [setProject], or by the
    effect itself), so that effect is run whenever its condition
    holds. *)
Definition render (s : Session) : Session :=
  let w := world s in
  let lab := labData (comp w) in
  let wheel := wheelOf (comp w) in
  let variantsDue :=
    bool_decide (rendered s <> Some (autoVariantsDeps w))
    && autoVariantsCondition w in
  let '(w1, started) := autoStartEffect w in
  let p1 := match started with
            | Some captured => [AwaitingReflection captured]
            | None => []
            end in
  let '(w2, p2) :=
    if variantsDue then
      match generateVariants_begin lab "AUTO_VARIANTS" wheel w1 with
      | Some w2 => (w2, [AwaitingVariants lab])
      | None => (w1, [])
      end
    else (w1, []) in
  {| world := w2; rendered := Some (autoVariantsDeps w);
     confirming := confirming s;
     pending := (pending s ++ p1 ++ p2)%list |}.

(** The renders that follow a change of state: the render of the new
    state and, since its effects may change the state themselves, the
    render after them, which finds no effect to run (see
    [render_settled]). *)
Definition fireEffects (s : Session) : Session := render (render s).

(** A click on the Confirm direction button. *)
Definition confirmClick (s : Session) : Session :=
  match handleConfirmDirection_begin (world s) with
  | Some (w, closure) =>
      fireEffects {| world := w; rendered := rendered s;
                     confirming := Some closure;
                     pending := pending s |}
  | None => s
  end.

Inductive Event : Type :=
  | ConfirmWritten (ok : bool)
      (* the write of [handleConfirmDirection] completes *)
  | Replied (i : nat) (reply : FetchOutcome) (now : Z) (ok : bool)
      (* the reply to the call of the pending continuation [i] arrives *)
  | Written (i : nat) (ok : bool)
      (* the write of the pending continuation [i] completes *)
  | Snapshot (updatedProject : option ProjectDoc).
      (* the subscription delivers a snapshot *)

(** One event, then the effects.  An event for which nothing waits is
    ignored. *)
Definition step (s : Session) (e : Event) : Session :=
  fireEffects
    match e with
    | ConfirmWritten ok =>
        match confirming s with
        | Some (updated, wheel) =>
            let '(w, issued) :=
              handleConfirmDirection_resume updated wheel ok (world s) in
            {| world := w; rendered := rendered s; confirming := None;
               pending := (pending s
                           ++ if issued then [AwaitingVariants updated]
                              else [])%list |}
        | None => s
        end
    | Replied i reply now ok =>
        match pending s !! i with
        | Some (AwaitingVariants data) =>
            match variantsReply data reply with
            | Some updated =>
                {| world := withComp (setLabData updated) (world s);
                   rendered := rendered s;
               confirming := confirming s;
                   pending := <[i := SavingVariants updated]> (pending s) |}
            | None =>
                {| world := withComp (setIsAIThinking false) (world s);
                   rendered := rendered s;
               confirming := confirming s;
                   pending := delete i (pending s) |}
            end
        | Some (AwaitingReflection captured) =>
            {| world :=
                 generateInitialReflection_resume captured reply now ok
                   (world s);
               rendered := rendered s;
               confirming := confirming s;
               pending := delete i (pending s) |}
        | _ => s
        end
    | Written i ok =>
        match pending s !! i with
        | Some (SavingVariants updated) =>
            {| world := withComp (setIsAIThinking false)
                          (saveLabData ok updated (world s));
               rendered := rendered s;
               confirming := confirming s;
               pending := delete i (pending s) |}
        | _ => s
        end
    | Snapshot updatedProject =>
        {| world := onSnapshot updatedProject (world s);
           rendered := rendered s;
               confirming := confirming s; pending := pending s |}
    end.

Definition run (s : Session) (events : list Event) : Session :=
  foldl step s events.

(** A component that has rendered the state [w] and in which nothing
    is suspended or in flight. *)
Definition idle (w : World) : Session :=
  {| world := w; rendered := Some (autoVariantsDeps w);
     confirming := None; pending := [] |}.

(** [markComplete(proposedSolution)] *)
Definition markComplete (proposed : ProposedSolution) (ok : bool) (w : World)
  : World :=
  let lab := labData (comp w) in
  let updated :=
    {| conversationHistory := conversationHistory lab;
       currentStage := completed;
       selectedSolutions := selectedSolutions lab;
       proposedSolution := Some proposed;
       coDesignPhase := coDesignPhase lab;
       variantOptions := variantOptions lab;
       ideaBank := ideaBank lab;
       lockedVariant := lockedVariant lab |} in
  saveLabData ok updated (withComp (setLabData updated) w).

(** ** Solution selection handlers *)

(** The state update of [toggleSolutionSelection(stationId)]. *)
Definition toggled (stationId : string) (prev : list string) : list string :=
  if JS.includes prev stationId then
    (* Deselect *)
    filter (fun id => id ≠ stationId) prev
  else
    (* Select (max 3) *)
    if (3 <=? length prev)%nat then prev
    else (prev ++ [stationId])%list.

Definition toggleSolutionSelection (stationId : string) (w : World) : World :=
  withComp (fun c => setSelectedSolutions (toggled stationId (pickedSolutions c)) c) w.

(** [submitSelectedSolutions] *)
Definition submitSelectedSolutions (ok1 : bool) (reply : FetchOutcome)
    (now : Z) (ok2 : bool) (w : World) : World * option ChatData :=
  let picked := pickedSolutions (comp w) in
  if bool_decide (length picked = 0%nat) then (w, None)
  else
    (* Save selected solutions and move to co-design stage *)
    let lab := labData (comp w) in
    let updated :=
      {| conversationHistory := conversationHistory lab;
         currentStage := co_design;
         selectedSolutions := picked;
         proposedSolution := proposedSolution lab;
         coDesignPhase := Some "choose-direction";
         variantOptions := variantOptions lab;
         ideaBank := ideaBank lab;
         lockedVariant := lockedVariant lab |} in
    let w := withComp (setLabData updated) w in
    let w := saveLabData ok1 updated w in
    (* Keep reflection visible and open co-design *)
    let w := withComp (setExpandedStages [initial_reflection; co_design]) w in
    (* Auto-trigger AI to start opinionated ranking *)
    generateAIResponse updated "START_CO_DESIGN" reply now ok2 w.

(** ** UI helpers *)

Definition stages : list StageId :=
  [initial_reflection; choosing_directions; co_design; variants; selection;
   next_panel; completed].

(** [stages.indexOf(stage)], with [length stages] for -1: every stage
    is in the list. *)
Fixpoint indexOf (stage : StageId) (l : list StageId) : nat :=
  match l with
  | [] => 0
  | s :: r => if bool_decide (s = stage) then 0 else S (indexOf stage r)
  end.

(** [getStageMessages(stage)] *)
Definition getStageMessages (lab : CoFounderLabData) (s : StageId)
  : list Message :=
  filter (fun msg => stage msg = Some s) (conversationHistory lab).

(** [isStageComplete(stage)] *)
Definition isStageComplete (lab : CoFounderLabData) (s : StageId) : bool :=
  let currentIndex := indexOf (currentStage lab) stages in
  let stageIndex := indexOf s stages in
  (stageIndex <? currentIndex)%nat
  || bool_decide (currentStage lab = completed).

(** [isStageActive(stage)] *)
Definition isStageActive (lab : CoFounderLabData) (s : StageId) : bool :=
  bool_decide (currentStage lab = s).

(** ** The journey's gate for this step ([STEPS], [cofounder-lab]) *)

Definition stepIsComplete (p : ProjectDoc) : bool :=
  match coFounderLab p with
  | None => false
  | Some lab =>
      (* Complete when proposedSolution is set and stage is completed *)
      match proposedSolution lab with
      | Some proposed => (0 <? String.length (title proposed))%nat
      | None => false
      end
      && bool_decide (currentStage lab = completed)
  end.

End CoFounderLab.

(* ================================================================== *)
(** * The Problem Incubator: mentor endpoint and input helper *)
(* ================================================================== *)

(** The domain stage of the mentor endpoint ([app/api/mentor/route.ts]). *)
Module Mentor.

Inductive Stage : Type :=
  | stage_passion
  | stage_domain
  | stage_issue
  | stage_statement
  | stage_confirmation
  | stage_next_action.

Inductive ButtonType : Type := domain | issue | action | other.

#[global] Instance ButtonType_eq_dec : EqDecision ButtonType.
Proof. solve_decision. Defined.

Record ButtonOption : Type := {
  id : string;
  label : string;
  type : ButtonType;
}.

Record DomainsResponse : Type := {
  message : string;
  buttons : list ButtonOption;
  stage : Stage;
}.

Definition solutionWords : list string :=
  [ "create a"; "develop a"; "design a"; "build a"; "implement a";
    "establish a"; "launch a"; "start a"; "organize a"; "campaign";
    "program to"; "initiative to"; "project to"; "solution"; "app that";
    "website that"; "system that" ].

(** [text.includes(word)] on code-unit lists. *)
Fixpoint includesL (word l : list ascii) : bool :=
  match l with
  | [] => JS.startsWithL word []
  | _ :: r => JS.startsWithL word l || includesL word r
  end.

(** Detects solution-oriented language that should NOT appear in
    problem statements *)
Definition containsSolutionLanguage (text : string) : bool :=
  let lowerText := JS.toLowerCase text in
  let hasSolutionWord :=
    existsb (fun word => includesL (list_ascii_of_string word)
                           (list_ascii_of_string lowerText))
      solutionWords in
  hasSolutionWord.

(** Filters out solution-oriented responses from AI *)
Definition filterSolutions (items : list string) : list string :=
  List.filter (fun item => negb (containsSolutionLanguage item)) items.

(** First replacement of [cleanJsonResponse] (line 66): an opening
    fence with the [json] tag, in either case, at the very start, and
    the white space after it. *)
Definition stripJsonFence (l : list ascii) : list ascii :=
  if JS.startsWithL ["`"; "`"; "`"]%char l
     && JS.startsWithL ["j"; "s"; "o"; "n"]%char
          (map JS.lowerChar (firstn 4 (skipn 3 l)))
  then JS.trimStartL (skipn 7 l)
  else l.

(** Second replacement of [cleanJsonResponse] (line 66): a closing
    fence followed by nothing but white space up to the end of the
    input, together with the line feed right before it, if any. *)
Definition stripTail (l : list ascii) : list ascii :=
  let t := JS.trimEndL l in
  if JS.startsWithL ["`"; "`"; "`"]%char (rev t) then
    let pre := firstn (length t - 3) t in
    match rev pre with
    | c :: r => if Ascii.eqb c (ascii_of_nat 10) then rev r else pre
    | [] => pre
    end
  else l.

(** Removes markdown code fences from JSON responses *)
Definition cleanJsonResponse (text : string) : string :=
  string_of_list_ascii (stripTail (stripJsonFence (list_ascii_of_string text))).

(** The domains offered when the reply cannot be used. *)
Definition fallbackDomains : list string :=
  [ "Access and Inclusion Issues";
    "Quality and Standards Concerns";
    "Safety and Well-being Challenges";
    "Awareness and Knowledge Gaps";
    "Resource and Support Limitations" ].

(** The [try] block of [generateDomains]: [JSON.parse], then
    [filterSolutions]; [None] when either throws, which [filter] does
    on anything but an array and [toLowerCase] on anything but a
    string. *)
Definition parseDomains (content : string) : option (list string) :=
  match Json.JSON_parse content ≫= Json.asStringArray with
  | Some domains =>
      (* Filter out any solution-oriented domains *)
      let domains := filterSolutions domains in
      (* If filtering removed too many, add fallbacks *)
      if (length domains <? 3)%nat then Some fallbackDomains
      else Some domains
  | None => None
  end.

(** [generateDomains(passionTopic, regenerate, previousSuggestions)],
    from the resolution of the reasoning call on: [reply] is the
    content of the first choice, if any. *)
Definition generateDomains (passionTopic : string) (regenerate : bool)
    (reply : option string) : DomainsResponse :=
  let rawContent :=
    match reply with
    | Some c => if bool_decide (JS.trim c = "") then "[]" else JS.trim c
    | None => "[]"
    end in
  let content := cleanJsonResponse rawContent in
  let domains :=
    match parseDomains content with
    | Some domains => domains
    | None =>
        (* Fallback domains if parsing fails *)
        fallbackDomains
    end in
  let buttons :=
    imap (fun idx d =>
            {| id := "domain_" ++ Duck.indexKey idx; label := d;
               type := domain |})
      (firstn 5 domains) in
  let buttons :=
    (buttons
     ++ [{| id := "show_different";
            label := "Show me different domain areas"; type := action |}])%list in
  let buttons :=
    (buttons
     ++ [{| id := "other_domain"; label := "Other (describe your own)";
            type := other |}])%list in
  let message :=
    if regenerate then
      if bool_decide (passionTopic = "")
      then "Here are some different problem areas to explore. Which one interests you?"
      else "Here are some different problem areas to explore in "
           ++ passionTopic ++ ". Which one interests you?"
    else
      "Awesome! You're passionate about "
      ++ (if bool_decide (passionTopic = "") then "this topic" else passionTopic)
      ++ ". Let's explore what kinds of problems exist in this space. Which area would you like to dive into?" in
  {| message := message; buttons := buttons; stage := stage_domain |}.

End Mentor.

(** The input helper of the Problem Incubator page
    ([app/project/[projectId]/page.tsx]). *)
Module Incubator.

(** Line 142: every line feed becomes a space. *)
Definition newlinesToSpaces (l : list ascii) : list ascii :=
  map (fun c => if Ascii.eqb c (ascii_of_nat 10) then " "%char else c) l.

(** Line 143: every maximal run of white space becomes one space;
    [inRun] tells that the previous character belonged to a run. *)
Fixpoint collapseSpaces (inRun : bool) (l : list ascii) : list ascii :=
  match l with
  | [] => []
  | c :: r =>
      if JS.isWhiteSpace c then
        if inRun then collapseSpaces true r
        else " "%char :: collapseSpaces true r
      else c :: collapseSpaces false r
  end.

(** Helper function to sanitize user input (remove newlines and extra
    spaces) *)
Definition sanitizeInput (input : string) : string :=
  string_of_list_ascii
    (collapseSpaces false
       (newlinesToSpaces (JS.trimL (list_ascii_of_string input)))).

End Incubator.

(* ================================================================== *)
(** * Observations used in the statements *)
(* ================================================================== *)

(** Normalization of a candidate string: trim, then lower case. *)
Definition normalize (s : string) : string := JS.toLowerCase (JS.trim s).

(** The lab data held in the store for project [id]. *)
Definition storedLab (w : CoFounderLab.World) (id : string)
  : option CoFounderLabData :=
  CoFounderLab.db w !! id ≫= coFounderLab.

(** The idea bank of the component. *)
Definition bank (w : CoFounderLab.World) : list string :=
  CoFounderLab.bankOf (CoFounderLab.labData (CoFounderLab.comp w)).

(** The stage of the component. *)
Definition stageOf (w : CoFounderLab.World) : StageId :=
  currentStage (CoFounderLab.labData (CoFounderLab.comp w)).

(** A string literal in double quotes. *)
Definition quoted (s : string) : string :=
  String Json.dquote s ++ String Json.dquote "".

(** The world that [proceedToSelection] has reached when it calls
    [generateSelectionAI]: its own update of the lab data, its own write
    and the change of the expanded stages are done, no reasoning call
    has been issued yet. *)
Definition atSelectionCall (ok1 : bool) (w : CoFounderLab.World)
  : CoFounderLab.World :=
  let updated :=
    CoFounderLab.withStage selection
      (CoFounderLab.labData (CoFounderLab.comp w)) in
  CoFounderLab.withComp
    (CoFounderLab.setExpandedStages [initial_reflection; selection])
    (CoFounderLab.saveLabData ok1 updated
       (CoFounderLab.withComp (CoFounderLab.setLabData updated) w)).

(** The lab data with the comparison message of a successful reply
    appended to its conversation. *)
Definition withComparison (fb : list string) (now : Z)
    (d : CoFounderLabData) : CoFounderLabData :=
  CoFounderLab.withHistory
    (conversationHistory d ++ [CoFounderLab.aiMessage fb now selection])%list d.

(** What the handlers maintain: at most three entries, none repeated. *)
Definition BankInv (b : list string) : Prop :=
  (length b <= 3)%nat /\ NoDup b.

(** A project document with a filled solution wheel and nothing else. *)
Definition sampleDoc : ProjectDoc :=
  {| chosenProblem := JStr "Plastic waste at school";
     problemExploration := JUndefined;
     problemStatement := JUndefined;
     solutionWheel := JObj {[ "hiTech" := JObj {[ "idea" := JStr "Sorting robot" ]} ]};
     coFounderLab := None;
     currentStepId := Some "cofounder-lab";
     decision := JUndefined |}.

(** The component of project [p1] with lab data [d], once the first
    snapshot has arrived; the store holds the same lab data. *)
Definition sampleWorld (d : CoFounderLabData) : CoFounderLab.World :=
  {| CoFounderLab.comp :=
       {| CoFounderLab.actualProjectId := Some "p1";
          CoFounderLab.project := Some sampleDoc;
          CoFounderLab.labData := d;
          CoFounderLab.inputValue := "";
          CoFounderLab.isAIThinking := false;
          CoFounderLab.expandedStages := [initial_reflection];
          CoFounderLab.pickedSolutions := [];
          CoFounderLab.showResetWarning := false;
          CoFounderLab.hasInitialized := true;
          CoFounderLab.hasAutoStarted := false |};
     CoFounderLab.db :=
       {[ "p1" := CoFounderLab.applyWrite sampleDoc
                    (CoFounderLab.SetCoFounderLab (Some d)) ]};
     CoFounderLab.calls := [] |}.

(** Lab data of the Variants stage with an empty bank and three
    regenerated options. *)
Definition variantsLab : CoFounderLabData :=
  CoFounderLab.withVariantOptions
    ["Solar Lamp"; "Bike share"; "Seed library"]
    (CoFounderLab.withStage variants EMPTY_LAB_DATA).

(** Lab data of the Variants stage with a full bank. *)
Definition fullBankLab : CoFounderLabData :=
  CoFounderLab.withIdeaBank ["Solar Lamp"; "Bike share"; "Seed library"]
    variantsLab.

(** Lab data of the Variants stage with two banked ideas. *)
Definition twoBankLab : CoFounderLabData :=
  CoFounderLab.withIdeaBank ["Solar Lamp"; "Bike share"] variantsLab.

(** Lab data of the Selection stage. *)
Definition selectionLab : CoFounderLabData :=
  CoFounderLab.withStage selection fullBankLab.

(** Lab data of the Locked stage. *)
Definition lockedLab : CoFounderLabData :=
  CoFounderLab.withLock "Bike share" (CoFounderLab.proposedFor "Bike share")
    selectionLab.

(** A successful reply carrying one feedback statement. *)
Definition goodReply : CoFounderLab.FetchOutcome :=
  CoFounderLab.FetchJson
    {| Route.r_success := true;
       Route.r_feedback := Some ["Three strong directions."];
       Route.r_followUpQuestion := None;
       Route.r_generatedItems := None;
       Route.r_error := None |}.

(** The reply to a request that the server answered with a failure. *)
Definition failedReply : CoFounderLab.FetchOutcome :=
  CoFounderLab.FetchJson
    (Route.errorBody (Some "Rate limit exceeded. Please try again in a moment.")).

(** The two writes of [onLock], each applied when it succeeds. *)
Definition afterLockWrites (ok1 ok2 : bool) (next : CoFounderLabData)
    (d : ProjectDoc) : ProjectDoc :=
  let d1 := if ok1
            then CoFounderLab.applyWrite d (CoFounderLab.SetCoFounderLab (Some next))
            else d in
  if ok2
  then foldl CoFounderLab.applyWrite d1
         [CoFounderLab.SetCurrentStepId "decision-tree";
          CoFounderLab.SetDecision CoFounderLab.decisionSeed]
  else d1.

(** A review request for a project that the collection does not hold. *)
Definition orphanRequest : AIRequest :=
  {| projectId := "no-such-project"; stepId := "explore";
     zoneId := Some "thinkBig"; action := Some review;
     data := JObj {[ "answers" := JArr [JStr "Plastic is everywhere"] ]} |}.

(** The statement of C9: the context returned carries a [degraded]
    flag. *)
Definition carriesDegradedFlag (r : Orchestrator.Promise AIContext) : Prop :=
  exists context flag,
    r = Orchestrator.Fulfilled context
    /\ context !! "degraded" = Some flag
    /\ Duck.truthy flag = true.

(** Strings made of white space only. *)
Definition allWs (l : list ascii) : bool := forallb JS.isWhiteSpace l.

Definition isBlank (s : string) : bool := allWs (list_ascii_of_string s).

(** [x] is [y] with white space added on either side. *)
Definition padded (x y : string) : Prop :=
  exists a b, isBlank a = true /\ isBlank b = true /\ x = a ++ y ++ b.

Definition jsonTag : list ascii := ["j"; "s"; "o"; "n"]%char.

(** The result of [parseResponse] when it has extracted the items [l]. *)
Definition itemsResult (l : list string) : ReviewAssistant.Parsed :=
  {| ReviewAssistant.p_feedback := [];
     ReviewAssistant.p_followUpQuestion := None;
     ReviewAssistant.p_generatedItems := Some l |}.

(** The reply of property P5: a numbered list of two statements, an
    empty line and a question. *)
Definition numberedReply : string :=
  "1. foo" ++ JS.LF ++ "2. bar" ++ JS.LF ++ JS.LF ++ "What do you think?".

(** The inside of the array literal of property P4. *)
Definition abcItems : string :=
  quoted "a" ++ "," ++ quoted "b" ++ "," ++ quoted "c".

(** A prompt library that holds one template, for the Co-Founder Lab. *)
Definition labRegistry : gmap string PromptTemplate :=
  {[ "cofounder-lab" :=
       {| systemPrompt := "You are a co-founder.";
          userPromptTemplate := fun _ => "Give three variants.";
          model := None |} ]}.

(** A reasoning service that always answers with the same text. *)
Definition answering (text : string)
  : ReviewAssistant.ChatRequest -> ReviewAssistant.Completion :=
  fun _ => ReviewAssistant.Resolved (Some text).

(** The request that [generateVariants] sends for project [id]. *)
Definition variantsRequest (id : string) : AIRequest :=
  {| projectId := id; stepId := "cofounder-lab"; zoneId := None;
     action := Some generate;
     data := JObj {[ "stage" := JStr "variants" ]} |}.

(** Characters that a JSON string literal holds as they are. *)
Definition isPlainChar (c : ascii) : bool :=
  negb (nat_of_ascii c <? 32)%nat
  && negb (Ascii.eqb c Json.dquote) && negb (Ascii.eqb c Json.backslash).

Definition isPlain (s : string) : bool :=
  forallb isPlainChar (list_ascii_of_string s).

(** The elements of an array literal: the strings in double quotes,
    separated by commas. *)
Definition itemsText (l : list string) : string := JS.join "," (map quoted l).

(** The longest input that a sequence of atoms can match, when it has
    no repetition. *)
Fixpoint maxLength (p : list Validation.Atom) : option nat :=
  match p with
  | [] => Some 0%nat
  | Validation.Lit _ :: p' | Validation.Opt _ :: p' =>
      option_map S (maxLength p')
  | Validation.Plus _ :: _ => None
  end.

(** The filler patterns that can match a text of [m] characters or
    more. *)
Definition fillersFor (m : nat) : list Validation.Pattern :=
  List.filter
    (fun p => match maxLength (Validation.atoms p) with
              | Some n => (m <=? n)%nat
              | None => true
              end)
    Validation.FILLER_PATTERNS.

(** The gate of the Solutions step itself ([isStationComplete]): more
    than 15 characters and feedback checked. *)
Definition isStationComplete (idea : string) (hasCheckedFeedback : option bool)
  : bool :=
  (15 <? String.length idea)%nat && bool_decide (hasCheckedFeedback = Some true).

(** No full stop and no exclamation mark in the text. *)
Definition quiet (l : list ascii) : bool :=
  forallb (fun c => negb (ReviewAssistant.isSentenceEnd c)) l.

Definition noSentenceEnd (s : string) : bool :=
  quiet (list_ascii_of_string s).

(** The last character of the text that is not white space is a
    question mark. *)
Definition endsWithQuestion (s : string) : bool :=
  match rev (JS.trimEndL (list_ascii_of_string s)) with
  | c :: _ => Ascii.eqb c "?"
  | [] => false
  end.

(** The solutions picked in the side panel. *)
Definition picked (w : CoFounderLab.World) : list string :=
  CoFounderLab.pickedSolutions (CoFounderLab.comp w).

(** The conversation held by the component. *)
Definition history (w : CoFounderLab.World) : list Message :=
  conversationHistory (CoFounderLab.labData (CoFounderLab.comp w)).

(** A sequence of clicks on station cards. *)
Definition toggleRun (w : CoFounderLab.World) (ids : list string)
  : CoFounderLab.World :=
  foldl (fun w id => CoFounderLab.toggleSolutionSelection id w) w ids.

(** A sequence of snapshots delivered to the subscription callback. *)
Definition snapshotRun (w : CoFounderLab.World)
    (later : list (option ProjectDoc)) : CoFounderLab.World :=
  foldl (fun w p => CoFounderLab.onSnapshot p w) w later.

(** Replies after which the lab data holds no variant option: the
    request failed, or it succeeded without items. *)
Definition leavesNoOptions (reply : CoFounderLab.FetchOutcome) : bool :=
  match reply with
  | CoFounderLab.FetchRejected => true
  | CoFounderLab.FetchJson result =>
      if Route.r_success result
      then bool_decide (default [] (Route.r_generatedItems result) = [])
      else true
  end.

(** Successive evaluations of the effect that generates variants, each
    with the reply it receives and the outcome of its write. *)
Definition autoVariantsRun (w : CoFounderLab.World)
    (replies : list (CoFounderLab.FetchOutcome * bool)) : CoFounderLab.World :=
  foldl (fun w r => CoFounderLab.autoVariantsEffect r.1 r.2 w) w replies.

(** The component of project [p1] as it is mounted, before the first
    snapshot has arrived; the store holds the lab data [d]. *)
Definition mountedWorld (d : CoFounderLabData) : CoFounderLab.World :=
  {| CoFounderLab.comp :=
       {| CoFounderLab.actualProjectId := Some "p1";
          CoFounderLab.project := None;
          CoFounderLab.labData := EMPTY_LAB_DATA;
          CoFounderLab.inputValue := "";
          CoFounderLab.isAIThinking := false;
          CoFounderLab.expandedStages := [initial_reflection];
          CoFounderLab.pickedSolutions := [];
          CoFounderLab.showResetWarning := false;
          CoFounderLab.hasInitialized := false;
          CoFounderLab.hasAutoStarted := false |};
     CoFounderLab.db :=
       {[ "p1" := CoFounderLab.applyWrite sampleDoc
                    (CoFounderLab.SetCoFounderLab (Some d)) ]};
     CoFounderLab.calls := [] |}.

(** The labels of the buttons of a given type. *)
Definition labelsOf (t : Mentor.ButtonType) (b : list Mentor.ButtonOption)
  : list string :=
  map Mentor.label
    (List.filter (fun o => bool_decide (Mentor.type o = t)) b).

(** Lists of characters in which every white-space character is a
    space that does not follow another one; [afterSpace] tells that the
    previous character was a space. *)
Fixpoint singleSpaced (afterSpace : bool) (l : list ascii) : bool :=
  match l with
  | [] => true
  | c :: r =>
      if JS.isWhiteSpace c
      then Ascii.eqb c " " && negb afterSpace && singleSpaced true r
      else singleSpaced false r
  end.

(** Lists of characters with no white space at either end. *)
Definition tight (l : list ascii) : bool :=
  match l with
  | [] => true
  | c :: _ => negb (JS.isWhiteSpace c)
  end
  && match rev l with
     | [] => true
     | c :: _ => negb (JS.isWhiteSpace c)
     end.

(** Whether a logged call is the variants request of
    [handleConfirmDirection]. *)
Definition isConfirmRequest (c : string * CoFounderLab.CallData) : bool :=
  match c.2 with
  | CoFounderLab.VariantsCall _ _ trigger _ =>
      bool_decide (trigger = "CONFIRM_DIRECTION")
  | _ => false
  end.

Definition confirmRequests (l : list (string * CoFounderLab.CallData)) : nat :=
  length (List.filter isConfirmRequest l).

(** A variants request for project [id] that carries the selection and
    the conversation of [lab], issued by the effect or by the handler. *)
Definition variantsRequestOf (id : string) (lab : CoFounderLabData)
    (c : string * CoFounderLab.CallData) : Prop :=
  c.1 = id
  /\ exists trigger wheel,
       c.2 = CoFounderLab.VariantsCall (selectedSolutions lab)
               (conversationHistory lab) trigger wheel
       /\ (trigger = "AUTO_VARIANTS" \/ trigger = "CONFIRM_DIRECTION").

(** Lab data that differs from the [updated] data of
    [handleConfirmDirection], built from [lab0], in its options at
    most. *)
Definition confirmForm (lab0 d : CoFounderLabData) : Prop :=
  exists o,
    d = CoFounderLab.withVariantOptions o (CoFounderLab.confirmedLab lab0).

(** What holds of a session from the click on: the project and the
    initialisation are as they were, the reflection effect has nothing
    to do, the lab data and the data held by the suspended
    continuations differ from [updated] in their options at most, and
    the calls made since [base] are variants requests, the handler's
    among them once it has resumed. *)
Definition sessionInv (id : string) (lab0 : CoFounderLabData)
    (base : list (string * CoFounderLab.CallData))
    (s : CoFounderLab.Session) : Prop :=
  let c := CoFounderLab.comp (CoFounderLab.world s) in
  CoFounderLab.actualProjectId c = Some id
  /\ CoFounderLab.hasInitialized c = true
  /\ (CoFounderLab.hasAutoStarted c = true
      \/ conversationHistory lab0 <> [])
  /\ confirmForm lab0 (CoFounderLab.labData c)
  /\ Forall (fun p => match p with
                      | CoFounderLab.AwaitingVariants d
                      | CoFounderLab.SavingVariants d => confirmForm lab0 d
                      | CoFounderLab.AwaitingReflection _ => False
                      end) (CoFounderLab.pending s)
  /\ (forall u wheel,
        CoFounderLab.confirming s = Some (u, wheel) ->
        u = CoFounderLab.confirmedLab lab0)
  /\ exists new,
       CoFounderLab.calls (CoFounderLab.world s) = (base ++ new)%list
       /\ Forall (variantsRequestOf id lab0) new
       /\ confirmRequests new
          = match CoFounderLab.confirming s with
            | Some _ => 0%nat
            | None => 1%nat
            end.

(** A session in which a render finds no effect to run. *)
Definition settled (s : CoFounderLab.Session) : Prop :=
  CoFounderLab.autoStartCondition (CoFounderLab.world s) = false
  /\ (CoFounderLab.rendered s
      = Some (CoFounderLab.autoVariantsDeps (CoFounderLab.world s))
      \/ CoFounderLab.autoVariantsCondition (CoFounderLab.world s) = false).

(** The letter E with an acute accent, capital (U+00C9) and small
    (U+00E9). *)
Definition Eacute : string := String (ascii_of_nat 201) "".
Definition eacute : string := String (ascii_of_nat 233) "".

(** A request whose body has no action. *)
Definition actionlessRequest : AIRequest :=
  {| projectId := "p1"; stepId := "cofounder-lab"; zoneId := None;
     action := None; data := JObj {[ "stage" := JStr "variants" ]} |}.

(** Lab data of the co-design stage: the reflection has been given and
    two solutions have been picked. *)
Definition coDesignLab : CoFounderLabData :=
  {| conversationHistory :=
       [CoFounderLab.aiMessage ["Three strong directions."] 1
          initial_reflection];
     currentStage := co_design;
     selectedSolutions := ["hiTech"; "lowTech"];
     proposedSolution := None;
     coDesignPhase := Some "choose-direction";
     variantOptions := None;
     ideaBank := None;
     lockedVariant := None |}.

(* ================================================================== *)
(** * Response validator *)
(* ================================================================== *)

(** C10. [isUniqueResponse] returns true for every text that is empty
    after trimming, whatever the corpus holds: the duplicate count is
    not consulted for such a text. *)
Theorem isUniqueResponse_blank (response : string) (corpus : list string) :
  JS.trim response = "" ->
  Validation.isUniqueResponse response corpus = true.
Proof.
  intros Hblank. unfold Validation.isUniqueResponse.
  rewrite Hblank. reflexivity.
Qed.

Lemma isUniqueResponse_blank_witness :
  JS.trim "   " = "" /\
  Validation.isUniqueResponse "   " [""; " "; ""; "  "] = true.
Proof.
  split; [reflexivity | apply (isUniqueResponse_blank "   "); reflexivity].
Defined.

(** The same corpus does make a non-empty duplicate fail. *)
Example isUniqueResponse_duplicate :
  Validation.isUniqueResponse "Water " ["water"; " WATER"] = false.
Proof. reflexivity. Qed.

(* ================================================================== *)
(** * The idea bank *)
(* ================================================================== *)

Section IdeaBank.

Import CoFounderLab.

Lemma includes_false (b : list string) (x : string) :
  JS.includes b x = false -> x ∉ b.
Proof.
  unfold JS.includes. induction b as [|y b IH]; simpl.
  - intros _ H. inversion H.
  - intros H. apply orb_false_elim in H as [Hxy Hb].
    unfold JS.strictEq in Hxy. apply bool_decide_eq_false in Hxy.
    intros Hin. apply elem_of_cons in Hin as [->|Hin]; [done|].
    by apply IH.
Qed.

Lemma BankInv_append (b : list string) (x : string) :
  BankInv b -> (3 <=? length b)%nat = false -> JS.includes b x = false ->
  BankInv (b ++ [x]).
Proof.
  intros [Hlen Hnd] Hmax Hin. apply Nat.leb_gt in Hmax. split.
  - rewrite length_app. simpl. lia.
  - apply NoDup_app. repeat split; [done| |apply NoDup_singleton].
    intros y Hy Hy'. apply list_elem_of_singleton in Hy'. subst y.
    by apply includes_false in Hin.
Qed.

Lemma BankInv_filter (b : list string) (item : string) :
  BankInv b -> BankInv (filter (fun v => v ≠ item) b).
Proof.
  intros [Hlen Hnd]. split.
  - pose proof (length_filter (fun v => v ≠ item) b). lia.
  - by apply NoDup_filter.
Qed.

Lemma comp_saveLabData ok d w : comp (saveLabData ok d w) = comp w.
Proof.
  unfold saveLabData. destruct (actualProjectId (comp w)); [|done].
  by destruct (updateProject _ _ _ _).
Qed.

Lemma calls_saveLabData ok d w : calls (saveLabData ok d w) = calls w.
Proof.
  unfold saveLabData. destruct (actualProjectId (comp w)); [|done].
  by destruct (updateProject _ _ _ _).
Qed.

Lemma bank_likeVariant idx ok w :
  BankInv (bank w) -> BankInv (bank (likeVariant idx ok w)).
Proof.
  intros Hinv. unfold likeVariant.
  destruct (optionsOf (labData (comp w)) !! idx) as [variant|]; [|done].
  fold (bank w).
  destruct (JS.includes (bank w) variant) eqn:Hin; [done|].
  destruct (3 <=? length (bank w))%nat eqn:Hmax; [done|]. simpl.
  unfold bank at 1. rewrite comp_saveLabData. simpl.
  by apply BankInv_append.
Qed.

Lemma bank_addOwnIdea ok w :
  BankInv (bank w) -> BankInv (bank (addOwnIdea ok w)).
Proof.
  intros Hinv. unfold addOwnIdea. fold (bank w).
  case_bool_decide; [done|].
  destruct (3 <=? length (bank w))%nat eqn:Hmax; [done|].
  destruct (JS.includes (bank w) _) eqn:Hin; [done|].
  unfold bank at 1. simpl. rewrite comp_saveLabData. simpl.
  by apply BankInv_append.
Qed.

Lemma bank_removeIdea idx ok w :
  BankInv (bank w) -> BankInv (bank (removeIdea idx ok w)).
Proof.
  intros Hinv. unfold removeIdea. fold (bank w).
  destruct (bank w !! idx) as [item|]; [|done].
  unfold bank at 1. rewrite comp_saveLabData. simpl.
  by apply BankInv_filter.
Qed.

Lemma bank_step w op : BankInv (bank w) -> BankInv (bank (bankStep w op)).
Proof.
  destruct op as [[idx|text| |idx] ok]; simpl.
  - apply bank_likeVariant.
  - done.
  - apply bank_addOwnIdea.
  - apply bank_removeIdea.
Qed.

Lemma bank_run ops : forall w,
  BankInv (bank w) -> BankInv (bank (bankRun w ops)).
Proof.
  unfold bankRun. induction ops as [|op ops IH]; intros w Hinv; simpl.
  - done.
  - apply IH. by apply bank_step.
Qed.

Lemma projectId_step w op :
  actualProjectId (comp (bankStep w op)) = actualProjectId (comp w).
Proof.
  destruct op as [[idx|text| |idx] ok]; simpl.
  - unfold likeVariant.
    destruct (_ !! idx); [|done]. destruct (_ || _); [done|].
    by rewrite comp_saveLabData.
  - done.
  - unfold addOwnIdea. case_bool_decide; [done|].
    destruct (3 <=? _)%nat; [done|]. destruct (JS.includes _ _); [done|].
    simpl. by rewrite comp_saveLabData.
  - unfold removeIdea. destruct (_ !! idx); [|done].
    by rewrite comp_saveLabData.
Qed.

Lemma projectId_run ops : forall w,
  actualProjectId (comp (bankRun w ops)) = actualProjectId (comp w).
Proof.
  unfold bankRun. induction ops as [|op ops IH]; intros w; simpl; [done|].
  by rewrite IH, projectId_step.
Qed.

End IdeaBank.

Lemma ideaBank_bounded_nodup_aux (w : CoFounderLab.World)
    (ops : list (CoFounderLab.BankOp * bool)) :
  bank w = [] -> BankInv (bank (CoFounderLab.bankRun w ops)).
Proof.
  intros Hempty. apply bank_run. rewrite Hempty.
  split; [simpl; lia | apply NoDup_nil_2].
Qed.

(** C1, as the sources have it.  For every sequence of like, type,
    submit and remove operations (whatever the outcome of each write),
    starting from an empty bank, the bank never exceeds three entries
    and never holds the same string twice.  Entries are compared with
    strict equality; a typed idea is trimmed before it is compared. *)
Theorem ideaBank_bounded_nodup (w : CoFounderLab.World)
    (ops : list (CoFounderLab.BankOp * bool)) :
  bank w = [] ->
  (length (bank (CoFounderLab.bankRun w ops)) <= 3)%nat
  /\ NoDup (bank (CoFounderLab.bankRun w ops)).
Proof.
  intros Hempty. by apply ideaBank_bounded_nodup_aux.
Qed.

Lemma ideaBank_bounded_nodup_witness :
  bank (sampleWorld variantsLab) = [] /\
  ((length (bank (CoFounderLab.bankRun (sampleWorld variantsLab)
      [(CoFounderLab.Like 0, true); (CoFounderLab.Like 0, true);
       (CoFounderLab.Like 1, false); (CoFounderLab.Like 2, true);
       (CoFounderLab.TypeIdea " Repair cafe ", true);
       (CoFounderLab.SubmitIdea, true); (CoFounderLab.Remove 0, true)]))
    <= 3)%nat
   /\ NoDup (bank (CoFounderLab.bankRun (sampleWorld variantsLab)
      [(CoFounderLab.Like 0, true); (CoFounderLab.Like 0, true);
       (CoFounderLab.Like 1, false); (CoFounderLab.Like 2, true);
       (CoFounderLab.TypeIdea " Repair cafe ", true);
       (CoFounderLab.SubmitIdea, true); (CoFounderLab.Remove 0, true)]))).
Proof.
  split; [reflexivity | apply ideaBank_bounded_nodup; reflexivity].
Defined.

(** C1, as stated, fails: liking the variant [Solar Lamp] and then
    submitting the typed idea [solar lamp] leaves two entries in the
    bank that are equal after normalization. *)
Lemma ideaBank_normalized_duplicate :
  bank (CoFounderLab.bankRun (sampleWorld variantsLab)
          [(CoFounderLab.Like 0, true);
           (CoFounderLab.TypeIdea "solar lamp", true);
           (CoFounderLab.SubmitIdea, true)])
    = ["Solar Lamp"; "solar lamp"]
  /\ ~ NoDup (map normalize
        (bank (CoFounderLab.bankRun (sampleWorld variantsLab)
                 [(CoFounderLab.Like 0, true);
                  (CoFounderLab.TypeIdea "solar lamp", true);
                  (CoFounderLab.SubmitIdea, true)]))).
Proof.
  split; [reflexivity|].
  intros H. vm_compute in H. apply NoDup_cons in H as [Hnotin _].
  apply Hnotin. left.
Qed.

(* ================================================================== *)
(** * Variants to Selection *)
(* ================================================================== *)

Section Selection.

Import CoFounderLab.

Lemma generateSelectionAI_stage data reply now ok w id :
  actualProjectId (comp w) = Some id ->
  currentStage (labData (comp w)) = currentStage data ->
  stageOf (generateSelectionAI data reply now ok w) = currentStage data.
Proof.
  intros Hid Hst. unfold generateSelectionAI, stageOf. rewrite Hid.
  destruct (successfulFeedback reply); simpl.
  - by rewrite comp_saveLabData.
  - done.
Qed.

Lemma generateSelectionAI_calls data reply now ok w id :
  actualProjectId (comp w) = Some id ->
  calls (generateSelectionAI data reply now ok w)
  = (calls w ++ [(id, SelectionCall (conversationHistory data) (bankOf data))])%list.
Proof.
  intros Hid. unfold generateSelectionAI. rewrite Hid.
  destruct (successfulFeedback reply); simpl.
  - by rewrite calls_saveLabData.
  - done.
Qed.

Lemma proceedToSelection_rejected ok1 reply now ok2 w :
  (length (bank w) < 3)%nat ->
  proceedToSelection ok1 reply now ok2 w = w.
Proof.
  intros Hlt. unfold proceedToSelection.
  destruct (actualProjectId (comp w)); [|done].
  fold (bank w). apply Nat.ltb_lt in Hlt. by rewrite Hlt.
Qed.

Lemma proceedToSelection_accepted ok1 reply now ok2 w id :
  actualProjectId (comp w) = Some id ->
  (3 <= length (bank w))%nat ->
  stageOf (proceedToSelection ok1 reply now ok2 w) = selection
  /\ calls (proceedToSelection ok1 reply now ok2 w)
     = (calls w ++ [(id, SelectionCall
                           (conversationHistory (labData (comp w)))
                           (bank w))])%list.
Proof.
  intros Hid Hge. unfold proceedToSelection. rewrite Hid.
  fold (bank w). apply Nat.ltb_ge in Hge. rewrite Hge. split.
  - erewrite generateSelectionAI_stage; [done| |].
    + simpl. rewrite comp_saveLabData. simpl. exact Hid.
    + simpl. by rewrite comp_saveLabData.
  - erewrite generateSelectionAI_calls.
    + simpl. by rewrite calls_saveLabData.
    + simpl. rewrite comp_saveLabData. simpl. exact Hid.
Qed.

End Selection.

(** C6. From an empty bank and after any sequence of bank operations,
    [proceedToSelection] goes through only when the bank holds exactly
    three ideas: otherwise (in particular with two banked ideas) the
    world, and so the stage, is unchanged; with three ideas the stage
    becomes Selection and exactly one reasoning call is added, carrying
    the whole bank. *)
Theorem selection_needs_full_bank (w0 : CoFounderLab.World)
    (ops : list (CoFounderLab.BankOp * bool)) (id : string)
    (ok1 ok2 : bool) (reply : CoFounderLab.FetchOutcome) (now : Z) :
  bank w0 = [] ->
  CoFounderLab.actualProjectId (CoFounderLab.comp w0) = Some id ->
  let w := CoFounderLab.bankRun w0 ops in
  let w' := CoFounderLab.proceedToSelection ok1 reply now ok2 w in
  (length (bank w) ≠ 3%nat -> w' = w)
  /\ (length (bank w) = 2%nat -> w' = w /\ stageOf w' = stageOf w)
  /\ (length (bank w) = 3%nat ->
      NoDup (bank w)
      /\ stageOf w' = selection
      /\ CoFounderLab.calls w'
         = (CoFounderLab.calls w
            ++ [(id, CoFounderLab.SelectionCall
                       (conversationHistory
                          (CoFounderLab.labData (CoFounderLab.comp w)))
                       (bank w))])%list).
Proof.
  intros Hempty Hid w w'.
  destruct (ideaBank_bounded_nodup_aux w0 ops Hempty) as [Hle Hnd].
  fold w in Hle, Hnd.
  assert (Hidw : CoFounderLab.actualProjectId (CoFounderLab.comp w) = Some id).
  { unfold w. by rewrite projectId_run. }
  split; [|split].
  - intros Hne. apply proceedToSelection_rejected. lia.
  - intros H2. assert (w' = w) as ->; [|done].
    apply proceedToSelection_rejected. lia.
  - intros H3. split; [done|].
    apply proceedToSelection_accepted; [done|lia].
Qed.

(** With two banked ideas nothing happens. *)
Example two_banked_ideas_rejected :
  CoFounderLab.proceedToSelection true goodReply 7 true (sampleWorld twoBankLab)
  = sampleWorld twoBankLab.
Proof. reflexivity. Qed.

Lemma selection_needs_full_bank_witness :
  bank (sampleWorld variantsLab) = [] /\
  CoFounderLab.actualProjectId (CoFounderLab.comp (sampleWorld variantsLab))
    = Some "p1" /\
  length (bank (CoFounderLab.bankRun (sampleWorld variantsLab)
                  [(CoFounderLab.Like 0, true); (CoFounderLab.Like 1, true);
                   (CoFounderLab.TypeIdea "Repair cafe", true);
                   (CoFounderLab.SubmitIdea, true)])) = 3%nat /\
  stageOf (CoFounderLab.proceedToSelection true goodReply 7 true
             (CoFounderLab.bankRun (sampleWorld variantsLab)
                [(CoFounderLab.Like 0, true); (CoFounderLab.Like 1, true);
                 (CoFounderLab.TypeIdea "Repair cafe", true);
                 (CoFounderLab.SubmitIdea, true)])) = selection.
Proof.
  split; [reflexivity|]. split; [reflexivity|]. split; [reflexivity|].
  apply (selection_needs_full_bank (sampleWorld variantsLab)
           [(CoFounderLab.Like 0, true); (CoFounderLab.Like 1, true);
            (CoFounderLab.TypeIdea "Repair cafe", true);
            (CoFounderLab.SubmitIdea, true)]
           "p1" true true goodReply 7);
    reflexivity.
Defined.

(* ================================================================== *)
(** * Failure semantics of the gateway-backed transitions *)
(* ================================================================== *)

Section Gateway.

Import CoFounderLab.

Lemma storedLab_saveLabData ok data w id d :
  actualProjectId (comp w) = Some id ->
  db w !! id = Some d ->
  db (saveLabData ok data w) !! id
  = Some (if ok then applyWrite d (SetCoFounderLab (Some data)) else d).
Proof.
  intros Hid Hd. unfold saveLabData, updateProject. rewrite Hid, Hd.
  destruct ok; simpl; [|done]. by rewrite lookup_insert_eq.
Qed.

Lemma reflection_failure reply now ok w :
  successfulFeedback reply = None ->
  labData (comp (generateInitialReflection reply now ok w)) = labData (comp w)
  /\ db (generateInitialReflection reply now ok w) = db w.
Proof.
  intros Hfail. unfold generateInitialReflection, generateInitialReflection_begin.
  destruct (actualProjectId (comp w)); [|done].
  destruct (project (comp w)); [|done].
  unfold generateInitialReflection_resume. by rewrite Hfail.
Qed.

Lemma reflection_success reply now ok w id p fb :
  actualProjectId (comp w) = Some id ->
  project (comp w) = Some p ->
  successfulFeedback reply = Some fb ->
  labData (comp (generateInitialReflection reply now ok w))
  = withStage choosing_directions
      (withHistory [aiMessage fb now initial_reflection] (labData (comp w))).
Proof.
  intros Hid Hp Hfb.
  unfold generateInitialReflection, generateInitialReflection_begin.
  rewrite Hid, Hp. unfold generateInitialReflection_resume. rewrite Hfb.
  simpl. by rewrite comp_saveLabData.
Qed.

Lemma selection_stored_stage ok2 reply now w id d :
  actualProjectId (comp w) = Some id ->
  db w !! id = Some d ->
  (3 <= length (bank w))%nat ->
  currentStage <$> storedLab (proceedToSelection true reply now ok2 w) id
  = Some selection.
Proof.
  intros Hid Hd Hge. unfold proceedToSelection. rewrite Hid.
  fold (bank w). apply Nat.ltb_ge in Hge. rewrite Hge.
  set (updated := withStage selection (labData (comp w))).
  set (w1 := withComp (setExpandedStages _) _).
  assert (Hid1 : actualProjectId (comp w1) = Some id).
  { unfold w1. simpl. rewrite comp_saveLabData. simpl. exact Hid. }
  assert (Hd1 : db w1 !! id
                = Some (applyWrite d (SetCoFounderLab (Some updated)))).
  { unfold w1. simpl.
    rewrite (storedLab_saveLabData true updated _ id d); [done|exact Hid|exact Hd]. }
  clearbody w1. unfold generateSelectionAI, storedLab. rewrite Hid1.
  destruct (successfulFeedback reply) as [fb|]; simpl.
  - erewrite storedLab_saveLabData; [|exact Hid1|exact Hd1].
    by destruct ok2.
  - by rewrite Hd1.
Qed.

Lemma selection_effects ok reply now ok2 w id d :
  actualProjectId (comp w) = Some id ->
  db w !! id = Some d ->
  (3 <= length (bank w))%nat ->
  let updated := withStage selection (labData (comp w)) in
  let before := atSelectionCall ok w in
  let after := proceedToSelection ok reply now ok2 w in
  after = generateSelectionAI updated reply now ok2 before
  /\ labData (comp before) = updated
  /\ calls before = calls w
  /\ storedLab before id = (if ok then Some updated else coFounderLab d)
  /\ labData (comp after)
     = match successfulFeedback reply with
       | Some fb => withComparison fb now updated
       | None => updated
       end
  /\ storedLab after id
     = match successfulFeedback reply with
       | Some fb =>
           if ok2 then Some (withComparison fb now updated)
           else if ok then Some updated else coFounderLab d
       | None => if ok then Some updated else coFounderLab d
       end.
Proof.
  intros Hid Hd Hge. cbv zeta. unfold proceedToSelection. rewrite Hid.
  fold (bank w). apply Nat.ltb_ge in Hge. rewrite Hge.
  fold (atSelectionCall ok w).
  set (updated := withStage selection (labData (comp w))).
  set (before := atSelectionCall ok w).
  assert (Hid1 : actualProjectId (comp before) = Some id).
  { unfold before, atSelectionCall. simpl. rewrite comp_saveLabData. exact Hid. }
  assert (Hlab1 : labData (comp before) = updated).
  { unfold before, atSelectionCall. simpl. by rewrite comp_saveLabData. }
  assert (Hcalls1 : calls before = calls w).
  { unfold before, atSelectionCall. simpl. by rewrite calls_saveLabData. }
  assert (Hd1 : db before !! id
                = Some (if ok then applyWrite d (SetCoFounderLab (Some updated))
                        else d)).
  { unfold before, atSelectionCall. simpl.
    by rewrite (storedLab_saveLabData ok _ _ id d). }
  assert (Hs1 : storedLab before id
                = (if ok then Some updated else coFounderLab d)).
  { unfold storedLab. rewrite Hd1. by destruct ok. }
  clearbody before.
  split; [done|]. split; [done|]. split; [done|]. split; [done|].
  unfold generateSelectionAI. rewrite Hid1.
  destruct (successfulFeedback reply) as [fb|]; simpl.
  - rewrite comp_saveLabData. split; [done|].
    unfold storedLab. simpl.
    erewrite storedLab_saveLabData; [|exact Hid1|exact Hd1].
    destruct ok2; [done|]. by destruct ok.
  - by split.
Qed.

End Gateway.

(** C2, as the sources have it.  Reflect to Choose: when the reasoning
    call fails or answers unsuccessfully, the lab data and the store are
    unchanged, and the stage becomes Choose only with a successful
    reply.  Variants to Selection: once the bank is full the handler
    sets the stage to Selection before it issues the reasoning call, in
    the component always and in the store when its own write succeeds
    (a failed write is swallowed and leaves the store as it was); the
    stage is Selection afterwards whatever the outcome of the call.  Only the comparison
    message depends on a successful response: without one the lab data
    is the previous lab data with the stage set to Selection, with one
    it is that lab data with the message appended, and the store takes
    the latter when the second write succeeds. *)
Theorem gateway_transitions (w : CoFounderLab.World) (id : string)
    (p d : ProjectDoc) (reply : CoFounderLab.FetchOutcome) (now : Z)
    (ok ok2 : bool) :
  CoFounderLab.actualProjectId (CoFounderLab.comp w) = Some id ->
  CoFounderLab.project (CoFounderLab.comp w) = Some p ->
  CoFounderLab.db w !! id = Some d ->
  (CoFounderLab.successfulFeedback reply = None ->
     CoFounderLab.labData
       (CoFounderLab.comp (CoFounderLab.generateInitialReflection reply now ok w))
     = CoFounderLab.labData (CoFounderLab.comp w)
     /\ CoFounderLab.db (CoFounderLab.generateInitialReflection reply now ok w)
        = CoFounderLab.db w)
  /\ (is_Some (CoFounderLab.successfulFeedback reply) ->
      stageOf (CoFounderLab.generateInitialReflection reply now ok w)
      = choosing_directions)
  /\ ((3 <= length (bank w))%nat ->
      let updated :=
        CoFounderLab.withStage selection
          (CoFounderLab.labData (CoFounderLab.comp w)) in
      let before := atSelectionCall ok w in
      let after := CoFounderLab.proceedToSelection ok reply now ok2 w in
      after = CoFounderLab.generateSelectionAI updated reply now ok2 before
      /\ stageOf before = selection
      /\ CoFounderLab.calls before = CoFounderLab.calls w
      /\ storedLab before id = (if ok then Some updated else coFounderLab d)
      /\ stageOf after = selection
      /\ CoFounderLab.calls after
         = (CoFounderLab.calls w
            ++ [(id, CoFounderLab.SelectionCall
                       (conversationHistory
                          (CoFounderLab.labData (CoFounderLab.comp w)))
                       (bank w))])%list
      /\ CoFounderLab.labData (CoFounderLab.comp after)
         = match CoFounderLab.successfulFeedback reply with
           | Some fb => withComparison fb now updated
           | None => updated
           end
      /\ storedLab after id
         = match CoFounderLab.successfulFeedback reply with
           | Some fb =>
               if ok2 then Some (withComparison fb now updated)
               else if ok then Some updated else coFounderLab d
           | None => if ok then Some updated else coFounderLab d
           end
      /\ (ok = true -> currentStage <$> storedLab after id = Some selection)).
Proof.
  intros Hid Hp Hd. split; [|split].
  - apply reflection_failure.
  - intros [fb Hfb]. unfold stageOf.
    by rewrite (reflection_success reply now ok w id p fb).
  - intros Hge. cbv zeta.
    destruct (selection_effects ok reply now ok2 w id d Hid Hd Hge)
      as (Heq & Hlab1 & Hcalls1 & Hs1 & Hlab & Hs).
    destruct (proceedToSelection_accepted ok reply now ok2 w id Hid Hge)
      as [Hstage Hcalls].
    split; [exact Heq|]. split; [unfold stageOf; by rewrite Hlab1|].
    split; [exact Hcalls1|]. split; [exact Hs1|]. split; [exact Hstage|].
    split; [exact Hcalls|]. split; [exact Hlab|]. split; [exact Hs|].
    intros ->. rewrite Hs.
    destruct (CoFounderLab.successfulFeedback reply) as [fb|]; [|done].
    by destruct ok2.
Qed.

Lemma gateway_transitions_witness :
  CoFounderLab.actualProjectId (CoFounderLab.comp (sampleWorld fullBankLab))
    = Some "p1" /\
  CoFounderLab.successfulFeedback failedReply = None /\
  (3 <= length (bank (sampleWorld fullBankLab)))%nat /\
  CoFounderLab.db
    (CoFounderLab.generateInitialReflection failedReply 5 true
       (sampleWorld fullBankLab))
  = CoFounderLab.db (sampleWorld fullBankLab) /\
  stageOf (CoFounderLab.proceedToSelection false failedReply 5 true
             (sampleWorld fullBankLab)) = selection /\
  storedLab (CoFounderLab.proceedToSelection false failedReply 5 true
               (sampleWorld fullBankLab)) "p1" = Some fullBankLab.
Proof.
  split; [reflexivity|]. split; [reflexivity|].
  split; [vm_compute; lia|].
  pose proof (gateway_transitions (sampleWorld fullBankLab) "p1"
                sampleDoc
                (CoFounderLab.applyWrite sampleDoc
                   (CoFounderLab.SetCoFounderLab (Some fullBankLab)))
                failedReply 5 false true
                eq_refl eq_refl eq_refl) as [Hfail [_ Hsel]].
  assert (Hge : (3 <= length (bank (sampleWorld fullBankLab)))%nat)
    by (vm_compute; lia).
  destruct (Hsel Hge) as (_ & _ & _ & _ & Hstage & _ & _ & Hstored & _).
  split; [|split].
  - pose proof (gateway_transitions (sampleWorld fullBankLab) "p1"
                  sampleDoc
                  (CoFounderLab.applyWrite sampleDoc
                     (CoFounderLab.SetCoFounderLab (Some fullBankLab)))
                  failedReply 5 true true
                  eq_refl eq_refl eq_refl) as [Hfail' _].
    apply Hfail'. reflexivity.
  - exact Hstage.
  - rewrite Hstored. reflexivity.
Defined.

(** C2, as stated, fails for Variants to Selection: with a full bank and
    a reasoning call that is rejected, the stage held in the store has
    moved from Variants to Selection all the same. *)
Lemma selection_advances_despite_failure :
  currentStage <$> storedLab (sampleWorld fullBankLab) "p1" = Some variants
  /\ currentStage <$>
       storedLab (CoFounderLab.proceedToSelection true
                    CoFounderLab.FetchRejected 5 true
                    (sampleWorld fullBankLab)) "p1"
     = Some selection
  /\ currentStage <$>
       storedLab (CoFounderLab.proceedToSelection true failedReply 5 true
                    (sampleWorld fullBankLab)) "p1"
     = Some selection.
Proof. repeat split; reflexivity. Qed.

(* ================================================================== *)
(** * Selection to Locked *)
(* ================================================================== *)

(** C3, as the sources have it.  The lock handler sets the locked
    artifact, the proposed solution and the Locked stage together, in
    one update of the lab data, and seeds the decision feature with a
    second, separate write issued after it.  The component always holds
    the locked lab data; in the store each of the two writes takes
    effect exactly when that write succeeds, and the handler completes
    exactly when the second one does. *)
Theorem lock_is_two_writes (w : CoFounderLab.World) (id : string)
    (d : ProjectDoc) (choice : string) (ok1 ok2 : bool) :
  CoFounderLab.actualProjectId (CoFounderLab.comp w) = Some id ->
  CoFounderLab.db w !! id = Some d ->
  let next :=
    CoFounderLab.withLock choice (CoFounderLab.proposedFor choice)
      (CoFounderLab.labData (CoFounderLab.comp w)) in
  let r := CoFounderLab.onLock choice ok1 ok2 w in
  CoFounderLab.labData (CoFounderLab.comp r.1) = next
  /\ lockedVariant next = Some choice
  /\ currentStage next = completed
  /\ CoFounderLab.db r.1 !! id = Some (afterLockWrites ok1 ok2 next d)
  /\ r.2 = ok2.
Proof.
  intros Hid Hd next r. unfold r, CoFounderLab.onLock.
  fold next.
  set (w1 := CoFounderLab.saveLabData ok1 next _).
  assert (Hid1 : CoFounderLab.actualProjectId (CoFounderLab.comp w1) = Some id).
  { unfold w1. rewrite comp_saveLabData. exact Hid. }
  assert (Hlab1 : CoFounderLab.labData (CoFounderLab.comp w1) = next).
  { unfold w1. by rewrite comp_saveLabData. }
  assert (Hd1 : CoFounderLab.db w1 !! id
                = Some (if ok1
                        then CoFounderLab.applyWrite d
                               (CoFounderLab.SetCoFounderLab (Some next))
                        else d)).
  { unfold w1. by apply storedLab_saveLabData. }
  clearbody w1. rewrite Hid1. unfold CoFounderLab.updateProject.
  rewrite Hd1. unfold afterLockWrites.
  destruct ok2; simpl.
  - rewrite lookup_insert_eq. by rewrite Hlab1.
  - by rewrite Hlab1, Hd1.
Qed.

Lemma lock_is_two_writes_witness :
  CoFounderLab.actualProjectId (CoFounderLab.comp (sampleWorld selectionLab))
    = Some "p1" /\
  stageOf (CoFounderLab.onLock "Bike share" true true
             (sampleWorld selectionLab)).1 = completed /\
  decision <$>
    (CoFounderLab.db (CoFounderLab.onLock "Bike share" true true
                        (sampleWorld selectionLab)).1 !! "p1")
  = Some CoFounderLab.decisionSeed.
Proof.
  split; [reflexivity|].
  pose proof (lock_is_two_writes (sampleWorld selectionLab) "p1"
                (CoFounderLab.applyWrite sampleDoc
                   (CoFounderLab.SetCoFounderLab (Some selectionLab)))
                "Bike share" true true eq_refl eq_refl)
    as (Hlab & _ & _ & Hdb & _).
  split.
  - unfold stageOf. rewrite Hlab. reflexivity.
  - rewrite Hdb. reflexivity.
Defined.

(** C3, as stated, fails: when the first write succeeds and the second
    is rejected, the store holds the Locked stage and the locked
    artifact while the decision feature is left unseeded; when only the
    second succeeds, the decision feature is seeded while the store
    still holds the Selection stage. *)
Lemma lock_partial_failure :
  (let w' := (CoFounderLab.onLock "Bike share" true false
                (sampleWorld selectionLab)).1 in
   currentStage <$> storedLab w' "p1" = Some completed
   /\ storedLab w' "p1" ≫= lockedVariant = Some "Bike share"
   /\ decision <$> (CoFounderLab.db w' !! "p1") = Some JUndefined)
  /\ (let w' := (CoFounderLab.onLock "Bike share" false true
                   (sampleWorld selectionLab)).1 in
      currentStage <$> storedLab w' "p1" = Some selection
      /\ decision <$> (CoFounderLab.db w' !! "p1")
         = Some CoFounderLab.decisionSeed).
Proof. repeat split; reflexivity. Qed.

(* ================================================================== *)
(** * The one-shot reflection and the reset *)
(* ================================================================== *)

Section Reflection.

Import CoFounderLab.

(** Once the flag is set, an evaluation of the effect does nothing. *)
Lemma autoStart_guarded w :
  hasAutoStarted (comp w) = true -> autoStartEffect w = (w, None).
Proof.
  intros Hg. unfold autoStartEffect, autoStartCondition. by rewrite Hg.
Qed.

Lemma autoStart_fires w id p :
  autoStartCondition w = true ->
  actualProjectId (comp w) = Some id ->
  project (comp w) = Some p ->
  autoStartEffect w
  = (logCall id (ReflectionCall (solutionWheel p))
       (withComp (setIsAIThinking true)
          (withComp (setHasAutoStarted true) w)),
     Some (labData (comp w))).
Proof.
  intros Hc Hid Hp. unfold autoStartEffect. rewrite Hc.
  unfold generateInitialReflection_begin. simpl. by rewrite Hid, Hp.
Qed.

Lemma resume_keeps_guard captured reply now ok w :
  hasAutoStarted (comp (generateInitialReflection_resume captured reply now ok w))
  = hasAutoStarted (comp w).
Proof.
  unfold generateInitialReflection_resume.
  destruct (successfulFeedback reply); simpl; [|done].
  by rewrite comp_saveLabData.
Qed.

Lemma resume_calls captured reply now ok w :
  calls (generateInitialReflection_resume captured reply now ok w) = calls w.
Proof.
  unfold generateInitialReflection_resume.
  destruct (successfulFeedback reply); simpl; [|done].
  by rewrite calls_saveLabData.
Qed.

Lemma resume_labData captured reply now ok w :
  labData (comp (generateInitialReflection_resume captured reply now ok w))
  = match successfulFeedback reply with
    | Some fb => withStage choosing_directions
                   (withHistory [aiMessage fb now initial_reflection] captured)
    | None => labData (comp w)
    end.
Proof.
  unfold generateInitialReflection_resume.
  destruct (successfulFeedback reply); simpl; [|done].
  by rewrite comp_saveLabData.
Qed.

End Reflection.

(** C7. At the Reflect stage with an empty history and the trigger
    condition true, two evaluations of the auto-start effect in a row
    issue exactly one reasoning call: the first starts the reflection
    and sets the one-shot flag, the second changes nothing.  When that
    call returns successfully the history holds exactly one entry, the
    reflection, and the stage is Choose; a further evaluation of the
    effect then changes nothing either and the call log still holds the
    one call.  When the call fails the history stays empty.  The flag
    alone stops every later evaluation, whatever the rest of the state
    is. *)
Theorem reflection_fires_once (w0 : CoFounderLab.World) (id : string)
    (p : ProjectDoc) (reply : CoFounderLab.FetchOutcome) (now : Z) (ok : bool) :
  CoFounderLab.autoStartCondition w0 = true ->
  stageOf w0 = initial_reflection ->
  CoFounderLab.actualProjectId (CoFounderLab.comp w0) = Some id ->
  CoFounderLab.project (CoFounderLab.comp w0) = Some p ->
  let e1 := CoFounderLab.autoStartEffect w0 in
  let e2 := CoFounderLab.autoStartEffect e1.1 in
  let w3 := CoFounderLab.generateInitialReflection_resume
              (CoFounderLab.labData (CoFounderLab.comp w0)) reply now ok e2.1 in
  let e4 := CoFounderLab.autoStartEffect w3 in
  e1.2 = Some (CoFounderLab.labData (CoFounderLab.comp w0))
  /\ e2 = (e1.1, None)
  /\ CoFounderLab.calls e2.1
     = (CoFounderLab.calls w0
        ++ [(id, CoFounderLab.ReflectionCall (solutionWheel p))])%list
  /\ (forall fb, CoFounderLab.successfulFeedback reply = Some fb ->
        conversationHistory (CoFounderLab.labData (CoFounderLab.comp w3))
        = [CoFounderLab.aiMessage fb now initial_reflection]
        /\ stageOf w3 = choosing_directions)
  /\ (CoFounderLab.successfulFeedback reply = None ->
        conversationHistory (CoFounderLab.labData (CoFounderLab.comp w3)) = []
        /\ stageOf w3 = initial_reflection)
  /\ e4 = (w3, None)
  /\ CoFounderLab.calls e4.1 = CoFounderLab.calls e2.1
  /\ CoFounderLab.hasAutoStarted (CoFounderLab.comp e1.1) = true
  /\ (forall w, CoFounderLab.hasAutoStarted (CoFounderLab.comp w) = true ->
        CoFounderLab.autoStartEffect w = (w, None)).
Proof.
  intros Hc Hst Hid Hp e1 e2 w3 e4.
  assert (He1 : e1 = (CoFounderLab.logCall id
                        (CoFounderLab.ReflectionCall (solutionWheel p))
                        (CoFounderLab.withComp (CoFounderLab.setIsAIThinking true)
                           (CoFounderLab.withComp
                              (CoFounderLab.setHasAutoStarted true) w0)),
                      Some (CoFounderLab.labData (CoFounderLab.comp w0)))).
  { by apply autoStart_fires. }
  assert (He2 : e2 = (e1.1, None)).
  { unfold e2. apply autoStart_guarded. by rewrite He1. }
  assert (Hg3 : CoFounderLab.hasAutoStarted (CoFounderLab.comp w3) = true).
  { unfold w3. rewrite resume_keeps_guard, He2, He1. reflexivity. }
  assert (He4 : e4 = (w3, None)) by (by apply autoStart_guarded).
  assert (Hh0 : conversationHistory (CoFounderLab.labData (CoFounderLab.comp w0)) = []).
  { unfold CoFounderLab.autoStartCondition in Hc.
    repeat (apply andb_prop in Hc as [Hc ?]).
    match goal with H : bool_decide (length _ = _) = true |- _ =>
      apply bool_decide_eq_true in H; by apply nil_length_inv in H end. }
  repeat split.
  - by rewrite He1.
  - exact He2.
  - by rewrite He2, He1.
  - unfold w3. rewrite resume_labData, H. reflexivity.
  - unfold stageOf, w3. rewrite resume_labData, H. reflexivity.
  - unfold w3. rewrite resume_labData, H, He2, He1. exact Hh0.
  - unfold stageOf, w3. rewrite resume_labData, H, He2, He1. exact Hst.
  - exact He4.
  - rewrite He4. change (CoFounderLab.calls w3 = CoFounderLab.calls e2.1).
    unfold w3. by rewrite resume_calls.
  - by rewrite He1.
  - apply autoStart_guarded.
Qed.

Lemma reflection_fires_once_witness :
  CoFounderLab.autoStartCondition (sampleWorld EMPTY_LAB_DATA) = true /\
  length (CoFounderLab.calls
            (CoFounderLab.autoStartEffect
               (CoFounderLab.autoStartEffect (sampleWorld EMPTY_LAB_DATA)).1).1)
  = 1%nat /\
  length (conversationHistory
            (CoFounderLab.labData
               (CoFounderLab.comp
                  (CoFounderLab.generateInitialReflection_resume
                     EMPTY_LAB_DATA goodReply 9 true
                     (CoFounderLab.autoStartEffect
                        (CoFounderLab.autoStartEffect
                           (sampleWorld EMPTY_LAB_DATA)).1).1)))) = 1%nat.
Proof.
  split; [reflexivity|].
  pose proof (reflection_fires_once (sampleWorld EMPTY_LAB_DATA) "p1"
                sampleDoc goodReply 9 true eq_refl eq_refl eq_refl eq_refl)
    as (_ & _ & Hcalls & Hok & _).
  split.
  - rewrite Hcalls. reflexivity.
  - destruct (Hok ["Three strong directions."] eq_refl) as [Hh _].
    simpl in Hh. simpl. rewrite Hh. reflexivity.
Defined.

Section Reset.

Import CoFounderLab.

Variables (w : World) (id : string) (ok : bool).
Hypothesis Hid : actualProjectId (comp w) = Some id.

Ltac reset_cases Hid :=
  unfold handleReset, updateProject; rewrite Hid; simpl;
  destruct (db _ !! _); [destruct ok|]; reflexivity.

Lemma reset_labData : labData (comp (handleReset ok w)) = EMPTY_LAB_DATA.
Proof. reset_cases Hid. Qed.

Lemma reset_picked : pickedSolutions (comp (handleReset ok w)) = [].
Proof. reset_cases Hid. Qed.

Lemma reset_guard : hasAutoStarted (comp (handleReset ok w)) = false.
Proof. reset_cases Hid. Qed.

Lemma reset_initialized :
  hasInitialized (comp (handleReset ok w)) = hasInitialized (comp w).
Proof. reset_cases Hid. Qed.

Lemma reset_thinking :
  isAIThinking (comp (handleReset ok w)) = isAIThinking (comp w).
Proof. reset_cases Hid. Qed.

Lemma reset_project : project (comp (handleReset ok w)) = project (comp w).
Proof. reset_cases Hid. Qed.

Lemma reset_projectId :
  actualProjectId (comp (handleReset ok w)) = Some id.
Proof.
  unfold handleReset, updateProject. rewrite Hid. simpl.
  destruct (db _ !! _); [destruct ok|]; exact Hid.
Qed.

Lemma reset_calls : calls (handleReset ok w) = calls w.
Proof. reset_cases Hid. Qed.

Lemma reset_stored d :
  ok = true -> db w !! id = Some d ->
  db (handleReset ok w) !! id = Some (applyWrite d (SetCoFounderLab None)).
Proof.
  intros -> Hd. unfold handleReset, updateProject. rewrite Hid. simpl.
  rewrite Hd. simpl. by rewrite lookup_insert_eq.
Qed.

End Reset.

(** C8. Reset, from any world of a component that has a project id (so
    from any stage, Locked included), clears the conversation history,
    the idea bank, the selected candidates and the locked artifact,
    returns the stage to Reflect and clears the one-shot flag; when the
    write succeeds the stored lab data is cleared as well.  The
    auto-start condition then depends only on the project being loaded
    and no call being in flight, and when it holds the next evaluation
    of the effect starts a reflection again. *)
Theorem reset_rearms (w : CoFounderLab.World) (id : string) (ok : bool) :
  CoFounderLab.actualProjectId (CoFounderLab.comp w) = Some id ->
  let w' := CoFounderLab.handleReset ok w in
  CoFounderLab.labData (CoFounderLab.comp w') = EMPTY_LAB_DATA
  /\ conversationHistory (CoFounderLab.labData (CoFounderLab.comp w')) = []
  /\ bank w' = []
  /\ selectedSolutions (CoFounderLab.labData (CoFounderLab.comp w')) = []
  /\ CoFounderLab.pickedSolutions (CoFounderLab.comp w') = []
  /\ lockedVariant (CoFounderLab.labData (CoFounderLab.comp w')) = None
  /\ stageOf w' = initial_reflection
  /\ CoFounderLab.hasAutoStarted (CoFounderLab.comp w') = false
  /\ (ok = true -> is_Some (CoFounderLab.db w !! id) -> storedLab w' id = None)
  /\ (forall p,
        CoFounderLab.hasInitialized (CoFounderLab.comp w) = true ->
        CoFounderLab.isAIThinking (CoFounderLab.comp w) = false ->
        CoFounderLab.project (CoFounderLab.comp w) = Some p ->
        Duck.truthy (solutionWheel p) = true ->
        CoFounderLab.autoStartCondition w' = true
        /\ (CoFounderLab.autoStartEffect w').2 = Some EMPTY_LAB_DATA
        /\ CoFounderLab.calls (CoFounderLab.autoStartEffect w').1
           = (CoFounderLab.calls w
              ++ [(id, CoFounderLab.ReflectionCall (solutionWheel p))])%list).
Proof.
  intros Hid w'.
  assert (Hlab : CoFounderLab.labData (CoFounderLab.comp w') = EMPTY_LAB_DATA)
    by (by apply (reset_labData w id ok)).
  unfold bank, stageOf. rewrite Hlab.
  split; [done|]. split; [done|]. split; [done|]. split; [done|].
  split; [by apply (reset_picked w id ok)|].
  split; [done|]. split; [done|].
  split; [by apply (reset_guard w id ok)|].
  split.
  - intros Hok [d Hd]. unfold storedLab, w'.
    by rewrite (reset_stored w id ok Hid d Hok Hd).
  - intros p Hini Hthink Hp Hwheel.
    assert (Hc : CoFounderLab.autoStartCondition w' = true).
    { unfold CoFounderLab.autoStartCondition. rewrite Hlab. unfold w'.
      rewrite (reset_guard w id ok Hid), (reset_initialized w id ok Hid),
        (reset_thinking w id ok Hid), (reset_project w id ok Hid),
        (reset_projectId w id ok Hid), Hini, Hthink, Hp, Hwheel.
      reflexivity. }
    split; [exact Hc|].
    rewrite (autoStart_fires w' id p Hc).
    + simpl. rewrite Hlab. unfold w'.
      by rewrite (reset_calls w id ok Hid).
    + apply (reset_projectId w id ok Hid).
    + unfold w'. by rewrite (reset_project w id ok Hid).
Qed.

Lemma reset_rearms_witness :
  CoFounderLab.actualProjectId (CoFounderLab.comp (sampleWorld lockedLab))
    = Some "p1" /\
  stageOf (sampleWorld lockedLab) = completed /\
  stageOf (CoFounderLab.handleReset true (sampleWorld lockedLab))
    = initial_reflection /\
  bank (CoFounderLab.handleReset true (sampleWorld lockedLab)) = [] /\
  (CoFounderLab.autoStartEffect
     (CoFounderLab.handleReset true (sampleWorld lockedLab))).2
  = Some EMPTY_LAB_DATA.
Proof.
  split; [reflexivity|]. split; [reflexivity|].
  pose proof (reset_rearms (sampleWorld lockedLab) "p1" true eq_refl)
    as (_ & _ & Hbank & _ & _ & _ & Hstage & _ & _ & Hre).
  split; [exact Hstage|]. split; [exact Hbank|].
  apply (Hre sampleDoc); reflexivity.
Defined.

(* ================================================================== *)
(** * Context accumulator *)
(* ================================================================== *)

Lemma buildContext_total reachable db request :
  exists context,
    Orchestrator.buildContext reachable db request
    = Orchestrator.Fulfilled context.
Proof.
  unfold Orchestrator.buildContext.
  destruct (Orchestrator.buildContextTry reachable db request); eauto.
Qed.

Lemma buildContext_missing reachable (db : Projects) request :
  db !! projectId request = None ->
  Orchestrator.buildContext reachable db request
  = Orchestrator.Fulfilled (Orchestrator.minimalContext request).
Proof.
  intros Hmiss.
  unfold Orchestrator.buildContext, Orchestrator.buildContextTry,
    Orchestrator.getDoc.
  destruct reachable; [|done]. by rewrite Hmiss.
Qed.

(** C9, as the sources have it.  For every request whose project is not
    in the collection, [buildContext] does not throw: it returns the
    minimal context, which holds the project id and a null chosen
    problem and nothing else (no flag marks it as degraded), and
    [process] carries on with that context exactly as it does with any
    other: template lookup, then the assistant. *)
Theorem missing_project_minimal_context
    (PROMPT_REGISTRY : gmap string PromptTemplate)
    (create : ReviewAssistant.ChatRequest -> ReviewAssistant.Completion)
    (reachable : bool) (db : Projects) (request : AIRequest) :
  db !! projectId request = None ->
  Orchestrator.buildContext reachable db request
  = Orchestrator.Fulfilled (Orchestrator.minimalContext request)
  /\ dom (Orchestrator.minimalContext request)
     = ({[ "projectId"; "chosenProblem" ]} : gset string)
  /\ Orchestrator.minimalContext request !! "projectId"
     = Some (JStr (projectId request))
  /\ Orchestrator.minimalContext request !! "chosenProblem" = Some JNull
  /\ Orchestrator.process PROMPT_REGISTRY create reachable db request
     = Orchestrator.dispatch PROMPT_REGISTRY create request
         (Orchestrator.minimalContext request).
Proof.
  intros Hmiss. split; [by apply buildContext_missing|].
  split; [|split; [|split]].
  - unfold Orchestrator.minimalContext.
    rewrite dom_insert_L, dom_singleton_L. set_solver.
  - unfold Orchestrator.minimalContext. by rewrite lookup_insert_eq.
  - unfold Orchestrator.minimalContext.
    rewrite lookup_insert_ne; [|done]. by rewrite lookup_singleton_eq.
  - unfold Orchestrator.process. by rewrite buildContext_missing.
Qed.

Lemma missing_project_minimal_context_witness :
  ({[ "p1" := sampleDoc ]} : Projects) !! projectId orphanRequest = None /\
  Orchestrator.buildContext true {[ "p1" := sampleDoc ]} orphanRequest
  = Orchestrator.Fulfilled (Orchestrator.minimalContext orphanRequest).
Proof.
  split; [reflexivity|].
  apply (missing_project_minimal_context ∅ (fun _ => ReviewAssistant.Resolved None)
           true {[ "p1" := sampleDoc ]} orphanRequest).
  reflexivity.
Defined.

(** A request for a project that is not found is answered like any
    other. *)
Example missing_project_still_answers :
  Route.POST labRegistry (answering "Good start. What else?") (Some "key") true
    {[ "p1" := sampleDoc ]} (variantsRequest "no-such-project")
  = {| Route.status := 200;
       Route.body :=
         {| Route.r_success := true;
            Route.r_feedback := Some ["Good start."];
            Route.r_followUpQuestion := Some "What else?";
            Route.r_generatedItems := None;
            Route.r_error := None |} |}.
Proof. vm_compute. reflexivity. Qed.

(** C9, as stated, fails: the context returned for a project that is
    not found has no [degraded] member. *)
Lemma missing_project_no_degraded_flag :
  ~ carriesDegradedFlag
      (Orchestrator.buildContext true {[ "p1" := sampleDoc ]} orphanRequest).
Proof.
  intros (context & flag & Hctx & Hflag & _).
  rewrite buildContext_missing in Hctx by reflexivity.
  injection Hctx as <-. vm_compute in Hflag. discriminate.
Qed.

(* ================================================================== *)
(** * Response interpreter *)
(* ================================================================== *)

Section Fences.

Import JS.
Open Scope list_scope.

Lemma list_of_app (a b : string) :
  list_ascii_of_string (a ++ b)%string
  = list_ascii_of_string a ++ list_ascii_of_string b.
Proof. induction a as [|c a IH]; simpl; [done|]. by rewrite IH. Qed.

Lemma lower_list s :
  list_ascii_of_string (toLowerCase s) = map lowerChar (list_ascii_of_string s).
Proof. induction s as [|c s IH]; simpl; [done|]. by rewrite IH. Qed.

Lemma trimStartL_ws ws l :
  allWs ws = true -> trimStartL (ws ++ l) = trimStartL l.
Proof.
  induction ws as [|c ws IH]; simpl; [done|].
  intros H. apply andb_prop in H as [Hc Hws]. rewrite Hc. by apply IH.
Qed.

Lemma trimStartL_keep c l :
  isWhiteSpace c = false -> trimStartL (c :: l) = c :: l.
Proof. intros H. simpl. by rewrite H. Qed.

Lemma allWs_rev ws : allWs (rev ws) = allWs ws.
Proof.
  unfold allWs. induction ws as [|c ws IH]; simpl; [done|].
  rewrite forallb_app, IH. simpl. rewrite andb_true_r. apply andb_comm.
Qed.

Lemma trimEndL_ws ws l : allWs ws = true -> trimEndL (l ++ ws) = trimEndL l.
Proof.
  intros H. unfold trimEndL. rewrite rev_app_distr, trimStartL_ws; [done|].
  by rewrite allWs_rev.
Qed.

Lemma trimEndL_keep c l :
  isWhiteSpace c = false -> trimEndL (l ++ [c]) = l ++ [c].
Proof.
  intros H. unfold trimEndL. rewrite rev_app_distr. simpl. rewrite H.
  simpl. by rewrite rev_involutive.
Qed.

(** Text that begins and ends with a character that is not white space
    is what [trim] leaves of it, whatever white space surrounds it. *)
Lemma trimL_tight a m b ws0 ws3 :
  isWhiteSpace a = false -> isWhiteSpace b = false ->
  allWs ws0 = true -> allWs ws3 = true ->
  trimL (ws0 ++ (a :: m ++ [b]) ++ ws3) = a :: m ++ [b].
Proof.
  intros Ha Hb H0 H3. unfold trimL.
  rewrite trimStartL_ws by done.
  change ((a :: m ++ [b]) ++ ws3) with (a :: (m ++ [b]) ++ ws3).
  rewrite trimStartL_keep by done.
  change (a :: (m ++ [b]) ++ ws3) with ((a :: m ++ [b]) ++ ws3).
  rewrite trimEndL_ws by done.
  change (a :: m ++ [b]) with ((a :: m) ++ [b]).
  by rewrite trimEndL_keep.
Qed.

Lemma trimL_fixed a m b :
  isWhiteSpace a = false -> isWhiteSpace b = false ->
  trimL (a :: m ++ [b]) = a :: m ++ [b].
Proof.
  intros Ha Hb.
  pose proof (trimL_tight a m b [] [] Ha Hb eq_refl eq_refl) as H.
  simpl in H. by rewrite app_nil_r in H.
Qed.

Lemma startsWithL_app p l : startsWithL p (p ++ l) = true.
Proof.
  induction p as [|c p IH]; simpl; [done|].
  rewrite IH. by rewrite bool_decide_eq_true_2.
Qed.

Lemma lower_json_first c :
  lowerChar c = "j"%char -> isWhiteSpace c = false /\ c <> "["%char.
Proof.
  destruct c as [[] [] [] [] [] [] [] []]; vm_compute; intros H;
    try discriminate H; split; congruence.
Qed.

(** The optional tag of the opening fence. *)
Lemma openTag_skip tag r :
  (tag = [] \/ map lowerChar tag = jsonTag) ->
  (forall c r', r = c :: r' -> lowerChar c <> "j"%char) ->
  (if startsWithL jsonTag (map lowerChar (firstn 4 (tag ++ r)))
   then skipn 4 (tag ++ r) else tag ++ r) = r.
Proof.
  intros [->|Htag] Hr.
  - simpl. destruct r as [|c r']; [done|].
    simpl. rewrite bool_decide_eq_false_2; [done|].
    intros Hj. by apply (Hr c r').
  - destruct tag as [|t1 [|t2 [|t3 [|t4 [|t5 tag]]]]]; try discriminate Htag.
    simpl in Htag. simpl. injection Htag as -> -> -> ->.
    by rewrite !bool_decide_eq_true_2.
Qed.

Lemma stripOpenFence_fenced tag ws1 body :
  (tag = [] \/ map lowerChar tag = jsonTag) ->
  allWs ws1 = true ->
  ReviewAssistant.stripOpenFence
    (ReviewAssistant.fence ++ tag ++ ws1 ++ "["%char :: body)
  = "["%char :: body.
Proof.
  intros Htag Hws. unfold ReviewAssistant.stripOpenFence.
  rewrite startsWithL_app.
  change (skipn 3 (ReviewAssistant.fence ++ tag ++ ws1 ++ "["%char :: body))
    with (tag ++ ws1 ++ "["%char :: body).
  fold jsonTag. rewrite openTag_skip; [|done|].
  - rewrite trimStartL_ws by done. by rewrite trimStartL_keep.
  - intros c r' Heq Hj. apply lower_json_first in Hj as [Hnws Hnb].
    destruct ws1 as [|w ws1]; simpl in Heq; injection Heq as <- _.
    + done.
    + simpl in Hws. apply andb_prop in Hws as [Hw _]. congruence.
Qed.

Lemma stripCloseFence_fenced m ws2 :
  allWs ws2 = true ->
  ReviewAssistant.stripCloseFence
    ("["%char :: m ++ "]"%char :: ws2 ++ ReviewAssistant.fence)
  = "["%char :: m ++ ["]"%char].
Proof.
  intros Hws. unfold ReviewAssistant.stripCloseFence.
  replace ("["%char :: m ++ "]"%char :: ws2 ++ ReviewAssistant.fence)
    with ((("["%char :: m ++ ["]"%char]) ++ ws2) ++ ReviewAssistant.fence)
    by (simpl; by rewrite <- !app_assoc).
  rewrite rev_app_distr, startsWithL_app.
  rewrite length_app. simpl (length ReviewAssistant.fence).
  replace (length (("["%char :: m ++ ["]"%char]) ++ ws2) + 3 - 3)%nat
    with (length (("["%char :: m ++ ["]"%char]) ++ ws2)) by lia.
  rewrite firstn_app, firstn_all, Nat.sub_diag. simpl (firstn 0 _).
  rewrite app_nil_r, trimEndL_ws by done.
  change ("["%char :: m ++ ["]"%char]) with (("["%char :: m) ++ ["]"%char]).
  by rewrite trimEndL_keep.
Qed.

Lemma stripCloseFence_plain m :
  ReviewAssistant.stripCloseFence ("["%char :: m ++ ["]"%char])
  = "["%char :: m ++ ["]"%char].
Proof.
  unfold ReviewAssistant.stripCloseFence.
  change ("["%char :: m ++ ["]"%char]) with (("["%char :: m) ++ ["]"%char]).
  rewrite rev_app_distr. reflexivity.
Qed.

Lemma bracketed_list mid :
  list_ascii_of_string ("[" ++ mid ++ "]")%string
  = "["%char :: list_ascii_of_string mid ++ ["]"%char].
Proof. rewrite !list_of_app. reflexivity. Qed.

Lemma stripFences_list text :
  ReviewAssistant.stripFences (trim text)
  = string_of_list_ascii
      (trimL (ReviewAssistant.stripCloseFence
                (ReviewAssistant.stripOpenFence
                   (trimL (list_ascii_of_string text))))).
Proof.
  unfold ReviewAssistant.stripFences, trim.
  by rewrite list_ascii_of_string_of_list_ascii.
Qed.

(** A bare array literal is what [stripFences] hands to the parser. *)
Lemma stripFences_plain ws0 ws3 mid :
  isBlank ws0 = true -> isBlank ws3 = true ->
  ReviewAssistant.stripFences (trim (ws0 ++ "[" ++ mid ++ "]" ++ ws3)%string)
  = ("[" ++ mid ++ "]")%string.
Proof.
  intros H0 H3. rewrite stripFences_list.
  rewrite <- (string_of_list_ascii_of_string ("[" ++ mid ++ "]")%string).
  f_equal. rewrite bracketed_list, !list_of_app. simpl.
  set (m := list_ascii_of_string mid).
  replace (list_ascii_of_string ws0 ++ "["%char :: m
             ++ "]"%char :: list_ascii_of_string ws3)
    with (list_ascii_of_string ws0 ++ ("["%char :: m ++ ["]"%char])
            ++ list_ascii_of_string ws3)
    by (simpl; by rewrite <- app_assoc).
  rewrite trimL_tight by done.
  change (ReviewAssistant.stripOpenFence ("["%char :: m ++ ["]"%char]))
    with ("["%char :: m ++ ["]"%char]).
  rewrite stripCloseFence_plain.
  by apply trimL_fixed.
Qed.

(** So is an array literal wrapped in code-fence markers. *)
Lemma stripFences_fenced ws0 ws1 ws2 ws3 tag mid :
  isBlank ws0 = true -> isBlank ws1 = true ->
  isBlank ws2 = true -> isBlank ws3 = true ->
  (tag = ""%string \/ toLowerCase tag = "json"%string) ->
  ReviewAssistant.stripFences
    (trim (ws0 ++ "```" ++ tag ++ ws1 ++ "[" ++ mid ++ "]"
             ++ ws2 ++ "```" ++ ws3)%string)
  = ("[" ++ mid ++ "]")%string.
Proof.
  intros H0 H1 H2 H3 Htag. rewrite stripFences_list.
  rewrite <- (string_of_list_ascii_of_string ("[" ++ mid ++ "]")%string).
  f_equal. rewrite bracketed_list, !list_of_app.
  set (m := list_ascii_of_string mid).
  set (t := list_ascii_of_string tag).
  set (l0 := list_ascii_of_string ws0). set (l1 := list_ascii_of_string ws1).
  set (l2 := list_ascii_of_string ws2). set (l3 := list_ascii_of_string ws3).
  assert (Ht : t = [] \/ map lowerChar t = jsonTag).
  { destruct Htag as [->|Hl]; [by left|right].
    unfold t. by rewrite <- lower_list, Hl. }
  change (list_ascii_of_string "```") with ReviewAssistant.fence.
  change (list_ascii_of_string "[") with ["["%char].
  change (list_ascii_of_string "]") with ["]"%char].
  replace (l0 ++ ReviewAssistant.fence ++ t ++ l1 ++ ["["%char] ++ m
             ++ ["]"%char] ++ l2 ++ ReviewAssistant.fence ++ l3)
    with (l0 ++ ("`"%char
                   :: (["`"%char; "`"%char] ++ t ++ l1 ++ ["["%char] ++ m
                         ++ ["]"%char] ++ l2 ++ ["`"%char; "`"%char])
                   ++ ["`"%char]) ++ l3).
  2:{ unfold ReviewAssistant.fence. simpl.
      repeat (rewrite <- ?app_assoc; simpl). done. }
  rewrite trimL_tight by done.
  replace ("`"%char
             :: (["`"%char; "`"%char] ++ t ++ l1 ++ ["["%char] ++ m
                   ++ ["]"%char] ++ l2 ++ ["`"%char; "`"%char])
             ++ ["`"%char])
    with (ReviewAssistant.fence ++ t ++ l1
            ++ "["%char :: (m ++ "]"%char :: l2 ++ ReviewAssistant.fence)).
  2:{ unfold ReviewAssistant.fence. simpl.
      repeat (rewrite <- ?app_assoc; simpl). done. }
  rewrite stripOpenFence_fenced by done.
  rewrite stripCloseFence_fenced by done.
  by apply trimL_fixed.
Qed.

End Fences.

Section Roundtrip.
Import Json.
Open Scope list_scope.

Lemma parseChars_plain s t :
  forallb isPlainChar s = true ->
  parseChars (s ++ dquote :: t) = Some (s, t).
Proof.
  induction s as [|c s IH]; intros H.
  - reflexivity.
  - simpl in H. apply andb_prop in H as [Hc Hs].
    unfold isPlainChar in Hc.
    apply andb_prop in Hc as [Hc Hb]. apply andb_prop in Hc as [Hlow Hq].
    apply negb_true_iff in Hlow, Hq, Hb.
    cbn [app parseChars]. rewrite Hq, Hb, Hlow, (IH Hs). reflexivity.
Qed.

Lemma parseValue_string f s t :
  isPlain s = true -> (0 < f)%nat ->
  parseValue f (list_ascii_of_string (quoted s) ++ t) = Some (JStr s, t).
Proof.
  intros H Hf. destruct f as [|f]; [lia|]. unfold quoted.
  change (list_ascii_of_string (String dquote s ++ String dquote ""))
    with (dquote :: list_ascii_of_string (s ++ String dquote "")).
  rewrite list_of_app.
  change (list_ascii_of_string (String dquote "")) with [dquote].
  cbn [parseValue app]. 
  change (skipWs (dquote :: (list_ascii_of_string s ++ [dquote]) ++ t))
    with (dquote :: (list_ascii_of_string s ++ [dquote]) ++ t).
  cbv beta iota.
  change (Ascii.eqb dquote "[") with false.
  change (Ascii.eqb dquote "{") with false.
  change (Ascii.eqb dquote dquote) with true.
  cbv beta iota. rewrite <- app_assoc. cbn [app].
  rewrite parseChars_plain by exact H.
  by rewrite string_of_list_ascii_of_string.
Qed.


Lemma itemsText_cons x y r :
  list_ascii_of_string (itemsText (x :: y :: r))
  = list_ascii_of_string (quoted x)
    ++ ","%char :: list_ascii_of_string (itemsText (y :: r)).
Proof.
  unfold itemsText. cbn [map JS.join]. rewrite !list_of_app. reflexivity.
Qed.

Lemma parseElements_plain l : forall x acc f t,
  forallb isPlain (x :: l) = true ->
  (length (x :: l) < f)%nat ->
  parseElements f (list_ascii_of_string (itemsText (x :: l)) ++ "]"%char :: t) acc
  = Some (JArr (acc ++ map JStr (x :: l)), t).
Proof.
  induction l as [|y r IH]; intros x acc f t Hplain Hf.
  - destruct f as [|f]; [simpl in Hf; lia|].
    cbn [forallb] in Hplain. apply andb_prop in Hplain as [Hx _].
    unfold itemsText. cbn [map JS.join parseElements].
    rewrite parseValue_string; [reflexivity|exact Hx|simpl in Hf; lia].
  - destruct f as [|f]; [simpl in Hf; lia|].
    cbn [forallb] in Hplain. apply andb_prop in Hplain as [Hx Hrest].
    rewrite itemsText_cons, <- app_assoc. cbn [parseElements].
    rewrite parseValue_string; [|exact Hx|simpl in Hf; lia].
    cbn [app].
    change (skipWs (","%char :: list_ascii_of_string (itemsText (y :: r)) ++ "]"%char :: t))
      with (","%char :: list_ascii_of_string (itemsText (y :: r)) ++ "]"%char :: t).
    cbv beta iota. change (Ascii.eqb "," ",") with true. cbv beta iota.
    rewrite IH; [|exact Hrest|simpl in Hf |- *; lia].
    by rewrite <- app_assoc.
Qed.

Lemma itemsText_head x l :
  exists r, list_ascii_of_string (itemsText (x :: l)) = dquote :: r.
Proof.
  destruct l as [|y l].
  - unfold itemsText, quoted. cbn [map JS.join]. eexists. reflexivity.
  - rewrite itemsText_cons. unfold quoted. eexists. reflexivity.
Qed.

Lemma itemsText_length l :
  (length l <= length (list_ascii_of_string (itemsText l)))%nat.
Proof.
  induction l as [|x [|y r] IH].
  - simpl. lia.
  - unfold itemsText, quoted. cbn [map JS.join]. simpl. lia.
  - rewrite itemsText_cons, length_app. simpl in IH |- *. lia.
Qed.

Lemma asStringArray_strings l : asStringArray (JArr (map JStr l)) = Some l.
Proof.
  unfold asStringArray.
  assert (Hall : forallb (fun x => match x with JStr _ => true | _ => false end)
                   (map JStr l) = true).
  { induction l; simpl; [done|]. done. }
  rewrite Hall. f_equal. clear Hall.
  induction l as [|x l IH]; [done|]. cbn. f_equal. exact IH.
Qed.

(** A list of plain strings, written as an array literal, parses back
    to itself. *)
Lemma plain_items_roundtrip l :
  forallb isPlain l = true ->
  ReviewAssistant.parseStringArray ("[" ++ itemsText l ++ "]")%string = Some l.
Proof.
  intros Hplain. destruct l as [|x l]; [reflexivity|].
  unfold ReviewAssistant.parseStringArray, JSON_parse.
  rewrite bracketed_list.
  destruct (itemsText_head x l) as [r Hr].
  pose proof (itemsText_length (x :: l)) as Hlen.
  remember (2 * length ("["%char :: list_ascii_of_string (itemsText (x :: l))
                          ++ ["]"%char]) + 2)%nat as fuel eqn:Hfuel.
  destruct fuel as [|fuel]; [lia|].
  assert (Hf : (length (x :: l) < fuel)%nat).
  { rewrite length_cons, length_app in Hfuel. simpl in Hfuel, Hlen |- *. lia. }
  clear Hfuel.
  cbn [parseValue].
  change (skipWs ("["%char :: ?b)) with ("["%char :: b).
  cbv beta iota. change (Ascii.eqb "[" "[") with true. cbv beta iota.
  rewrite Hr at 1. cbn [app].
  change (skipWs (dquote :: r ++ ["]"%char])) with (dquote :: r ++ ["]"%char]).
  cbv beta iota. change (Ascii.eqb dquote "]") with false. cbv beta iota.
  change (dquote :: r ++ ["]"%char]) with ((dquote :: r) ++ ["]"%char]).
  rewrite <- Hr.
  rewrite parseElements_plain; [|exact Hplain|exact Hf].
  cbn [skipWs app mbind option_bind]. by rewrite asStringArray_strings.
Qed.

End Roundtrip.

Lemma parse_bare_array ws0 ws3 mid l :
  isBlank ws0 = true -> isBlank ws3 = true ->
  ReviewAssistant.parseStringArray ("[" ++ mid ++ "]") = Some l ->
  ReviewAssistant.tryExtractArray (JS.trim (ws0 ++ "[" ++ mid ++ "]" ++ ws3))
  = Some l.
Proof.
  intros H0 H3 Hparse. unfold ReviewAssistant.tryExtractArray.
  by rewrite stripFences_plain, Hparse.
Qed.

Lemma parse_fenced_array ws0 ws1 ws2 ws3 tag mid l :
  isBlank ws0 = true -> isBlank ws1 = true ->
  isBlank ws2 = true -> isBlank ws3 = true ->
  (tag = "" \/ JS.toLowerCase tag = "json") ->
  ReviewAssistant.parseStringArray ("[" ++ mid ++ "]") = Some l ->
  ReviewAssistant.tryExtractArray
    (JS.trim (ws0 ++ "```" ++ tag ++ ws1 ++ "[" ++ mid ++ "]"
                ++ ws2 ++ "```" ++ ws3))
  = Some l.
Proof.
  intros H0 H1 H2 H3 Htag Hparse. unfold ReviewAssistant.tryExtractArray.
  by rewrite stripFences_fenced, Hparse.
Qed.

Lemma parseResponse_items text l :
  ReviewAssistant.tryExtractArray (JS.trim text) = Some l ->
  ReviewAssistant.parseResponse text = itemsResult l.
Proof. intros H. unfold ReviewAssistant.parseResponse. by rewrite H. Qed.

Lemma parseResponse_no_items text :
  ReviewAssistant.tryExtractArray (JS.trim text) = None ->
  ReviewAssistant.p_generatedItems (ReviewAssistant.parseResponse text) = None
  /\ length (ReviewAssistant.p_feedback (ReviewAssistant.parseResponse text))
     = 1%nat.
Proof.
  intros H. unfold ReviewAssistant.parseResponse. rewrite H.
  destruct (ReviewAssistant.questionMatch _) as [[g1 g2]|]; simpl;
    by case_bool_decide.
Qed.

(** C5, as the sources have it.  A text that is a JSON array of strings
    (an array literal that [JSON.parse] accepts and whose elements are
    all strings; by [plain_items_roundtrip] every list of plain strings
    has one), surrounded by any white space and optionally wrapped
    in code-fence markers with or without a [json] tag, is interpreted
    as exactly that list of items.  When the direct attempt fails, the
    text from the first opening bracket to the last closing bracket is
    tried, and its items are returned when it parses.  When every
    attempt fails no item list is returned at all: the items member is
    absent and the text is interpreted as feedback, as one statement. *)
Theorem items_mode_parse (ws0 ws3 mid : string) (l : list string) :
  isBlank ws0 = true -> isBlank ws3 = true ->
  ReviewAssistant.parseStringArray ("[" ++ mid ++ "]") = Some l ->
  ReviewAssistant.parseResponse (ws0 ++ "[" ++ mid ++ "]" ++ ws3)
  = itemsResult l
  /\ (forall tag ws1 ws2 : string,
        isBlank ws1 = true -> isBlank ws2 = true ->
        (tag = "" \/ JS.toLowerCase tag = "json") ->
        ReviewAssistant.parseResponse
          (ws0 ++ "```" ++ tag ++ ws1 ++ "[" ++ mid ++ "]"
             ++ ws2 ++ "```" ++ ws3)
        = itemsResult l)
  /\ (forall (text candidate : string) (l' : list string),
        ReviewAssistant.parseStringArray
          (ReviewAssistant.stripFences (JS.trim text)) = None ->
        ReviewAssistant.bracketCandidate (JS.trim text) = Some candidate ->
        ReviewAssistant.parseStringArray candidate = Some l' ->
        ReviewAssistant.parseResponse text = itemsResult l')
  /\ (forall text : string,
        ReviewAssistant.tryExtractArray (JS.trim text) = None ->
        ReviewAssistant.p_generatedItems (ReviewAssistant.parseResponse text)
        = None
        /\ length (ReviewAssistant.p_feedback
                     (ReviewAssistant.parseResponse text)) = 1%nat).
Proof.
  intros H0 H3 Hparse. split; [|split; [|split]].
  - apply parseResponse_items. by apply parse_bare_array.
  - intros tag ws1 ws2 H1 H2 Htag.
    apply parseResponse_items. by apply parse_fenced_array.
  - intros text candidate l' Hdirect Hcand Hl'.
    apply parseResponse_items. unfold ReviewAssistant.tryExtractArray.
    rewrite Hdirect, Hcand. exact Hl'.
  - apply parseResponse_no_items.
Qed.

Lemma items_mode_parse_witness :
  ReviewAssistant.parseStringArray ("[" ++ abcItems ++ "]")
  = Some ["a"; "b"; "c"]
  /\ ReviewAssistant.parseResponse (" " ++ "[" ++ abcItems ++ "]" ++ JS.LF)
     = itemsResult ["a"; "b"; "c"]
  /\ ReviewAssistant.parseResponse
       (" " ++ "```" ++ "JSON" ++ JS.LF ++ "[" ++ abcItems ++ "]"
          ++ JS.LF ++ "```" ++ JS.LF)
     = itemsResult ["a"; "b"; "c"].
Proof.
  split; [reflexivity|].
  pose proof (items_mode_parse " " JS.LF abcItems ["a"; "b"; "c"]
                eq_refl eq_refl eq_refl) as (Hplain & Hfenced & _).
  split; [exact Hplain|].
  apply (Hfenced "JSON" JS.LF JS.LF); [reflexivity|reflexivity|].
  right. reflexivity.
Defined.

(** Every list of plain strings, written as an array literal, bare or
    fenced, comes back as the items. *)
Lemma plain_items_interpreted (l : list string)
    (ws0 ws1 ws2 ws3 tag : string) :
  forallb isPlain l = true ->
  isBlank ws0 = true -> isBlank ws1 = true ->
  isBlank ws2 = true -> isBlank ws3 = true ->
  (tag = "" \/ JS.toLowerCase tag = "json") ->
  ReviewAssistant.parseResponse (ws0 ++ "[" ++ itemsText l ++ "]" ++ ws3)
  = itemsResult l
  /\ ReviewAssistant.parseResponse
       (ws0 ++ "```" ++ tag ++ ws1 ++ "[" ++ itemsText l ++ "]"
          ++ ws2 ++ "```" ++ ws3)
     = itemsResult l.
Proof.
  intros Hplain H0 H1 H2 H3 Htag.
  pose proof (plain_items_roundtrip l Hplain) as Hparse.
  split; apply parseResponse_items.
  - by apply parse_bare_array.
  - by apply parse_fenced_array.
Qed.

(** The retry on the bracketed part of a chatty reply. *)
Example items_from_chatty_reply :
  ReviewAssistant.parseResponse
    ("Sure! Here you go: [" ++ abcItems ++ "] Enjoy.")
  = itemsResult ["a"; "b"; "c"].
Proof. vm_compute. reflexivity. Qed.

(** C5, as stated, fails: for a text on which every attempt fails the
    interpreter returns no item list, not an empty one; the text comes
    back as feedback. *)
Lemma unparsable_gives_no_item_list :
  ReviewAssistant.tryExtractArray (JS.trim "no list in here") = None
  /\ ReviewAssistant.p_generatedItems
       (ReviewAssistant.parseResponse "no list in here") <> Some []
  /\ ReviewAssistant.parseResponse "no list in here"
     = {| ReviewAssistant.p_feedback := ["no list in here"];
          ReviewAssistant.p_followUpQuestion := None;
          ReviewAssistant.p_generatedItems := None |}.
Proof.
  split; [vm_compute; reflexivity|].
  split; [vm_compute; discriminate | vm_compute; reflexivity].
Qed.

(** At the HTTP boundary the absent item list is [null], next to the
    text returned as feedback. *)
Example http_boundary_null_items :
  Route.POST labRegistry (answering "no list in here") (Some "key") true
    {[ "p1" := sampleDoc ]} (variantsRequest "p1")
  = {| Route.status := 200;
       Route.body :=
         {| Route.r_success := true;
            Route.r_feedback := Some ["no list in here"];
            Route.r_followUpQuestion := None;
            Route.r_generatedItems := None;
            Route.r_error := None |} |}.
Proof. vm_compute. reflexivity. Qed.

(** The caller that regenerates variants turns the absent item list of
    a successful reply into an empty list of options. *)
Example variants_caller_defaults_to_empty :
  variantOptions
    (CoFounderLab.labData
       (CoFounderLab.comp
          (CoFounderLab.generateVariants variantsLab "REGENERATE_VARIANTS"
             goodReply true (sampleWorld variantsLab))))
  = Some [].
Proof. reflexivity. Qed.

(** C4: what the code does on the reply of property P5.  The text is
    not split at the list markers: the feedback is the single statement
    that ends at the marker of the second item, and the follow-up
    question starts with the second item. *)
Theorem numbered_list_not_split :
  ReviewAssistant.parseResponse numberedReply
  = {| ReviewAssistant.p_feedback := ["1. foo" ++ JS.LF ++ "2."];
       ReviewAssistant.p_followUpQuestion :=
         Some ("bar" ++ JS.LF ++ JS.LF ++ "What do you think?");
       ReviewAssistant.p_generatedItems := None |}.
Proof. vm_compute. reflexivity. Qed.

(** The handlers that the unified endpoint replaces do split the same
    reply at its list markers and find its question. *)
Example legacy_routes_split_numbered_list :
  LegacyReview.parseReview 5 numberedReply
  = (["foo"; "bar"], Some "What do you think?").
Proof. vm_compute. reflexivity. Qed.

(* ================================================================== *)
(** * The response validator, beyond the claims *)
(* ================================================================== *)

Section Validator.

Import Validation.

Lemma matchAtoms_length ci p : forall l n,
  maxLength p = Some n -> matchAtoms ci p l = true -> (length l <= n)%nat.
Proof.
  induction p as [|a p IH]; intros l n Hmax Hm.
  - simpl in Hmax. injection Hmax as <-. destruct l; [simpl; lia|discriminate].
  - destruct a as [c|c|c]; simpl in Hmax; [| |discriminate];
      destruct (maxLength p) as [k|] eqn:Hk; try discriminate;
      simpl in Hmax; injection Hmax as <-.
    + simpl in Hm. destruct l as [|x l]; [discriminate|].
      apply andb_prop in Hm as [_ Hm]. simpl.
      specialize (IH l k eq_refl Hm). lia.
    + simpl in Hm. apply orb_prop in Hm as [Hm|Hm].
      * destruct l as [|x l]; [discriminate|].
        apply andb_prop in Hm as [_ Hm]. simpl.
        specialize (IH l k eq_refl Hm). lia.
      * specialize (IH l k eq_refl Hm). lia.
Qed.

Lemma string_length_list s : String.length s = length (list_ascii_of_string s).
Proof. induction s as [|c s IH]; simpl; [done|]. by rewrite IH. Qed.

Lemma short_fillers_silent (m : nat) (text : string) (ps : list Pattern) :
  (m <= String.length text)%nat ->
  existsb (fun p => test p text) ps
  = existsb (fun p => test p text)
      (List.filter
         (fun p => match maxLength (atoms p) with
                   | Some n => (m <=? n)%nat
                   | None => true
                   end) ps).
Proof.
  intros Hlen. induction ps as [|p ps IH]; [done|].
  cbn [existsb List.filter]. rewrite IH.
  destruct (maxLength (atoms p)) as [n|] eqn:Hmax; [|done].
  destruct (m <=? n)%nat eqn:Hmn; [done|].
  apply Nat.leb_gt in Hmn.
  destruct (test p text) eqn:Ht; [|done].
  unfold test in Ht.
  pose proof (matchAtoms_length _ _ _ _ Hmax Ht) as Hle.
  rewrite <- string_length_list in Hle. lia.
Qed.

End Validator.

(** X1. Whatever the minimum length, a response is valid exactly when
    its trimmed text is not empty, is not shorter than the minimum, and
    matches none of the filler patterns that can match a text that
    long; at the default minimum of 10 only five of the 22 patterns are
    left: the two [i don't ...] phrases and the three runs of one
    punctuation mark. *)
Theorem valid_response_characterised (response : string) (m : nat) :
  Validation.isValidResponse response m
  = negb (String.length (JS.trim response) =? 0)%nat
    && negb (String.length (JS.trim response) <? m)%nat
    && negb (existsb (fun p => Validation.test p (JS.trim response))
               (fillersFor m))
  /\ fillersFor 10
     = [ Validation.insensitive
           (Validation.word "i don" ++ [Validation.Opt "'"%char]
              ++ Validation.word "t know")%list;
         Validation.insensitive
           (Validation.word "i don" ++ [Validation.Opt "'"%char]
              ++ Validation.word "t care")%list;
         Validation.sensitive [Validation.Plus "."%char];
         Validation.sensitive [Validation.Plus "-"%char];
         Validation.sensitive [Validation.Plus "?"%char] ].
Proof.
  split; [|reflexivity].
  unfold Validation.isValidResponse, fillersFor.
  destruct (String.length (JS.trim response) =? 0)%nat; [done|].
  destruct (String.length (JS.trim response) <? m)%nat eqn:Hm; [done|].
  apply Nat.ltb_ge in Hm.
  rewrite <- (short_fillers_silent m _ _ Hm).
  by destruct (existsb _ _).
Qed.

(** No-break spaces around a response are trimmed like any other white
    space: nine letters between two of them are too short. *)
Example nbsp_padding_is_trimmed :
  Validation.isValidResponse (JS.NBSP ++ "abcdefghi" ++ JS.NBSP) 10 = false.
Proof. vm_compute. reflexivity. Qed.

(** X2. Lowering the minimum length never turns a valid response into
    an invalid one. *)
Theorem valid_response_antitone (response : string) (m m' : nat) :
  (m' <= m)%nat ->
  Validation.isValidResponse response m = true ->
  Validation.isValidResponse response m' = true.
Proof.
  intros Hle. unfold Validation.isValidResponse.
  destruct (String.length (JS.trim response) =? 0)%nat; [done|].
  destruct (String.length (JS.trim response) <? m)%nat eqn:Hm; [done|].
  apply Nat.ltb_ge in Hm.
  assert (Hm' : (String.length (JS.trim response) <? m')%nat = false)
    by (apply Nat.ltb_ge; lia).
  by rewrite Hm'.
Qed.

Lemma valid_response_antitone_witness :
  Validation.isValidResponse "Plastic bottles pile up behind the gym" 15 = true
  /\ Validation.isValidResponse "Plastic bottles pile up behind the gym" 10 = true.
Proof.
  split; [reflexivity|].
  apply (valid_response_antitone _ 15 10); [lia|reflexivity].
Defined.

Section Validator2.

Import Validation.

Lemma trimStartL_blank b : allWs b = true -> JS.trimStartL b = [].
Proof.
  induction b as [|c b IH]; simpl; [done|].
  intros H. apply andb_prop in H as [Hc Hb]. rewrite Hc. by apply IH.
Qed.

Lemma trimL_pad_r l b :
  allWs b = true -> JS.trimL (l ++ b)%list = JS.trimL l.
Proof.
  intros Hb. unfold JS.trimL. induction l as [|c l IH].
  - simpl. by rewrite trimStartL_blank.
  - cbn [app JS.trimStartL]. destruct (JS.isWhiteSpace c); [exact IH|].
    change (c :: (l ++ b)%list) with ((c :: l) ++ b)%list.
    by apply trimEndL_ws.
Qed.

Lemma trim_pad a r b :
  isBlank a = true -> isBlank b = true ->
  JS.trim (a ++ r ++ b) = JS.trim r.
Proof.
  intros Ha Hb. unfold JS.trim. f_equal. rewrite !list_of_app.
  unfold JS.trimL at 1. rewrite trimStartL_ws by exact Ha.
  fold (JS.trimL (list_ascii_of_string r ++ list_ascii_of_string b)).
  by apply trimL_pad_r.
Qed.

Lemma toLowerCase_length s : String.length (JS.toLowerCase s) = String.length s.
Proof. induction s as [|c s IH]; simpl; [done|]. by rewrite IH. Qed.

Lemma filter_sublist_mono {A} (P : A -> Prop) `{!forall x, Decision (P x)}
    (l1 l2 : list A) :
  l1 `sublist_of` l2 -> filter P l1 `sublist_of` filter P l2.
Proof.
  induction 1 as [|x l1 l2 _ IH|x l1 l2 _ IH].
  - apply sublist_nil_l.
  - destruct (decide (P x)).
    + rewrite !filter_cons_True by done. by apply sublist_skip.
    + by rewrite !filter_cons_False by done.
  - destruct (decide (P x)).
    + rewrite filter_cons_True by done. by apply sublist_cons.
    + by rewrite filter_cons_False by done.
Qed.

Lemma pair_count (corpus : list string) (a b n : string) :
  [a; b] `sublist_of` corpus -> normalize a = n -> normalize b = n ->
  (2 <= length (filter (fun r => r = n) (map normalize corpus)))%nat.
Proof.
  intros Hsub Ha Hb.
  assert (Hs : [n; n] `sublist_of` filter (fun r => r = n) (map normalize corpus)).
  { assert (Hm : normalize <$> [a; b] `sublist_of` normalize <$> corpus)
      by (by apply fmap_sublist).
    cbn in Hm. rewrite Ha, Hb in Hm.
    apply (filter_sublist_mono (fun r => r = n)) in Hm.
    rewrite !filter_cons_True in Hm by done. exact Hm. }
  apply sublist_length in Hs. exact Hs.
Qed.

Lemma pair_not_unique (corpus : list string) (a b t : string) :
  [a; b] `sublist_of` corpus ->
  normalize a = normalize t -> normalize b = normalize t ->
  normalize t <> "" ->
  isUniqueResponse t corpus = false.
Proof.
  intros Hsub Ha Hb Hne. unfold isUniqueResponse.
  fold (normalize t).
  destruct (String.length (normalize t) =? 0)%nat eqn:Hlen.
  - apply Nat.eqb_eq in Hlen. destruct (normalize t); [done|discriminate].
  - apply Nat.leb_gt.
    exact (pair_count corpus a b (normalize t) Hsub Ha Hb).
Qed.

Lemma lookup_pair_sublist (corpus : list string) i j a b :
  (i < j)%nat -> corpus !! i = Some a -> corpus !! j = Some b ->
  [a; b] `sublist_of` corpus.
Proof.
  intros Hij Ha Hb.
  rewrite <- (take_drop_middle corpus i a Ha).
  apply sublist_inserts_l. apply sublist_skip.
  assert (Hb' : drop (S i) corpus !! (j - S i)%nat = Some b).
  { rewrite lookup_drop. replace (S i + (j - S i))%nat with j by lia. done. }
  rewrite <- (take_drop_middle _ _ _ Hb').
  apply sublist_inserts_l. apply sublist_skip. apply sublist_nil_l.
Qed.

Lemma valid_not_blank x m :
  isValidResponse x m = true -> normalize x <> "".
Proof.
  unfold isValidResponse. intros H Hn.
  assert (Hl : String.length (JS.trim x) = 0%nat).
  { rewrite <- toLowerCase_length. fold (normalize x). by rewrite Hn. }
  by rewrite Hl in H.
Qed.

Lemma counted_distinct_aux (responses l : list string) :
  l `sublist_of` responses ->
  NoDup (map normalize
           (List.filter
              (fun r => isValidResponse r 10 && isUniqueResponse r responses)
              l)).
Proof.
  induction l as [|x l IH]; intros Hsub; [apply NoDup_nil_2|].
  assert (Hl : l `sublist_of` responses).
  { etrans; [|exact Hsub]. by apply sublist_cons. }
  cbn [List.filter].
  destruct (isValidResponse x 10 && isUniqueResponse x responses) eqn:Hx;
    [|by apply IH].
  cbn [map]. apply NoDup_cons. split; [|by apply IH].
  intros Hin. apply andb_prop in Hx as [Hv Hu].
  apply list_elem_of_In, in_map_iff in Hin as (y & Hy & Hyin).
  apply filter_In in Hyin as [Hyl _].
  assert (Hpair : [x; y] `sublist_of` responses).
  { etrans; [|exact Hsub]. apply sublist_skip.
    apply list_elem_of_In, list_elem_of_split in Hyl as (l1 & l2 & ->).
    apply sublist_inserts_l, sublist_skip, sublist_nil_l. }
  rewrite (pair_not_unique responses x y x Hpair eq_refl Hy) in Hu; [done|].
  by apply (valid_not_blank x 10).
Qed.

End Validator2.

Lemma padded_normalize (corpus' corpus : list string) :
  Forall2 padded corpus' corpus ->
  map (fun r => JS.toLowerCase (JS.trim r)) corpus'
  = map (fun r => JS.toLowerCase (JS.trim r)) corpus.
Proof.
  induction 1 as [|x y l' l (a & b & Ha & Hb & ->) _ IH]; [done|].
  cbn [map]. by rewrite IH, (trim_pad a y b Ha Hb).
Qed.

(** X3. White space never changes a verdict: the validity and the
    uniqueness of a response are those of its trimmed text, and the
    uniqueness of a response is the same in a corpus whose entries have
    been padded with white space. *)
Theorem padding_never_matters (a r b : string) (m : nat)
    (corpus' corpus : list string) :
  isBlank a = true -> isBlank b = true ->
  Forall2 padded corpus' corpus ->
  Validation.isValidResponse (a ++ r ++ b) m = Validation.isValidResponse r m
  /\ Validation.isUniqueResponse (a ++ r ++ b) corpus
     = Validation.isUniqueResponse r corpus
  /\ Validation.isUniqueResponse r corpus'
     = Validation.isUniqueResponse r corpus
  /\ Validation.isUniqueResponse (a ++ r ++ b) corpus'
     = Validation.isUniqueResponse r corpus.
Proof.
  intros Ha Hb Hc.
  unfold Validation.isValidResponse, Validation.isUniqueResponse.
  by rewrite (trim_pad a r b Ha Hb), (padded_normalize corpus' corpus Hc).
Qed.

Lemma padding_never_matters_witness :
  Validation.isValidResponse ("  " ++ "Too much litter" ++ JS.LF) 10
  = Validation.isValidResponse "Too much litter" 10
  /\ Validation.isUniqueResponse ("  " ++ "Too much litter" ++ JS.LF)
       [" too much litter" ++ JS.LF; "Noise at night  "]
     = Validation.isUniqueResponse "Too much litter"
         ["too much litter"; "Noise at night"].
Proof.
  assert (Hc : Forall2 padded
                 [" too much litter" ++ JS.LF; "Noise at night  "]
                 ["too much litter"; "Noise at night"]).
  { constructor; [|constructor; [|constructor]].
    - exists " ", JS.LF. by repeat split.
    - exists "", "  ". by repeat split. }
  destruct (padding_never_matters "  " "Too much litter" JS.LF 10
              [" too much litter" ++ JS.LF; "Noise at night  "]
              ["too much litter"; "Noise at night"] eq_refl eq_refl Hc)
    as (H1 & _ & _ & H4).
  by split.
Defined.

(** X4. A response whose normalized text (trimmed, lower-cased, not
    empty) stands at two different places of the corpus is not unique,
    and that holds for each of the copies. *)
Theorem duplicated_response_not_unique (corpus : list string)
    (i j : nat) (a b t : string) :
  i <> j -> corpus !! i = Some a -> corpus !! j = Some b ->
  normalize a = normalize t -> normalize b = normalize t ->
  normalize t <> "" ->
  Validation.isUniqueResponse t corpus = false
  /\ Validation.isUniqueResponse a corpus = false
  /\ Validation.isUniqueResponse b corpus = false.
Proof.
  intros Hij Ha Hb Hna Hnb Hne.
  assert (Hpair : exists x y, [x; y] `sublist_of` corpus
                              /\ normalize x = normalize t
                              /\ normalize y = normalize t).
  { destruct (decide (i < j)%nat) as [Hlt|Hge].
    - exists a, b. split; [|done]. by apply (lookup_pair_sublist corpus i j).
    - exists b, a. split; [|done].
      apply (lookup_pair_sublist corpus j i); [lia|done..]. }
  destruct Hpair as (x & y & Hsub & Hx & Hy).
  split; [|split].
  - by apply (pair_not_unique corpus x y t).
  - apply (pair_not_unique corpus x y a); congruence.
  - apply (pair_not_unique corpus x y b); congruence.
Qed.

Lemma duplicated_response_not_unique_witness :
  Validation.isUniqueResponse "Too much litter"
    ["too much litter "; "Noise at night"; " TOO MUCH LITTER"] = false.
Proof.
  apply (duplicated_response_not_unique
           ["too much litter "; "Noise at night"; " TOO MUCH LITTER"]
           0 2 "too much litter " " TOO MUCH LITTER" "Too much litter");
    [lia|reflexivity|reflexivity|reflexivity|reflexivity|].
  vm_compute. discriminate.
Defined.

(** Entries that differ in the case of an accented letter and in a
    no-break space are duplicates; entries made of no-break spaces only
    are blank, and a blank response is unique. *)
Example accented_duplicates_not_unique :
  Validation.isUniqueResponse (Eacute ++ "cole")
    [eacute ++ "cole"; Eacute ++ "COLE" ++ JS.NBSP] = false
  /\ Validation.isUniqueResponse JS.NBSP [JS.NBSP; JS.NBSP] = true.
Proof. split; vm_compute; reflexivity. Qed.

(** X5. The responses that a zone counts are valid, are pairwise
    different after normalization, and are never more than the zone
    holds; so a zone is never complete with fewer entries than
    required. *)
Theorem counted_responses_distinct (responses : list string) (n : nat) :
  NoDup (map normalize (Validation.validResponses responses))
  /\ Forall (fun r => Validation.isValidResponse r 10 = true)
       (Validation.validResponses responses)
  /\ (Validation.getValidResponseCount responses <= length responses)%nat
  /\ (Validation.isZoneComplete responses n = true ->
      (n <= length responses)%nat).
Proof.
  assert (Hle : (Validation.getValidResponseCount responses
                 <= length responses)%nat).
  { unfold Validation.getValidResponseCount, Validation.validResponses.
    apply filter_length_le. }
  split; [by apply counted_distinct_aux|]. split; [|split; [exact Hle|]].
  - apply Forall_forall. intros r Hr.
    unfold Validation.validResponses in Hr.
    apply list_elem_of_In, filter_In in Hr as [_ Hr].
    by apply andb_prop in Hr as [Hr _].
  - unfold Validation.isZoneComplete. intros H.
    apply Nat.leb_le in H. lia.
Qed.

(** Two copies of a good answer count for nothing. *)
Example repeated_answer_counts_zero :
  Validation.getValidResponseCount
    ["Plastic bottles pile up"; "plastic bottles pile up "] = 0%nat.
Proof. reflexivity. Qed.

(** X6. A station that the validation library calls complete at the
    minimum length of 15 also passes the gate of the Solutions step
    (more than 15 characters, feedback checked); the library asks for
    more: the length is that of the trimmed idea and the idea must not
    be filler. *)
Theorem library_gate_implies_step_gate (idea : string) (checked : bool) :
  Validation.isSolutionStationComplete idea 15 checked = true ->
  isStationComplete idea (Some checked) = true
  /\ checked = true
  /\ (15 < String.length (JS.trim idea))%nat
  /\ Validation.isValidResponse idea 15 = true.
Proof.
  unfold Validation.isSolutionStationComplete, isStationComplete.
  destruct checked; [|done]. cbn [negb].
  destruct (String.length (JS.trim idea) <=? 15)%nat eqn:Hlen; [done|].
  destruct (Validation.isValidResponse idea 15) eqn:Hv; [|done].
  intros _. apply Nat.leb_gt in Hlen.
  assert (Htrim : (String.length (JS.trim idea) <= String.length idea)%nat).
  { unfold JS.trim. rewrite !string_length_list,
      list_ascii_of_string_of_list_ascii.
    unfold JS.trimL, JS.trimEndL. rewrite length_rev.
    assert (Hs : forall l, (length (JS.trimStartL l) <= length l)%nat).
    { induction l as [|c l IH]; simpl; [lia|].
      destruct (JS.isWhiteSpace c); simpl; lia. }
    etrans; [apply Hs|]. rewrite length_rev. apply Hs. }
  repeat split; [|lia].
  apply andb_true_intro. split; [apply Nat.ltb_lt; lia|].
  by apply bool_decide_eq_true_2.
Qed.

Lemma library_gate_implies_step_gate_witness :
  Validation.isSolutionStationComplete "  A drone that sorts bottles  " 15 true
  = true
  /\ isStationComplete "  A drone that sorts bottles  " (Some true) = true.
Proof.
  split; [reflexivity|].
  apply (library_gate_implies_step_gate "  A drone that sorts bottles  " true).
  reflexivity.
Defined.

(** The converse fails: sixteen full stops pass the gate of the step and
    are filler for the library. *)
Example step_gate_weaker :
  isStationComplete "................" (Some true) = true
  /\ Validation.isSolutionStationComplete "................" 15 true = false.
Proof. split; reflexivity. Qed.

(* ================================================================== *)
(** * The response interpreter, beyond the claims *)
(* ================================================================== *)

Section Question.

Import JS ReviewAssistant.
Open Scope list_scope.

Lemma ws_not_sentence_end c : isWhiteSpace c = true -> isSentenceEnd c = false.
Proof.
  destruct c as [[] [] [] [] [] [] [] []]; vm_compute; congruence.
Qed.

Lemma allWs_quiet ws : allWs ws = true -> quiet ws = true.
Proof.
  induction ws as [|c ws IH]; simpl; [done|].
  intros H. apply andb_prop in H as [Hc Hws].
  by rewrite (ws_not_sentence_end c Hc), IH.
Qed.

(** The second group is a non-empty run without sentence marks, the
    question mark and trailing white space. *)
Lemma questionBody_split g :
  questionBody g = true ->
  exists m t, g = m ++ "?"%char :: t /\ m <> [] /\ quiet m = true
              /\ allWs t = true.
Proof.
  induction g as [|c g IH]; [discriminate|].
  cbn [questionBody]. intros H. apply andb_prop in H as [Hc H].
  apply orb_prop in H as [H|H].
  - destruct (IH H) as (m & t & -> & _ & Hm & Ht).
    exists (c :: m), t. simpl. by rewrite Hc, Hm.
  - destruct g as [|q t]; [discriminate|]. cbn [questionTail] in H.
    apply andb_prop in H as [Hq Ht]. apply Ascii.eqb_eq in Hq as ->.
    exists [c], t. simpl. by rewrite Hc.
Qed.

Lemma spacesThenBody_split l ws g2 :
  spacesThenBody l = Some (ws, g2) ->
  l = ws ++ g2 /\ ws <> [] /\ allWs ws = true /\ questionBody g2 = true.
Proof.
  revert ws g2. induction l as [|c l IH]; intros ws g2; [discriminate|].
  cbn [spacesThenBody]. destruct (isWhiteSpace c) eqn:Hc; [|discriminate].
  destruct (spacesThenBody l) as [[ws' g']|] eqn:Hrec.
  - intros [= <- <-]. destruct (IH ws' g' eq_refl) as (-> & _ & Hws & Hb).
    simpl. by rewrite Hc, Hws.
  - destruct (questionBody l) eqn:Hb; [|discriminate].
    intros [= <- <-]. simpl. by rewrite Hc.
Qed.

Lemma questionMatch_split l g1 g2 :
  questionMatch l = Some (g1, g2) ->
  exists pre c ws,
    l = pre ++ g1 ++ g2 /\ g1 = c :: ws /\ isSentenceEnd c = true
    /\ ws <> [] /\ allWs ws = true /\ questionBody g2 = true.
Proof.
  revert g1 g2. induction l as [|c l IH]; intros g1 g2; [discriminate|].
  cbn [questionMatch].
  assert (Hrec : questionMatch l = Some (g1, g2) ->
                 exists pre c0 ws,
                   c :: l = pre ++ g1 ++ g2 /\ g1 = c0 :: ws
                   /\ isSentenceEnd c0 = true /\ ws <> []
                   /\ allWs ws = true /\ questionBody g2 = true).
  { intros H. destruct (IH g1 g2 H) as (pre & c0 & ws & -> & Hrest).
    exists (c :: pre), c0, ws. by split. }
  destruct (isSentenceEnd c) eqn:Hc; [|exact Hrec].
  destruct (spacesThenBody l) as [[ws g]|] eqn:Hs; [|exact Hrec].
  intros [= <- <-].
  destruct (spacesThenBody_split l ws g Hs) as (-> & Hne & Hws & Hb).
  exists [], c, ws. by repeat split.
Qed.

Lemma lastIndexOfL_absent c p l :
  forallb (fun x => negb (bool_decide (c = x))) l = true ->
  lastIndexOfL (c :: p) l = None.
Proof.
  induction l as [|x l IH]; [done|].
  cbn [forallb]. intros H. apply andb_prop in H as [Hx Hl].
  cbn [lastIndexOfL]. rewrite (IH Hl). cbn [startsWithL].
  apply negb_true_iff in Hx. by rewrite Hx.
Qed.

Lemma lastIndexOfL_prefix pre p suf :
  lastIndexOfL p (p ++ suf) = Some 0%nat ->
  lastIndexOfL p (pre ++ p ++ suf) = Some (length pre).
Proof.
  intros H. induction pre as [|x pre IH]; [exact H|].
  cbn [app lastIndexOfL length]. by rewrite IH.
Qed.

Lemma quiet_absent c l :
  isSentenceEnd c = true -> quiet l = true ->
  forallb (fun x => negb (bool_decide (c = x))) l = true.
Proof.
  intros Hc. induction l as [|x l IH]; [done|].
  cbn [quiet forallb]. intros H. apply andb_prop in H as [Hx Hl].
  rewrite (IH Hl), andb_true_r. apply negb_true_iff.
  apply bool_decide_eq_false_2. intros ->.
  apply negb_true_iff in Hx. congruence.
Qed.

Lemma quiet_app a b : quiet (a ++ b) = quiet a && quiet b.
Proof. unfold quiet. apply forallb_app. Qed.

Lemma quiet_body g : questionBody g = true -> quiet g = true.
Proof.
  intros H. destruct (questionBody_split g H) as (m & t & -> & _ & Hm & Ht).
  rewrite quiet_app, Hm.
  change (quiet ("?"%char :: t)) with (quiet t).
  by rewrite (allWs_quiet t Ht).
Qed.

Lemma lastIndexOfL_match pre c ws g2 :
  isSentenceEnd c = true -> allWs ws = true -> quiet g2 = true ->
  lastIndexOfL (c :: ws) (pre ++ (c :: ws) ++ g2) = Some (length pre).
Proof.
  intros Hc Hws Hg. apply lastIndexOfL_prefix.
  cbn [app lastIndexOfL].
  rewrite lastIndexOfL_absent.
  - cbn [startsWithL]. rewrite bool_decide_eq_true_2 by done.
    by rewrite startsWithL_app.
  - apply quiet_absent; [done|]. by rewrite quiet_app, (allWs_quiet ws Hws), Hg.
Qed.

Lemma trimStartL_before c m t :
  isWhiteSpace c = false ->
  trimStartL (m ++ c :: t) = trimStartL m ++ c :: t.
Proof.
  intros Hc. induction m as [|x m IH]; simpl; [by rewrite Hc|].
  by destruct (isWhiteSpace x).
Qed.

Lemma trimL_through c m t :
  isWhiteSpace c = false -> allWs t = true ->
  trimL (m ++ c :: t) = trimStartL m ++ [c].
Proof.
  intros Hc Ht. unfold trimL. rewrite trimStartL_before by done.
  change (trimStartL m ++ c :: t) with (trimStartL m ++ [c] ++ t).
  rewrite app_assoc, trimEndL_ws by done. by apply trimEndL_keep.
Qed.

Lemma quiet_trimStartL m : quiet m = true -> quiet (trimStartL m) = true.
Proof.
  induction m as [|x m IH]; [done|]. cbn [trimStartL].
  destruct (isWhiteSpace x); [|done].
  cbn [quiet forallb]. intros H. apply andb_prop in H as [_ H]. by apply IH.
Qed.

Lemma sentence_end_not_ws c : isSentenceEnd c = true -> isWhiteSpace c = false.
Proof.
  destruct (isWhiteSpace c) eqn:H; [|done].
  by rewrite (ws_not_sentence_end c H).
Qed.

Lemma string_of_list_app a b :
  string_of_list_ascii (a ++ b)
  = (string_of_list_ascii a ++ string_of_list_ascii b)%string.
Proof. induction a as [|c a IH]; [done|]. cbn. by rewrite IH. Qed.

End Question.

Section QuestionSplit.

Import JS ReviewAssistant.

Lemma parseResponse_question text g1 g2 :
  tryExtractArray (trim text) = None ->
  questionMatch (list_ascii_of_string text) = Some (g1, g2) ->
  parseResponse text
  = let l := list_ascii_of_string text in
    let stop := match lastIndexOfL g1 l with
                | Some i => (i + length g1)%nat
                | None => (length g1 - 1)%nat
                end in
    let feedbackText := string_of_list_ascii (trimL (firstn stop l)) in
    {| p_feedback := if bool_decide (feedbackText = ""%string)
                     then [text] else [feedbackText];
       p_followUpQuestion := Some (string_of_list_ascii (trimL g2));
       p_generatedItems := None |}.
Proof. intros Ht Hq. unfold parseResponse. by rewrite Ht, Hq. Qed.

Lemma parseResponse_plain text :
  tryExtractArray (trim text) = None ->
  questionMatch (list_ascii_of_string text) = None ->
  parseResponse text
  = {| p_feedback := [text]; p_followUpQuestion := None;
       p_generatedItems := None |}.
Proof.
  intros Ht Hq. unfold parseResponse. rewrite Ht, Hq.
  cbv beta iota zeta. by case_bool_decide; subst.
Qed.

Lemma string_of_list_snoc_nonempty a c :
  string_of_list_ascii (a ++ [c])%list <> ""%string.
Proof. destruct a; discriminate. Qed.

End QuestionSplit.

(** X7. When the interpreter extracts a follow-up question, nothing of
    the reply is lost: the reply splits into a left and a right part,
    the single feedback statement is the trimmed left part and ends
    with the full stop or exclamation mark that precedes the question,
    and the question is the trimmed right part, which ends with a
    question mark and holds no full stop and no exclamation mark. *)
Theorem question_split (text q : string) :
  ReviewAssistant.p_followUpQuestion (ReviewAssistant.parseResponse text)
  = Some q ->
  exists left right : string,
    text = left ++ right
    /\ ReviewAssistant.p_feedback (ReviewAssistant.parseResponse text)
       = [JS.trim left]
    /\ q = JS.trim right
    /\ (exists s c, JS.trim left = s ++ String c ""
                    /\ ReviewAssistant.isSentenceEnd c = true)
    /\ (exists s, q = s ++ "?")
    /\ noSentenceEnd right = true
    /\ noSentenceEnd q = true
    /\ ReviewAssistant.p_generatedItems (ReviewAssistant.parseResponse text)
       = None.
Proof.
  intros Hq.
  destruct (ReviewAssistant.tryExtractArray (JS.trim text)) as [items|] eqn:Ht.
  { rewrite (parseResponse_items text items Ht) in Hq. discriminate. }
  destruct (ReviewAssistant.questionMatch (list_ascii_of_string text))
    as [[g1 g2]|] eqn:Hm.
  2:{ rewrite (parseResponse_plain text Ht Hm) in Hq. discriminate. }
  rewrite (parseResponse_question text g1 g2 Ht Hm) in Hq |- *.
  cbv zeta in Hq |- *. cbn [ReviewAssistant.p_followUpQuestion] in Hq.
  injection Hq as <-.
  destruct (questionMatch_split _ g1 g2 Hm)
    as (pre & c & ws & Hl & -> & Hc & Hne & Hws & Hb).
  pose proof (quiet_body g2 Hb) as Hquiet.
  destruct (questionBody_split g2 Hb) as (m & t & Hg2 & Hmne & Hmq & Htws).
  assert (Hcws : JS.isWhiteSpace c = false) by (by apply sentence_end_not_ws).
  assert (Hleft : JS.trimL (pre ++ c :: ws) = (JS.trimStartL pre ++ [c])%list)
    by (by apply trimL_through).
  assert (Hright : JS.trimL g2 = (JS.trimStartL m ++ ["?"%char])%list).
  { rewrite Hg2. by apply trimL_through. }
  exists (string_of_list_ascii (pre ++ c :: ws)), (string_of_list_ascii g2).
  assert (Hstop : firstn
            match JS.lastIndexOfL (c :: ws) (list_ascii_of_string text) with
            | Some i => (i + length (c :: ws))%nat
            | None => (length (c :: ws) - 1)%nat
            end (list_ascii_of_string text) = (pre ++ c :: ws)%list).
  { rewrite Hl, lastIndexOfL_match by done.
    rewrite (app_assoc pre (c :: ws) g2), <- length_app.
    by rewrite firstn_app, firstn_all, Nat.sub_diag, firstn_O, app_nil_r. }
  rewrite Hstop.
  unfold JS.trim. rewrite !list_ascii_of_string_of_list_ascii.
  rewrite Hleft, Hright.
  split; [|split; [|split; [done|split; [|split; [|split; [|split]]]]]].
  - rewrite <- string_of_list_app, <- (string_of_list_ascii_of_string text).
    f_equal. rewrite Hl. by rewrite <- app_assoc.
  - cbn [ReviewAssistant.p_feedback].
    rewrite bool_decide_eq_false_2; [done|].
    apply string_of_list_snoc_nonempty.
  - exists (string_of_list_ascii (JS.trimStartL pre)), c.
    by rewrite string_of_list_app.
  - exists (string_of_list_ascii (JS.trimStartL m)).
    by rewrite string_of_list_app.
  - unfold noSentenceEnd. by rewrite list_ascii_of_string_of_list_ascii.
  - unfold noSentenceEnd. rewrite list_ascii_of_string_of_list_ascii.
    rewrite quiet_app, (quiet_trimStartL m Hmq). reflexivity.
  - reflexivity.
Qed.

Lemma question_split_witness :
  exists left right : string,
    "Good start. Think wider!  What else?  " = left ++ right
    /\ ReviewAssistant.p_feedback
         (ReviewAssistant.parseResponse "Good start. Think wider!  What else?  ")
       = [JS.trim left]
    /\ "What else?" = JS.trim right.
Proof.
  destruct (question_split "Good start. Think wider!  What else?  "
              "What else?" eq_refl)
    as (left & right & H1 & H2 & H3 & _).
  exists left, right. by repeat split.
Defined.

(** A no-break space separates the question from the feedback like
    any other white space, and is dropped after the question mark. *)
Example question_around_nbsp :
  ReviewAssistant.parseResponse ("Good start." ++ JS.NBSP ++ "What else?")
  = {| ReviewAssistant.p_feedback := ["Good start."];
       ReviewAssistant.p_followUpQuestion := Some "What else?";
       ReviewAssistant.p_generatedItems := None |}
  /\ ReviewAssistant.parseResponse ("Good start. What else?" ++ JS.NBSP)
     = {| ReviewAssistant.p_feedback := ["Good start."];
          ReviewAssistant.p_followUpQuestion := Some "What else?";
          ReviewAssistant.p_generatedItems := None |}.
Proof. split; vm_compute; reflexivity. Qed.

(** X8. A reply that holds no full stop and no exclamation mark, or
    whose last character before trailing white space is not a question
    mark, has no follow-up question: unless it yields items, it comes
    back verbatim as the single feedback statement.  In particular a
    reply that is nothing but a question is returned as feedback. *)
Theorem no_question_verbatim (text : string) :
  noSentenceEnd text = true \/ endsWithQuestion text = false ->
  ReviewAssistant.tryExtractArray (JS.trim text) = None ->
  ReviewAssistant.parseResponse text
  = {| ReviewAssistant.p_feedback := [text];
       ReviewAssistant.p_followUpQuestion := None;
       ReviewAssistant.p_generatedItems := None |}.
Proof.
  intros Hcase Ht. apply parseResponse_plain; [exact Ht|].
  destruct (ReviewAssistant.questionMatch (list_ascii_of_string text))
    as [[g1 g2]|] eqn:Hm; [exfalso|done].
  destruct (questionMatch_split _ g1 g2 Hm)
    as (pre & c & ws & Hl & -> & Hc & Hne & Hws & Hb).
  destruct (questionBody_split g2 Hb) as (m & t & -> & Hmne & Hmq & Htws).
  destruct Hcase as [Hquiet|Hend].
  - unfold noSentenceEnd in Hquiet. rewrite Hl in Hquiet.
    rewrite quiet_app in Hquiet. apply andb_prop in Hquiet as [_ Hquiet].
    cbn in Hquiet. by rewrite Hc in Hquiet.
  - unfold endsWithQuestion in Hend. rewrite Hl in Hend.
    replace (pre ++ (c :: ws) ++ m ++ "?"%char :: t)%list
      with ((pre ++ (c :: ws) ++ m) ++ ["?"%char] ++ t)%list in Hend
      by (by rewrite <- !app_assoc).
    rewrite app_assoc, trimEndL_ws, trimEndL_keep in Hend by done.
    rewrite rev_app_distr in Hend. discriminate.
Qed.

Lemma no_question_verbatim_witness :
  ReviewAssistant.parseResponse "What do you think?"
  = {| ReviewAssistant.p_feedback := ["What do you think?"];
       ReviewAssistant.p_followUpQuestion := None;
       ReviewAssistant.p_generatedItems := None |}.
Proof.
  apply (no_question_verbatim "What do you think?");
    [left; reflexivity | reflexivity].
Defined.

Section Assistant.

Import JS.

Lemma trimStartL_idem l : trimStartL (trimStartL l) = trimStartL l.
Proof.
  induction l as [|c l IH]; [done|]. simpl.
  destruct (isWhiteSpace c) eqn:Hc; [exact IH|]. simpl. by rewrite Hc.
Qed.

Lemma trimEndL_idem l : trimEndL (trimEndL l) = trimEndL l.
Proof. unfold trimEndL. by rewrite rev_involutive, trimStartL_idem. Qed.

Lemma trimEndL_cons c t :
  isWhiteSpace c = false -> trimEndL (c :: t) = c :: trimEndL t.
Proof.
  intros Hc. unfold trimEndL. simpl.
  rewrite (trimStartL_before c (rev t) [] Hc), rev_app_distr. done.
Qed.

Lemma trimStartL_head l :
  trimStartL l = [] \/
  exists c t, trimStartL l = c :: t /\ isWhiteSpace c = false.
Proof.
  induction l as [|c l IH]; [by left|]. simpl.
  destruct (isWhiteSpace c) eqn:Hc; [exact IH|]. right. by exists c, l.
Qed.

Lemma trimL_idem l : trimL (trimL l) = trimL l.
Proof.
  unfold trimL. destruct (trimStartL_head l) as [->|(c & t & -> & Hc)]; [done|].
  rewrite trimEndL_cons by done. rewrite trimStartL_keep by done.
  rewrite <- trimEndL_cons by done. apply trimEndL_idem.
Qed.

Lemma trim_idem s : trim (trim s) = trim s.
Proof.
  unfold trim. by rewrite list_ascii_of_string_of_list_ascii, trimL_idem.
Qed.

Lemma trim_of_trimL l :
  trim (string_of_list_ascii (trimL l)) = string_of_list_ascii (trimL l).
Proof.
  unfold trim. by rewrite list_ascii_of_string_of_list_ascii, trimL_idem.
Qed.

Lemma trim_empty : trim "" = ""%string.
Proof. reflexivity. Qed.

(** The three shapes of an interpreted reply. *)
Lemma parseResponse_cases text :
  (exists items,
      ReviewAssistant.parseResponse text
      = {| ReviewAssistant.p_feedback := [];
           ReviewAssistant.p_followUpQuestion := None;
           ReviewAssistant.p_generatedItems := Some items |})
  \/ ReviewAssistant.parseResponse text
     = {| ReviewAssistant.p_feedback := [text];
          ReviewAssistant.p_followUpQuestion := None;
          ReviewAssistant.p_generatedItems := None |}
  \/ (exists a b,
      ReviewAssistant.parseResponse text
      = {| ReviewAssistant.p_feedback :=
             [if bool_decide (string_of_list_ascii (trimL a) = ""%string)
              then text else string_of_list_ascii (trimL a)];
           ReviewAssistant.p_followUpQuestion :=
             Some (string_of_list_ascii (trimL b));
           ReviewAssistant.p_generatedItems := None |}).
Proof.
  destruct (ReviewAssistant.tryExtractArray (trim text)) as [items|] eqn:Ht.
  { left. exists items. unfold ReviewAssistant.parseResponse. by rewrite Ht. }
  right.
  destruct (ReviewAssistant.questionMatch (list_ascii_of_string text))
    as [[g1 g2]|] eqn:Hm.
  - right. rewrite (parseResponse_question text g1 g2 Ht Hm). cbv zeta.
    eexists _, g2. case_bool_decide as Hd.
    + rewrite bool_decide_eq_true_2; [reflexivity|exact Hd].
    + rewrite bool_decide_eq_false_2; [reflexivity|exact Hd].
  - left. by apply parseResponse_plain.
Qed.

End Assistant.

Lemma assistant_shape_aux
    (create : ReviewAssistant.ChatRequest -> ReviewAssistant.Completion)
    (request : AIRequest) (context : AIContext) (tpl : PromptTemplate) :
  let r := ReviewAssistant.process create request context tpl in
  if success r then
    error r = None
    /\ ((exists items, generatedItems r = Some items
                       /\ feedback r = [] /\ followUpQuestion r = None)
        \/ (generatedItems r = None /\ exists s, feedback r = [s]))
  else
    feedback r = [] /\ followUpQuestion r = None /\ generatedItems r = None
    /\ exists m, error r = Some m /\ m <> ""%string.
Proof.
  unfold ReviewAssistant.process.
  destruct (create _) as [content|status message]; cbv zeta.
  - cbn [success error generatedItems feedback followUpQuestion].
    split; [done|].
    set (text := match content with
                 | Some c => JS.trim c | None => ""%string end).
    destruct (parseResponse_cases text) as [(items & ->)|[->|(a & b & ->)]];
      cbn [ReviewAssistant.p_feedback ReviewAssistant.p_followUpQuestion
           ReviewAssistant.p_generatedItems].
    + left. by exists items.
    + right. split; [done|]. by eexists.
    + right. split; [done|]. by eexists.
  - repeat case_bool_decide; cbn; repeat split; try done;
      eexists; (split; [reflexivity|]); try done.
    destruct message as [m|]; [|done]. by case_bool_decide.
Qed.

(** X9. Whatever the reasoning service does, the assistant returns a
    well-formed response.  A failure carries no feedback, no question,
    no items and a non-empty error message.  A success carries no error
    and is either a list of items with no feedback and no question, or
    exactly one feedback statement with no items. *)
Theorem assistant_response_shape
    (create : ReviewAssistant.ChatRequest -> ReviewAssistant.Completion)
    (request : AIRequest) (context : AIContext) (tpl : PromptTemplate) :
  let r := ReviewAssistant.process create request context tpl in
  if success r then
    error r = None
    /\ ((exists items, generatedItems r = Some items
                       /\ feedback r = [] /\ followUpQuestion r = None)
        \/ (generatedItems r = None /\ exists s, feedback r = [s]))
  else
    feedback r = [] /\ followUpQuestion r = None /\ generatedItems r = None
    /\ exists m, error r = Some m /\ m <> ""%string.
Proof. exact (assistant_shape_aux create request context tpl). Qed.

(** X10. Every feedback statement and every follow-up question that
    the assistant returns is free of leading and trailing white space:
    trimming it again changes nothing. *)
Theorem assistant_outputs_trimmed
    (create : ReviewAssistant.ChatRequest -> ReviewAssistant.Completion)
    (request : AIRequest) (context : AIContext) (tpl : PromptTemplate) :
  let r := ReviewAssistant.process create request context tpl in
  Forall (fun s => JS.trim s = s) (feedback r)
  /\ (forall q, followUpQuestion r = Some q -> JS.trim q = q).
Proof.
  unfold ReviewAssistant.process.
  destruct (create _) as [content|status message]; cbv zeta.
  - cbn [feedback followUpQuestion].
    set (text := match content with
                 | Some c => JS.trim c | None => ""%string end).
    assert (Htext : JS.trim text = text).
    { subst text. destruct content; [apply trim_idem|reflexivity]. }
    clearbody text.
    destruct (parseResponse_cases text) as [(items & ->)|[->|(a & b & ->)]];
      cbn [ReviewAssistant.p_feedback ReviewAssistant.p_followUpQuestion].
    + split; [constructor|]. intros q Hq. discriminate.
    + split; [by repeat constructor|]. intros q Hq. discriminate.
    + split.
      * constructor; [|constructor].
        case_bool_decide; [exact Htext|apply trim_of_trimL].
      * intros q Hq. injection Hq as <-. apply trim_of_trimL.
  - repeat case_bool_decide; cbn; (split; [constructor|]); intros q Hq;
      discriminate.
Qed.

(* ================================================================== *)
(** * Orchestrator and HTTP boundary *)
(* ================================================================== *)

Section Orchestration.

Variable PROMPT_REGISTRY : gmap string PromptTemplate.
Variable create : ReviewAssistant.ChatRequest -> ReviewAssistant.Completion.

Lemma buildContext_fulfilled reachable db request :
  exists context,
    Orchestrator.buildContext reachable db request
    = Orchestrator.Fulfilled context.
Proof.
  unfold Orchestrator.buildContext.
  destruct (Orchestrator.buildContextTry reachable db request); by eexists.
Qed.

Lemma buildContextTry_found db request doc :
  db !! projectId request = Some doc ->
  exists context,
    Orchestrator.buildContextTry true db request
    = Orchestrator.Fulfilled context.
Proof.
  intros Hdoc. unfold Orchestrator.buildContextTry, Orchestrator.getDoc.
  rewrite Hdoc. by eexists.
Qed.

Lemma failure_shape msg :
  success (ReviewAssistant.failure msg) = false
  /\ feedback (ReviewAssistant.failure msg) = []
  /\ followUpQuestion (ReviewAssistant.failure msg) = None
  /\ generatedItems (ReviewAssistant.failure msg) = None
  /\ error (ReviewAssistant.failure msg) = Some msg.
Proof. done. Qed.

Lemma append_nonempty_l (a b : string) : a <> ""%string -> (a ++ b)%string <> ""%string.
Proof. destruct a; [done|]. discriminate. Qed.

(** Every failure of the orchestrator is an empty response with a
    non-empty message. *)
Lemma process_failure_aux reachable db request :
  let r := Orchestrator.process PROMPT_REGISTRY create reachable db request in
  success r = false ->
  feedback r = [] /\ followUpQuestion r = None /\ generatedItems r = None
  /\ exists m, error r = Some m /\ m <> ""%string.
Proof.
  cbv zeta. unfold Orchestrator.process.
  destruct (buildContext_fulfilled reachable db request) as [context ->].
  unfold Orchestrator.dispatch.
  destruct (Orchestrator.getPrompt _ _ _) as [tpl|].
  - destruct (action request) as [[| |]|].
    + intros Hs.
      pose proof (assistant_shape_aux create request context tpl) as H.
      cbv zeta in H. rewrite Hs in H. exact H.
    + intros Hs.
      pose proof (assistant_shape_aux create request context tpl) as H.
      cbv zeta in H. rewrite Hs in H. exact H.
    + intros _. repeat split. eexists. split; [reflexivity|].
      by apply append_nonempty_l.
    + intros _. repeat split. eexists. split; [reflexivity|].
      by apply append_nonempty_l.
  - intros _. repeat split. eexists. split; [reflexivity|].
    by apply append_nonempty_l.
Qed.

End Orchestration.

(** A number is falsy when it is zero as a double: a decimal below the
    smallest double rounds to zero, the smallest double itself does
    not. *)
Example tiny_number_falsy :
  Duck.truthy (JNum "1e-400") = false
  /\ Duck.truthy (JNum "0.0e5") = false
  /\ Duck.truthy (JNum "5e-324") = true
  /\ Duck.truthy (JNum "-0") = false.
Proof. repeat split; vm_compute; reflexivity. Qed.

(** X11. The context accumulator never fails, whatever the store does
    and whatever the request holds: it always returns a context that
    carries the request's project id, and whose chosen problem is
    either null or a truthy value (never undefined, an empty string,
    zero or false). *)
Theorem context_always_built (reachable : bool) (db : Projects)
    (request : AIRequest) :
  exists context,
    Orchestrator.buildContext reachable db request
    = Orchestrator.Fulfilled context
    /\ context !! "projectId" = Some (JStr (projectId request))
    /\ exists v, context !! "chosenProblem" = Some v
                 /\ (v = JNull \/ Duck.truthy v = true).
Proof.
  unfold Orchestrator.buildContext, Orchestrator.buildContextTry,
    Orchestrator.getDoc.
  destruct reachable; [|].
  2:{ eexists. split; [reflexivity|]. split; [reflexivity|].
      exists JNull. split; [reflexivity|by left]. }
  destruct (db !! projectId request) as [doc|].
  2:{ eexists. split; [reflexivity|]. split; [reflexivity|].
      exists JNull. split; [reflexivity|by left]. }
  eexists. split; [reflexivity|].
  assert (Hv : Duck.orElse (chosenProblem doc) JNull = JNull
               \/ Duck.truthy (Duck.orElse (chosenProblem doc) JNull) = true).
  { unfold Duck.orElse. destruct (Duck.truthy (chosenProblem doc)) eqn:Ht;
      [by right|by left]. }
  split.
  - repeat (first [ case_match | rewrite lookup_insert_ne by done ]);
      by rewrite lookup_insert_eq.
  - exists (Duck.orElse (chosenProblem doc) JNull). split; [|exact Hv].
    repeat (first [ case_match | rewrite lookup_insert_ne by done ]);
      by rewrite lookup_insert_eq.
Qed.

(** X12. For a Co-Founder Lab request whose data is an object and
    whose project exists, the context's current zone data carries every
    member of the request data unchanged: the data is spread last, so
    its own [zoneId] and [answers] members win over the defaults, which
    only appear when the data has none. *)
Theorem cofounder_context_carries_data (db : Projects) (request : AIRequest)
    (doc : ProjectDoc) (fields : gmap string JsValue) :
  db !! projectId request = Some doc ->
  stepId request = "cofounder-lab" ->
  data request = JObj fields ->
  exists context zone,
    Orchestrator.buildContext true db request
    = Orchestrator.Fulfilled context
    /\ context !! "currentZoneData" = Some (JObj zone)
    /\ (forall k v, fields !! k = Some v -> zone !! k = Some v)
    /\ dom zone = dom fields ∪ ({[ "zoneId"; "answers" ]} : gset string)
    /\ (fields !! "answers" = None -> zone !! "answers" = Some (JArr []))
    /\ (fields !! "zoneId" = None ->
        zone !! "zoneId"
        = Some (JStr (default "cofounder-lab"
                        (Orchestrator.nonEmpty (zoneId request))))).
Proof.
  intros Hdoc Hstep Hdata.
  unfold Orchestrator.buildContext, Orchestrator.buildContextTry,
    Orchestrator.getDoc.
  rewrite Hdoc, Hstep, Hdata.
  rewrite (bool_decide_eq_true_2 ("cofounder-lab" = "cofounder-lab")) by done.
  cbn [Duck.truthy andb Duck.spread].
  eexists _, _. split; [reflexivity|].
  split; [by rewrite lookup_insert_eq|].
  split; [|split; [|split]].
  - intros k v Hk. by apply lookup_union_Some_l.
  - rewrite dom_union_L, dom_insert_L, dom_singleton_L. done.
  - intros Hk. rewrite lookup_union_r by done.
    rewrite lookup_insert_ne by done. by rewrite lookup_singleton_eq.
  - intros Hk. rewrite lookup_union_r by done. by rewrite lookup_insert_eq.
Qed.

Lemma cofounder_context_carries_data_witness :
  exists context zone,
    Orchestrator.buildContext true {[ "p1" := sampleDoc ]}
      (variantsRequest "p1")
    = Orchestrator.Fulfilled context
    /\ context !! "currentZoneData" = Some (JObj zone).
Proof.
  assert (Hdoc : ({[ "p1" := sampleDoc ]} : Projects)
                 !! projectId (variantsRequest "p1") = Some sampleDoc)
    by (vm_compute; reflexivity).
  destruct (cofounder_context_carries_data {[ "p1" := sampleDoc ]}
              (variantsRequest "p1") sampleDoc
              {[ "stage" := JStr "variants" ]} Hdoc eq_refl eq_refl)
    as (context & zone & H1 & H2 & _).
  by exists context, zone.
Defined.

(** X13. A request that cannot be served never reaches the reasoning
    service: when no prompt template is registered under the request's
    key, or when the action is [suggest] or is missing, the orchestrator
    answers with a failure that has no feedback and no items, and its
    answer is the same whatever the service would have returned. *)
Theorem unserved_request_skips_service
    (PROMPT_REGISTRY : gmap string PromptTemplate)
    (create create' : ReviewAssistant.ChatRequest -> ReviewAssistant.Completion)
    (reachable : bool) (db : Projects) (request : AIRequest) :
  Orchestrator.getPrompt PROMPT_REGISTRY (stepId request) (zoneId request)
  = None \/ action request = Some suggest \/ action request = None ->
  let r := Orchestrator.process PROMPT_REGISTRY create reachable db request in
  success r = false /\ feedback r = [] /\ generatedItems r = None
  /\ Orchestrator.process PROMPT_REGISTRY create' reachable db request = r.
Proof.
  intros H. cbv zeta. unfold Orchestrator.process.
  destruct (buildContext_fulfilled reachable db request) as [context ->].
  unfold Orchestrator.dispatch.
  destruct H as [-> | [Ha|Ha]]; [done| |];
    rewrite Ha; by destruct (Orchestrator.getPrompt _ _ _).
Qed.

Lemma unserved_request_skips_service_witness :
  success
    (Orchestrator.process labRegistry (answering "Good start. What else?")
       true {[ "p1" := sampleDoc ]}
       {| projectId := "p1"; stepId := "explore"; zoneId := Some "thinkBig";
          action := Some review; data := JNull |}) = false.
Proof.
  apply (unserved_request_skips_service labRegistry
           (answering "Good start. What else?")
           (answering "Good start. What else?") true {[ "p1" := sampleDoc ]}
           {| projectId := "p1"; stepId := "explore";
              zoneId := Some "thinkBig"; action := Some review; data := JNull |}).
  left. vm_compute. reflexivity.
Defined.

(** X14. A successful answer of the orchestrator always comes from the
    reasoning service: the request's key is registered, the action is
    [review] or [generate], and the service resolved a call made with
    the registered template's system prompt and with its user prompt
    instantiated on the context built for the request. *)
Theorem success_comes_from_service
    (PROMPT_REGISTRY : gmap string PromptTemplate)
    (create : ReviewAssistant.ChatRequest -> ReviewAssistant.Completion)
    (reachable : bool) (db : Projects) (request : AIRequest) :
  success (Orchestrator.process PROMPT_REGISTRY create reachable db request)
  = true ->
  exists tpl context call content,
    Orchestrator.getPrompt PROMPT_REGISTRY (stepId request) (zoneId request)
    = Some tpl
    /\ (action request = Some review \/ action request = Some generate)
    /\ Orchestrator.buildContext reachable db request
       = Orchestrator.Fulfilled context
    /\ ReviewAssistant.chat_system call = systemPrompt tpl
    /\ ReviewAssistant.chat_user call = userPromptTemplate tpl context
    /\ create call = ReviewAssistant.Resolved content.
Proof.
  unfold Orchestrator.process.
  destruct (buildContext_fulfilled reachable db request) as [context Hc].
  rewrite Hc. unfold Orchestrator.dispatch.
  destruct (Orchestrator.getPrompt _ _ _) as [tpl|]; [|discriminate].
  assert (Hp : success (ReviewAssistant.process create request context tpl)
               = true ->
               exists call content,
                 ReviewAssistant.chat_system call = systemPrompt tpl
                 /\ ReviewAssistant.chat_user call
                    = userPromptTemplate tpl context
                 /\ create call = ReviewAssistant.Resolved content).
  { unfold ReviewAssistant.process.
    destruct (create _) as [content|status message] eqn:Hcall.
    - intros _. eexists _, content. split; [|split; [|exact Hcall]]; done.
    - by repeat case_bool_decide. }
  destruct (action request) as [[| |]|] eqn:Ha; [| |discriminate..];
    intros Hs; destruct (Hp Hs) as (call & content & H1 & H2 & H3);
    exists tpl, context, call, content;
    (split; [done|]); (split; [by (left + right)|]); by repeat split.
Qed.

Lemma success_comes_from_service_witness :
  exists tpl context call content,
    Orchestrator.getPrompt labRegistry "cofounder-lab" None = Some tpl
    /\ Orchestrator.buildContext true {[ "p1" := sampleDoc ]}
         (variantsRequest "p1")
       = Orchestrator.Fulfilled context
    /\ answering "Good start. What else?" call
       = ReviewAssistant.Resolved content.
Proof.
  assert (Hok : success
                  (Orchestrator.process labRegistry
                     (answering "Good start. What else?") true
                     {[ "p1" := sampleDoc ]} (variantsRequest "p1")) = true)
    by (vm_compute; reflexivity).
  destruct (success_comes_from_service labRegistry
              (answering "Good start. What else?") true
              {[ "p1" := sampleDoc ]} (variantsRequest "p1") Hok)
    as (tpl & context & call & content & H1 & _ & H3 & _ & _ & H6).
  by exists tpl, context, call, content.
Defined.

(** X15. The HTTP boundary answers with one of three statuses.  The
    status is 200 exactly when the body reports success, and 400
    exactly when the project id, the step id or the action is missing,
    whatever the key, the store and the service are.  A body that
    reports failure
    holds an error and no feedback, question or items; a body that
    reports success holds feedback and no error. *)
Theorem post_status_characterised
    (PROMPT_REGISTRY : gmap string PromptTemplate)
    (create : ReviewAssistant.ChatRequest -> ReviewAssistant.Completion)
    (apiKey : option string) (reachable : bool) (db : Projects)
    (request : AIRequest) :
  let h := Route.POST PROMPT_REGISTRY create apiKey reachable db request in
  (Route.status h = 200%nat \/ Route.status h = 400%nat
   \/ Route.status h = 500%nat)
  /\ (Route.status h = 200%nat <-> Route.r_success (Route.body h) = true)
  /\ (Route.status h = 400%nat
      <-> projectId request = ""%string \/ stepId request = ""%string
          \/ action request = None)
  /\ (Route.r_success (Route.body h) = false ->
      Route.r_feedback (Route.body h) = None
      /\ Route.r_followUpQuestion (Route.body h) = None
      /\ Route.r_generatedItems (Route.body h) = None
      /\ exists m, Route.r_error (Route.body h) = Some m /\ m <> ""%string)
  /\ (Route.r_success (Route.body h) = true ->
      Route.r_error (Route.body h) = None
      /\ is_Some (Route.r_feedback (Route.body h))).
Proof.
  cbv zeta. unfold Route.POST.
  destruct (bool_decide (projectId request = "")
            || bool_decide (stepId request = "")
            || bool_decide (action request = None)) eqn:Hmissing.
  { assert (Hm : projectId request = ""%string \/ stepId request = ""%string
                 \/ action request = None).
    { apply orb_prop in Hmissing as [Hmissing|Ha].
      - apply orb_prop in Hmissing as [Hp|Hs].
        + left. by apply bool_decide_eq_true_1 in Hp.
        + right. left. by apply bool_decide_eq_true_1 in Hs.
      - right. right. by apply bool_decide_eq_true_1 in Ha. }
    cbn. split; [by right; left|]. split; [done|]. split; [done|].
    split; [|done]. intros _. repeat split. by eexists. }
  assert (Hm : ~ (projectId request = ""%string \/ stepId request = ""%string
                  \/ action request = None)).
  { apply orb_false_elim in Hmissing as [Hmissing Ha].
    apply orb_false_elim in Hmissing as [Hp Hs].
    apply bool_decide_eq_false_1 in Hp, Hs, Ha. by intros [?|[?|?]]. }
  destruct (Orchestrator.nonEmpty apiKey).
  2:{ cbn. split; [by right; right|]. split; [done|]. split; [done|].
      split; [|done]. intros _. repeat split. by eexists. }
  destruct (success (Orchestrator.process _ _ _ _ _)) eqn:Hok; cbn [negb].
  - cbn. split; [by left|]. split; [done|]. split; [done|].
    split; [done|]. intros _. split; [done|]. by eexists.
  - pose proof (process_failure_aux PROMPT_REGISTRY create reachable db request)
      as Hf. cbv zeta in Hf. destruct (Hf Hok) as (_ & _ & _ & m & Hm' & Hne).
    cbn. split; [by right; right|]. split; [done|]. split; [done|].
    split; [|done]. intros _. repeat split. by exists m.
Qed.

(** A request without an action is refused with status 400, before
    the orchestrator is called. *)
Example post_without_action :
  Route.status
    (Route.POST labRegistry (answering "Good start. What else?") (Some "key")
       true {[ "p1" := sampleDoc ]} actionlessRequest)
  = 400%nat.
Proof. vm_compute. reflexivity. Qed.

(* ================================================================== *)
(** * Co-Founder Lab: selection, conversation and persistence *)
(* ================================================================== *)

Section Lab.

Import CoFounderLab.

Lemma includes_true (b : list string) (x : string) :
  JS.includes b x = true -> x ∈ b.
Proof.
  unfold JS.includes. induction b as [|y b IH]; simpl; [done|].
  intros H. apply orb_prop in H as [Hxy|Hb].
  - unfold JS.strictEq in Hxy. apply bool_decide_eq_true_1 in Hxy. subst.
    apply list_elem_of_here.
  - apply list_elem_of_further. by apply IH.
Qed.

Lemma toggled_inv id prev : BankInv prev -> BankInv (toggled id prev).
Proof.
  intros Hinv. unfold toggled.
  destruct (JS.includes prev id) eqn:Hin; [by apply BankInv_filter|].
  destruct (3 <=? length prev)%nat eqn:Hmax; [done|].
  by apply BankInv_append.
Qed.

Lemma filter_absent (id : string) (l : list string) :
  id ∉ l -> filter (fun x => x ≠ id) l = l.
Proof.
  induction l as [|y l IH]; [done|]. intros Hni.
  apply not_elem_of_cons in Hni as [Hne Hni].
  rewrite filter_cons_True by done. by rewrite IH.
Qed.

Lemma includes_snoc (l : list string) (id : string) :
  JS.includes (l ++ [id]) id = true.
Proof.
  unfold JS.includes. rewrite existsb_app. simpl. unfold JS.strictEq.
  rewrite bool_decide_eq_true_2 by done. by rewrite orb_true_r.
Qed.

Lemma includes_filter_out (l : list string) (id : string) :
  JS.includes (filter (fun x => x ≠ id) l) id = false.
Proof.
  destruct (JS.includes _ id) eqn:H; [|done].
  apply includes_true in H. apply list_elem_of_filter in H as [Hne _]. done.
Qed.

Lemma toggleRun_frame ids : forall w,
  labData (comp (toggleRun w ids)) = labData (comp w)
  /\ db (toggleRun w ids) = db w /\ calls (toggleRun w ids) = calls w.
Proof.
  induction ids as [|id ids IH]; intros w; [done|].
  unfold toggleRun in *. simpl. destruct (IH (toggleSolutionSelection id w))
    as (H1 & H2 & H3). by rewrite H1, H2, H3.
Qed.

Lemma toggleRun_inv ids : forall w,
  BankInv (picked w) -> BankInv (picked (toggleRun w ids)).
Proof.
  induction ids as [|id ids IH]; intros w Hinv; [done|].
  unfold toggleRun in *. simpl. apply IH. by apply toggled_inv.
Qed.

End Lab.

(** X16. Whatever station cards the learner clicks, in whatever order
    and however often, the selection never holds more than three
    solutions and never holds one twice; clicking cards changes neither
    the lab data nor the store and issues no reasoning call. *)
Theorem selection_bounded_nodup (w : CoFounderLab.World) (ids : list string) :
  BankInv (picked w) ->
  BankInv (picked (toggleRun w ids))
  /\ CoFounderLab.labData (CoFounderLab.comp (toggleRun w ids))
     = CoFounderLab.labData (CoFounderLab.comp w)
  /\ CoFounderLab.db (toggleRun w ids) = CoFounderLab.db w
  /\ CoFounderLab.calls (toggleRun w ids) = CoFounderLab.calls w.
Proof.
  intros Hinv. split; [by apply toggleRun_inv|apply toggleRun_frame].
Qed.

Lemma selection_bounded_nodup_witness :
  BankInv (picked (sampleWorld EMPTY_LAB_DATA))
  /\ BankInv (picked (toggleRun (sampleWorld EMPTY_LAB_DATA)
                        ["hiTech"; "lowTech"; "hiTech"; "leader"; "friends";
                         "tinySeeds"; "hiTech"])).
Proof.
  assert (H : BankInv (picked (sampleWorld EMPTY_LAB_DATA))).
  { split; [simpl; lia|apply NoDup_nil_2]. }
  split; [exact H|].
  apply (selection_bounded_nodup (sampleWorld EMPTY_LAB_DATA)
           ["hiTech"; "lowTech"; "hiTech"; "leader"; "friends";
            "tinySeeds"; "hiTech"] H).
Defined.

(** X17. Selecting a solution and clicking it again restores the
    selection exactly, provided there was room for it; when three are
    already selected, clicking a fourth one changes nothing; and
    clicking a selected solution always removes it, so a second click
    puts it back as the newest entry. *)
Theorem toggle_round_trip (id : string) (prev : list string) :
  (length prev <= 3)%nat ->
  (id ∉ prev -> (length prev < 3)%nat ->
     CoFounderLab.toggled id prev = (prev ++ [id])%list
     /\ CoFounderLab.toggled id (CoFounderLab.toggled id prev) = prev)
  /\ (id ∉ prev -> (3 <= length prev)%nat ->
     CoFounderLab.toggled id prev = prev)
  /\ (id ∈ prev ->
     (id ∉ CoFounderLab.toggled id prev)
     /\ CoFounderLab.toggled id (CoFounderLab.toggled id prev)
        = (filter (fun x => x ≠ id) prev ++ [id])%list).
Proof.
  intros Hnd. unfold CoFounderLab.toggled. split; [|split].
  - intros Hni Hlen.
    destruct (JS.includes prev id) eqn:Hin;
      [by apply includes_true in Hin|].
    destruct (3 <=? length prev)%nat eqn:Hmax;
      [apply Nat.leb_le in Hmax; lia|].
    split; [done|]. rewrite includes_snoc.
    rewrite filter_app, filter_absent by done.
    rewrite filter_cons_False by (intros H; by apply H).
    by rewrite app_nil_r.
  - intros Hni Hlen.
    destruct (JS.includes prev id) eqn:Hin;
      [by apply includes_true in Hin|].
    destruct (3 <=? length prev)%nat eqn:Hmax; [done|].
    apply Nat.leb_gt in Hmax. lia.
  - intros Hin.
    destruct (JS.includes prev id) eqn:Hinc;
      [|by apply includes_false in Hinc].
    split.
    + intros H. apply list_elem_of_filter in H as [Hne _]. done.
    + rewrite includes_filter_out.
      destruct (3 <=? length (filter (fun x => x ≠ id) prev))%nat eqn:Hmax;
        [|done].
      exfalso. apply Nat.leb_le in Hmax.
      assert (Hlt : (length (filter (fun x => x ≠ id) prev) < length prev)%nat).
      { clear Hmax Hinc Hnd. induction prev as [|y l IH]; [by inversion Hin|].
        destruct (decide (y = id)) as [->|Hne].
        - rewrite filter_cons_False by (intros H; by apply H).
          pose proof (length_filter (fun x => x ≠ id) l). simpl. lia.
        - rewrite filter_cons_True by done. simpl.
          apply elem_of_cons in Hin as [->|Hin]; [done|].
          specialize (IH Hin). lia. }
      lia.
Qed.

Lemma toggle_round_trip_witness :
  CoFounderLab.toggled "leader" (CoFounderLab.toggled "leader" ["hiTech"; "friends"])
  = ["hiTech"; "friends"].
Proof.
  assert (Hlen : (length ["hiTech"; "friends"] <= 3)%nat) by (simpl; lia).
  assert (Hni : "leader" ∉ ["hiTech"; "friends"]).
  { intros H. repeat (apply elem_of_cons in H as [H|H]; [discriminate|]).
    by inversion H. }
  apply (toggle_round_trip "leader" ["hiTech"; "friends"] Hlen).
  - exact Hni.
  - simpl. lia.
Defined.

Section Conversation.

Import CoFounderLab.

Lemma db_saveLabData_found ok data w id d :
  actualProjectId (comp w) = Some id ->
  db w !! id = Some d ->
  db (saveLabData ok data w)
  = if ok then <[id := applyWrite d (SetCoFounderLab (Some data))]> (db w)
    else db w.
Proof.
  intros Hid Hd. unfold saveLabData, updateProject. rewrite Hid, Hd.
  by destruct ok.
Qed.

Lemma onSnapshot_initialized p w :
  hasInitialized (comp w) = true ->
  labData (comp (onSnapshot p w)) = labData (comp w)
  /\ hasInitialized (comp (onSnapshot p w)) = true
  /\ expandedStages (comp (onSnapshot p w)) = expandedStages (comp w)
  /\ project (comp (onSnapshot p w)) = p.
Proof.
  intros Hinit. unfold onSnapshot. simpl. rewrite Hinit. by destruct p.
Qed.

Lemma snapshotRun_initialized later : forall w,
  hasInitialized (comp w) = true ->
  labData (comp (snapshotRun w later)) = labData (comp w)
  /\ hasInitialized (comp (snapshotRun w later)) = true
  /\ expandedStages (comp (snapshotRun w later)) = expandedStages (comp w).
Proof.
  induction later as [|p later IH]; intros w Hinit; [done|].
  unfold snapshotRun in *. simpl.
  destruct (onSnapshot_initialized p w Hinit) as (H1 & H2 & H3 & _).
  destruct (IH (onSnapshot p w) H2) as (H4 & H5 & H6).
  by rewrite H4, H5, H6, H1, H3.
Qed.

Lemma generateVariants_comp data trigger reply ok w id :
  actualProjectId (comp w) = Some id ->
  let w' := generateVariants data trigger reply ok w in
  labData (comp w')
  = match reply with
    | FetchJson result =>
        if Route.r_success result
        then withVariantOptions (default [] (Route.r_generatedItems result)) data
        else labData (comp w)
    | FetchRejected => labData (comp w)
    end
  /\ isAIThinking (comp w') = false
  /\ hasInitialized (comp w') = hasInitialized (comp w)
  /\ actualProjectId (comp w') = Some id
  /\ calls w'
     = (calls w
        ++ [(id, VariantsCall (selectedSolutions data)
                   (conversationHistory data) trigger (wheelOf (comp w)))])%list.
Proof.
  intros Hid. cbv zeta. unfold generateVariants. rewrite Hid.
  destruct reply as [|result]; [by cbn|].
  destruct (Route.r_success result); [|by cbn].
  cbn [comp withComp calls]. rewrite comp_saveLabData, calls_saveLabData.
  by cbn.
Qed.

End Conversation.

(** X18. Submitting the picked solutions moves the session to the
    co-design stage before the reasoning call is made and whatever its
    outcome: the lab data takes the picked solutions and the
    choose-direction phase, the idea bank is untouched, one request is
    issued with the trigger START_CO_DESIGN, and the conversation grows
    by one co-founder message exactly when the reply is successful.
    With nothing picked the handler does nothing. *)
Theorem submit_selection_advances (ok1 : bool)
    (reply : CoFounderLab.FetchOutcome) (now : Z) (ok2 : bool)
    (w : CoFounderLab.World) (id : string) :
  CoFounderLab.actualProjectId (CoFounderLab.comp w) = Some id ->
  let r := CoFounderLab.submitSelectedSolutions ok1 reply now ok2 w in
  (picked w = [] -> r = (w, None))
  /\ (picked w <> [] ->
      stageOf r.1 = co_design
      /\ selectedSolutions (CoFounderLab.labData (CoFounderLab.comp r.1))
         = picked w
      /\ coDesignPhase (CoFounderLab.labData (CoFounderLab.comp r.1))
         = Some "choose-direction"
      /\ bank r.1 = bank w
      /\ history r.1
         = (history w
            ++ match CoFounderLab.successfulFeedback reply with
               | Some fb => [CoFounderLab.aiMessage fb now co_design]
               | None => []
               end)%list
      /\ exists call,
           r.2 = Some call
           /\ CoFounderLab.chat_studentMessage call = "START_CO_DESIGN"
           /\ CoFounderLab.chat_stage call = co_design
           /\ CoFounderLab.chat_selectedSolutions call = picked w
           /\ CoFounderLab.chat_conversationHistory call = history w).
Proof.
  intros Hid. cbv zeta. unfold CoFounderLab.submitSelectedSolutions.
  fold (picked w). split.
  - intros ->. reflexivity.
  - intros Hne. rewrite bool_decide_eq_false_2
      by (destruct (picked w); [done|discriminate]).
    unfold CoFounderLab.generateAIResponse. cbn [CoFounderLab.comp CoFounderLab.withComp].
    rewrite comp_saveLabData. cbn. rewrite Hid.
    unfold stageOf, bank, history.
    destruct (CoFounderLab.successfulFeedback reply) as [fb|]; cbn;
      rewrite ?comp_saveLabData; cbn; rewrite ?app_nil_r;
      repeat split; try done; eexists; repeat split; done.
Qed.

Lemma submit_selection_advances_witness :
  stageOf
    (CoFounderLab.submitSelectedSolutions true failedReply 0 true
       (toggleRun (sampleWorld EMPTY_LAB_DATA) ["hiTech"])).1
  = co_design.
Proof.
  apply (submit_selection_advances true failedReply 0 true
           (toggleRun (sampleWorld EMPTY_LAB_DATA) ["hiTech"]) "p1" eq_refl).
  discriminate.
Defined.

(** X19. A student message is recorded only with its answer.  When the
    reply is successful the conversation grows by the trimmed student
    message followed by the co-founder message, both tagged with the
    current stage, and the input is cleared.  When the call fails the
    lab data, the store and the input are left as they were, although
    the request that was sent carried the message; the stage and the
    idea bank never change.  A blank message is not sent at all. *)
Theorem message_recorded_with_answer (msg : string)
    (reply : CoFounderLab.FetchOutcome) (now1 now2 : Z) (ok : bool)
    (w : CoFounderLab.World) (id : string) :
  CoFounderLab.actualProjectId (CoFounderLab.comp w) = Some id ->
  let r := CoFounderLab.sendMessage msg reply now1 now2 ok w in
  let said :=
    {| role := student; content := JS.trim msg; timestamp := now1;
       stage := Some (stageOf w) |} in
  (JS.trim msg = ""%string -> r = (w, None))
  /\ (JS.trim msg <> ""%string ->
      stageOf r.1 = stageOf w
      /\ bank r.1 = bank w
      /\ CoFounderLab.isAIThinking (CoFounderLab.comp r.1) = false
      /\ (exists call,
            r.2 = Some call
            /\ CoFounderLab.chat_conversationHistory call
               = (history w ++ [said])%list)
      /\ match CoFounderLab.successfulFeedback reply with
         | Some fb =>
             history r.1
             = (history w
                ++ [said; CoFounderLab.aiMessage fb now2 (stageOf w)])%list
             /\ CoFounderLab.inputValue (CoFounderLab.comp r.1) = ""%string
         | None =>
             CoFounderLab.labData (CoFounderLab.comp r.1)
             = CoFounderLab.labData (CoFounderLab.comp w)
             /\ CoFounderLab.db r.1 = CoFounderLab.db w
             /\ CoFounderLab.inputValue (CoFounderLab.comp r.1)
                = CoFounderLab.inputValue (CoFounderLab.comp w)
         end).
Proof.
  intros Hid. cbv zeta. unfold CoFounderLab.sendMessage. rewrite Hid. split.
  - intros ->. reflexivity.
  - intros Hne. rewrite bool_decide_eq_false_2 by done.
    unfold stageOf, bank, history.
    destruct (CoFounderLab.successfulFeedback reply) as [fb|]; cbn;
      rewrite ?comp_saveLabData; cbn.
    + repeat split; try done; [by eexists|]. by rewrite <- app_assoc.
    + repeat split; try done. by eexists.
Qed.

Lemma message_recorded_with_answer_witness :
  history
    (CoFounderLab.sendMessage " Make it cheaper " failedReply 1 2 true
       (sampleWorld EMPTY_LAB_DATA)).1
  = history (sampleWorld EMPTY_LAB_DATA).
Proof.
  assert (Hne : JS.trim " Make it cheaper " <> ""%string) by discriminate.
  destruct (message_recorded_with_answer " Make it cheaper " failedReply 1 2
              true (sampleWorld EMPTY_LAB_DATA) "p1" eq_refl)
    as [_ H].
  destruct (H Hne) as (_ & _ & _ & _ & Hlab & _).
  unfold history. by rewrite Hlab.
Defined.

(** X20. What one session saves, the next one loads.  When the lab
    data is written successfully, a component that has not yet been
    initialised takes exactly that data from its first snapshot of the
    project and opens the reflection and the saved stage; snapshots
    that arrive later never replace the lab data it holds. *)
Theorem save_reload_round_trip (data : CoFounderLabData)
    (w fresh : CoFounderLab.World) (id : string) (doc : ProjectDoc)
    (later : list (option ProjectDoc)) :
  CoFounderLab.actualProjectId (CoFounderLab.comp w) = Some id ->
  CoFounderLab.db w !! id = Some doc ->
  CoFounderLab.hasInitialized (CoFounderLab.comp fresh) = false ->
  let stored := CoFounderLab.db (CoFounderLab.saveLabData true data w) !! id in
  let loaded := snapshotRun (CoFounderLab.onSnapshot stored fresh) later in
  storedLab (CoFounderLab.saveLabData true data w) id = Some data
  /\ CoFounderLab.labData (CoFounderLab.comp loaded) = data
  /\ CoFounderLab.hasInitialized (CoFounderLab.comp loaded) = true
  /\ CoFounderLab.expandedStages (CoFounderLab.comp loaded)
     = [initial_reflection; currentStage data].
Proof.
  intros Hid Hdoc Hfresh. cbv zeta. unfold storedLab.
  rewrite (db_saveLabData_found true data w id doc Hid Hdoc).
  rewrite lookup_insert_eq. split; [done|].
  set (first := CoFounderLab.onSnapshot _ fresh).
  assert (Hfirst : CoFounderLab.labData (CoFounderLab.comp first) = data
                   /\ CoFounderLab.hasInitialized (CoFounderLab.comp first) = true
                   /\ CoFounderLab.expandedStages (CoFounderLab.comp first)
                      = [initial_reflection; currentStage data]).
  { subst first. unfold CoFounderLab.onSnapshot. cbn. by rewrite Hfresh. }
  clearbody first. destruct Hfirst as (H1 & H2 & H3).
  destruct (snapshotRun_initialized later first H2) as (H4 & H5 & H6).
  by rewrite H4, H5, H6.
Qed.

Lemma save_reload_round_trip_witness :
  CoFounderLab.labData
    (CoFounderLab.comp
       (snapshotRun
          (CoFounderLab.onSnapshot
             (CoFounderLab.db
                (CoFounderLab.saveLabData true selectionLab
                   (sampleWorld variantsLab)) !! "p1")
             (mountedWorld selectionLab))
          [Some sampleDoc; None]))
  = selectionLab.
Proof.
  assert (Hdoc : CoFounderLab.db (sampleWorld variantsLab) !! "p1"
                 = Some (CoFounderLab.applyWrite sampleDoc
                           (CoFounderLab.SetCoFounderLab (Some variantsLab))))
    by (vm_compute; reflexivity).
  apply (save_reload_round_trip selectionLab (sampleWorld variantsLab)
           (mountedWorld selectionLab) "p1" _ [Some sampleDoc; None]
           eq_refl Hdoc eq_refl).
Defined.

Section Reactive.

Import CoFounderLab.

(** The handler and the effect, run without interruption, are the
    pieces of the reactive system put together. *)
Lemma generateVariants_split data trigger reply ok w :
  generateVariants data trigger reply ok w
  = match generateVariants_begin data trigger (wheelOf (comp w)) w with
    | None => w
    | Some w1 =>
        match variantsReply data reply with
        | Some updated =>
            withComp (setIsAIThinking false)
              (saveLabData ok updated (withComp (setLabData updated) w1))
        | None => withComp (setIsAIThinking false) w1
        end
    end.
Proof.
  unfold generateVariants, generateVariants_begin, variantsReply, wheelOf.
  destruct (actualProjectId (comp w)); [|done].
  destruct reply as [|result]; [done|].
  by destruct (Route.r_success result).
Qed.

Variable id : string.
Variable lab0 : CoFounderLabData.
Variable base : list (string * CallData).

Local Abbreviation updated := (confirmedLab lab0).

Lemma confirmForm_updated : confirmForm lab0 updated.
Proof. exists (optionsOf lab0). reflexivity. Qed.

Lemma confirmForm_options d o :
  confirmForm lab0 d -> confirmForm lab0 (withVariantOptions o d).
Proof. intros [o' ->]. by exists o. Qed.

Lemma confirmForm_reply d reply d' :
  confirmForm lab0 d -> variantsReply d reply = Some d' -> confirmForm lab0 d'.
Proof.
  intros Hd. unfold variantsReply. destruct reply as [|result]; [done|].
  destruct (Route.r_success result); [|done].
  intros [= <-]. by apply confirmForm_options.
Qed.

Lemma confirmForm_request d trigger wheel :
  confirmForm lab0 d ->
  trigger = "AUTO_VARIANTS"%string \/ trigger = "CONFIRM_DIRECTION"%string ->
  variantsRequestOf id lab0
    (id, VariantsCall (selectedSolutions d) (conversationHistory d)
           trigger wheel).
Proof.
  intros [o ->] Ht. split; [done|]. exists trigger, wheel. by split.
Qed.

Lemma confirmRequests_app l1 l2 :
  confirmRequests (l1 ++ l2)
  = (confirmRequests l1 + confirmRequests l2)%nat.
Proof.
  unfold confirmRequests. by rewrite List.filter_app, length_app.
Qed.

Lemma quiet_autoStart w :
  (hasAutoStarted (comp w) = true \/ conversationHistory lab0 <> []) ->
  confirmForm lab0 (labData (comp w)) ->
  autoStartEffect w = (w, None).
Proof.
  intros [Hg|Hh] [o Hlab]; [by apply autoStart_guarded|].
  unfold autoStartEffect, autoStartCondition. rewrite Hlab. cbn.
  rewrite (bool_decide_eq_false_2 (length (conversationHistory lab0) = 0%nat)).
  - by rewrite andb_false_r.
  - intros H. apply Hh. by destruct (conversationHistory lab0).
Qed.

Lemma render_of_settled s :
  settled s ->
  render s = {| world := world s;
                rendered := Some (autoVariantsDeps (world s));
                confirming := confirming s; pending := pending s |}.
Proof.
  intros [Hstart Hvar]. unfold render, autoStartEffect. rewrite Hstart.
  assert (Hdue : bool_decide (rendered s <> Some (autoVariantsDeps (world s)))
                 && autoVariantsCondition (world s) = false).
  { destruct Hvar as [Hr|Hc].
    - by rewrite bool_decide_eq_false_2 by (by intros H; apply H).
    - by rewrite Hc, andb_false_r. }
  rewrite Hdue. cbn. by rewrite app_nil_r.
Qed.

Lemma thinking_blocks_effects w :
  isAIThinking (comp w) = true ->
  autoStartCondition w = false /\ autoVariantsCondition w = false.
Proof.
  intros H. unfold autoStartCondition, autoVariantsCondition. rewrite H. cbn.
  by rewrite !andb_false_r.
Qed.

Lemma autoStart_settles w :
  autoStartCondition (autoStartEffect w).1 = false
  /\ (isAIThinking (comp (autoStartEffect w).1) = true
      \/ autoVariantsDeps (autoStartEffect w).1 = autoVariantsDeps w).
Proof.
  unfold autoStartEffect. destruct (autoStartCondition w) eqn:Hstart.
  2:{ split; [done|by right]. }
  unfold generateInitialReflection_begin. cbn.
  destruct (actualProjectId (comp w)), (project (comp w)); cbn.
  1: split; [|by left].
  2-4: split; [|by right].
  all: unfold autoStartCondition; cbn; by rewrite ?andb_false_r.
Qed.

Lemma variants_begin_thinking data trigger wheel w w2 :
  generateVariants_begin data trigger wheel w = Some w2 ->
  isAIThinking (comp w2) = true.
Proof.
  unfold generateVariants_begin.
  destruct (actualProjectId (comp w)); [|done]. by intros [= <-].
Qed.

Lemma render_settles s : settled (render s).
Proof.
  unfold settled, render.
  destruct (autoStart_settles (world s)) as [Hstart Hdeps].
  destruct (autoStartEffect (world s)) as [w1 started]. cbn in Hstart, Hdeps.
  destruct (bool_decide (rendered s <> Some (autoVariantsDeps (world s)))
            && autoVariantsCondition (world s)).
  - destruct (generateVariants_begin _ _ _ w1) as [w2|] eqn:Hbegin; cbn.
    + apply variants_begin_thinking in Hbegin.
      destruct (thinking_blocks_effects w2 Hbegin). split; [done|by right].
    + split; [done|]. destruct Hdeps as [Hthink| ->]; [|by left].
      right. by apply thinking_blocks_effects.
  - cbn. split; [done|]. destruct Hdeps as [Hthink| ->]; [|by left].
    right. by apply thinking_blocks_effects.
Qed.

(** The render that follows the effects runs none, and from then on
    rendering changes nothing. *)
Lemma render_settled s : render (render (render s)) = render (render s).
Proof.
  pose proof (render_settles s) as H1.
  rewrite (render_of_settled _ H1).
  rewrite render_of_settled; [done|]. split; [apply H1|by left].
Qed.

Lemma render_inv s : sessionInv id lab0 base s -> sessionInv id lab0 base (render s).
Proof.
  intros (Hid & Hinit & Hq & Hlab & Hpend & Hconf & new & Hcalls & Hnew & Hcount).
  unfold render. rewrite (quiet_autoStart _ Hq Hlab).
  destruct (bool_decide (rendered s <> Some (autoVariantsDeps (world s)))
            && autoVariantsCondition (world s)).
  - unfold generateVariants_begin. rewrite Hid.
    split_and!; cbn; try done.
    + apply Forall_app. split; [done|]. constructor; [exact Hlab|done].
    + exists (new ++ [(id, VariantsCall
                             (selectedSolutions (labData (comp (world s))))
                             (conversationHistory (labData (comp (world s))))
                             "AUTO_VARIANTS" (wheelOf (comp (world s))))])%list.
      split_and!.
      * by rewrite Hcalls, app_assoc.
      * apply Forall_app. split; [done|]. constructor; [|done].
        apply confirmForm_request; [done|by left].
      * rewrite confirmRequests_app, Hcount.
        change (confirmRequests [_]) with 0%nat. lia.
  - split_and!; cbn; try done.
    + by rewrite app_nil_r.
    + by exists new.
Qed.

Lemma fireEffects_inv s :
  sessionInv id lab0 base s -> sessionInv id lab0 base (fireEffects s).
Proof. intros Hs. unfold fireEffects. by do 2 apply render_inv. Qed.

Lemma onSnapshot_frame p w :
  hasInitialized (comp w) = true ->
  actualProjectId (comp (onSnapshot p w)) = actualProjectId (comp w)
  /\ hasInitialized (comp (onSnapshot p w)) = true
  /\ hasAutoStarted (comp (onSnapshot p w)) = hasAutoStarted (comp w)
  /\ labData (comp (onSnapshot p w)) = labData (comp w)
  /\ calls (onSnapshot p w) = calls w.
Proof.
  intros Hinit. unfold onSnapshot. cbn. rewrite Hinit. by destruct p.
Qed.

Lemma resume_issues data wheel ok w i :
  actualProjectId (comp w) = Some i ->
  handleConfirmDirection_resume data wheel ok w
  = (logCall i
       (VariantsCall (selectedSolutions data) (conversationHistory data)
          "CONFIRM_DIRECTION" wheel)
       (withComp (setIsAIThinking true)
          (withComp (setExpandedStages [initial_reflection; variants])
             (saveLabData ok data w))),
     true).
Proof.
  intros Hi. unfold handleConfirmDirection_resume, generateVariants_begin.
  cbn. by rewrite comp_saveLabData, Hi.
Qed.

Lemma step_inv s e : sessionInv id lab0 base s -> sessionInv id lab0 base (step s e).
Proof.
  intros Hs. unfold step. apply fireEffects_inv.
  pose proof Hs
    as (Hid & Hinit & Hq & Hlab & Hpend & Hconf & new & Hcalls & Hnew & Hcount).
  destruct e as [ok|i reply now ok|i ok|p].
  - (* the handler resumes *)
    destruct (confirming s) as [[u wheel]|] eqn:Hc; [|exact Hs].
    rewrite (Hconf u wheel eq_refl).
    rewrite (resume_issues _ _ _ _ _ Hid).
    split_and!; cbn; rewrite ?comp_saveLabData; try done.
    + apply Forall_app. split; [done|]. constructor; [|done].
      apply confirmForm_updated.
    + rewrite calls_saveLabData.
      exists (new ++ [(id, VariantsCall (selectedSolutions updated)
                             (conversationHistory updated)
                             "CONFIRM_DIRECTION" wheel)])%list.
      split_and!.
      * by rewrite Hcalls, app_assoc.
      * apply Forall_app. split; [done|]. constructor; [|done].
        apply confirmForm_request; [apply confirmForm_updated|by right].
      * rewrite confirmRequests_app, Hcount.
        change (confirmRequests [_]) with 1%nat. lia.
  - (* a reply arrives *)
    destruct (pending s !! i) as [[data|saved|captured]|] eqn:Hi;
      [|exact Hs| |exact Hs].
    + assert (Hdata : confirmForm lab0 data).
      { rewrite Forall_lookup in Hpend. exact (Hpend i _ Hi). }
      destruct (variantsReply data reply) as [d'|] eqn:Hr.
      * split_and!; cbn; try done.
        -- by apply (confirmForm_reply data reply).
        -- apply Forall_insert; [done|].
           by apply (confirmForm_reply data reply).
        -- by exists new.
      * split_and!; cbn; try done.
        -- by apply Forall_delete.
        -- by exists new.
    + exfalso. rewrite Forall_lookup in Hpend. exact (Hpend i _ Hi).
  - (* a write completes *)
    destruct (pending s !! i) as [[data|saved|captured]|] eqn:Hi;
      [exact Hs| |exact Hs|exact Hs].
    split_and!; cbn; rewrite ?comp_saveLabData, ?calls_saveLabData;
      try done.
    + by apply Forall_delete.
    + by exists new.
  - (* a snapshot arrives *)
    destruct (onSnapshot_frame p (world s) Hinit)
      as (H1 & H2 & H3 & H4 & H5).
    split_and!; cbn [world confirming pending];
      rewrite ?H1, ?H2, ?H3, ?H4, ?H5; try done.
    by exists new.
Qed.

Lemma run_inv events : forall s, sessionInv id lab0 base s -> sessionInv id lab0 base (run s events).
Proof.
  unfold run. induction events as [|e events IH]; intros s Hs; [done|].
  cbn. by apply IH, step_inv.
Qed.

End Reactive.

Section Confirm.

Import CoFounderLab.

Lemma click_inv w id :
  actualProjectId (comp w) = Some id ->
  hasInitialized (comp w) = true ->
  (hasAutoStarted (comp w) = true \/ history w <> []) ->
  sessionInv id (labData (comp w)) (calls w) (confirmClick (idle w)).
Proof.
  intros Hid Hinit Hq. unfold confirmClick, handleConfirmDirection_begin.
  cbn. rewrite Hid. apply fireEffects_inv.
  split_and!; cbn; try done.
  - apply confirmForm_updated.
  - by intros u wheel [= <- _].
  - exists []. by rewrite app_nil_r.
Qed.

(** When the effect is due at the click, its request comes first. *)
Lemma click_fires w id :
  actualProjectId (comp w) = Some id ->
  hasInitialized (comp w) = true ->
  (hasAutoStarted (comp w) = true \/ history w <> []) ->
  isAIThinking (comp w) = false ->
  optionsOf (labData (comp w)) = [] ->
  stageOf w <> variants ->
  sessionInv id (labData (comp w))
    (calls w
     ++ [(id, VariantsCall (selectedSolutions (labData (comp w)))
                (history w) "AUTO_VARIANTS" (wheelOf (comp w)))])%list
    (confirmClick (idle w)).
Proof.
  intros Hid Hinit Hq Hthink Hopt Hstage.
  unfold confirmClick, handleConfirmDirection_begin, idle.
  cbn [world rendered confirming pending]. rewrite Hid.
  unfold fireEffects. apply render_inv.
  unfold render. cbn [world rendered confirming pending].
  rewrite (quiet_autoStart (labData (comp w))).
  2:{ exact Hq. }
  2:{ apply confirmForm_updated. }
  assert (Hdue : autoVariantsCondition
                   (withComp (setLabData (confirmedLab (labData (comp w)))) w)
                 = true).
  { unfold autoVariantsCondition. cbn. rewrite Hinit, Hid, Hthink, Hopt.
    by rewrite bool_decide_eq_true_2 by (by eexists). }
  rewrite Hdue, andb_true_r.
  rewrite bool_decide_eq_true_2.
  2:{ intros [= Hs _]. by apply Hstage. }
  unfold generateVariants_begin. cbn. rewrite Hid.
  split_and!; cbn; try done.
  - apply confirmForm_updated.
  - constructor; [|done]. apply confirmForm_updated.
  - by intros u wheel [= <- _].
  - exists []. by rewrite app_nil_r.
Qed.

End Confirm.

(** X21. Confirming the direction, in a loaded component whose
    reflection effect has nothing left to do.  The click sets the
    Variants stage at once, and from then on, whichever of the awaited
    writes and replies complete and in whatever order, the stage stays
    Variants, the conversation, the selection and the idea bank are
    kept (the bank and the options are present members), and every
    request issued is a variants request for the same selection and
    conversation, triggered by the effect or by the handler.  The
    handler issues its CONFIRM_DIRECTION request exactly once, when its
    write completes.  It is not the first request when the click leaves
    another stage with no options and no call in flight: the effect
    that generates variants then fires while the handler awaits its
    write, so an AUTO_VARIANTS request precedes the handler's. *)
Theorem confirm_direction_enters_variants (w : CoFounderLab.World)
    (id : string) (events : list CoFounderLab.Event) :
  CoFounderLab.actualProjectId (CoFounderLab.comp w) = Some id ->
  CoFounderLab.hasInitialized (CoFounderLab.comp w) = true ->
  (CoFounderLab.hasAutoStarted (CoFounderLab.comp w) = true
   \/ history w <> []) ->
  let lab := CoFounderLab.labData (CoFounderLab.comp w) in
  let s := CoFounderLab.run (CoFounderLab.confirmClick (CoFounderLab.idle w))
             events in
  let after := CoFounderLab.labData (CoFounderLab.comp (CoFounderLab.world s)) in
  stageOf (CoFounderLab.world s) = variants
  /\ history (CoFounderLab.world s) = history w
  /\ selectedSolutions after = selectedSolutions lab
  /\ ideaBank after = Some (bank w)
  /\ coDesignPhase after = Some "concrete-variants"
  /\ is_Some (variantOptions after)
  /\ (exists new,
        CoFounderLab.calls (CoFounderLab.world s)
        = (CoFounderLab.calls w ++ new)%list
        /\ Forall (variantsRequestOf id lab) new
        /\ confirmRequests new
           = match CoFounderLab.confirming s with
             | Some _ => 0%nat
             | None => 1%nat
             end)
  /\ (CoFounderLab.isAIThinking (CoFounderLab.comp w) = false ->
      CoFounderLab.optionsOf lab = [] ->
      stageOf w <> variants ->
      exists rest,
        CoFounderLab.calls (CoFounderLab.world s)
        = (CoFounderLab.calls w
           ++ (id, CoFounderLab.VariantsCall (selectedSolutions lab)
                     (history w) "AUTO_VARIANTS"
                     (CoFounderLab.wheelOf (CoFounderLab.comp w)))
              :: rest)%list
        /\ confirmRequests rest
           = match CoFounderLab.confirming s with
             | Some _ => 0%nat
             | None => 1%nat
             end).
Proof.
  intros Hid Hinit Hq. cbv zeta.
  pose proof (run_inv id _ _ events _ (click_inv w id Hid Hinit Hq))
    as (_ & _ & _ & [o Hlab] & _ & _ & Hcalls).
  unfold stageOf, history, bank. rewrite Hlab.
  split_and!; try done.
  intros Hthink Hopt Hstage.
  pose proof (run_inv id _ _ events _
                (click_fires w id Hid Hinit Hq Hthink Hopt Hstage))
    as (_ & _ & _ & _ & _ & _ & rest & Hrest & _ & Hcount).
  exists rest. split; [|exact Hcount].
  rewrite Hrest. by rewrite <- app_assoc.
Qed.

Lemma confirm_direction_enters_variants_witness :
  exists rest,
    CoFounderLab.calls
      (CoFounderLab.world
         (CoFounderLab.run
            (CoFounderLab.confirmClick
               (CoFounderLab.idle (sampleWorld coDesignLab)))
            [CoFounderLab.ConfirmWritten true;
             CoFounderLab.Replied 0 failedReply 7 true]))
    = (CoFounderLab.calls (sampleWorld coDesignLab)
       ++ (("p1",
            CoFounderLab.VariantsCall (selectedSolutions coDesignLab)
              (history (sampleWorld coDesignLab)) "AUTO_VARIANTS"
              (CoFounderLab.wheelOf
                 (CoFounderLab.comp (sampleWorld coDesignLab))))
           :: rest))%list
    /\ confirmRequests rest = 1%nat.
Proof.
  assert (Hq : CoFounderLab.hasAutoStarted
                 (CoFounderLab.comp (sampleWorld coDesignLab)) = true
               \/ history (sampleWorld coDesignLab) <> []).
  { right. discriminate. }
  assert (Hstage : stageOf (sampleWorld coDesignLab) <> variants).
  { discriminate. }
  destruct (confirm_direction_enters_variants (sampleWorld coDesignLab) "p1"
              [CoFounderLab.ConfirmWritten true;
               CoFounderLab.Replied 0 failedReply 7 true]
              eq_refl eq_refl Hq)
    as (_ & _ & _ & _ & _ & _ & _ & Hfirst).
  destruct (Hfirst eq_refl eq_refl Hstage) as (rest & H1 & H2).
  exists rest. split; [exact H1|exact H2].
Defined.

(** One click, three requests: the effect fires at the click, the
    handler issues its own request when its write completes, and the
    effect fires again when the first reply fails while the handler's
    request is still in flight. *)
Example confirm_click_three_requests :
  map (fun c => isConfirmRequest c)
    (CoFounderLab.calls
       (CoFounderLab.world
          (CoFounderLab.run
             (CoFounderLab.confirmClick
                (CoFounderLab.idle (sampleWorld coDesignLab)))
             [CoFounderLab.ConfirmWritten true;
              CoFounderLab.Replied 0 failedReply 7 true])))
  = [false; true; false].
Proof. vm_compute. reflexivity. Qed.


Section Regeneration.

Import CoFounderLab.

Lemma autoVariantsCondition_id w :
  autoVariantsCondition w = true ->
  exists id, actualProjectId (comp w) = Some id.
Proof.
  unfold autoVariantsCondition. intros H.
  repeat (apply andb_prop in H as [H ?]).
  match goal with
  | Hs : bool_decide (is_Some _) = true |- _ =>
      apply bool_decide_eq_true_1 in Hs; destruct Hs as [id Hs]; by exists id
  end.
Qed.

Lemma autoVariantsEffect_step reply ok w :
  autoVariantsCondition w = true ->
  length (calls (autoVariantsEffect reply ok w)) = S (length (calls w))
  /\ autoVariantsCondition (autoVariantsEffect reply ok w)
     = leavesNoOptions reply.
Proof.
  intros Hc. destruct (autoVariantsCondition_id w Hc) as [id Hid].
  unfold autoVariantsEffect. rewrite Hc.
  destruct (generateVariants_comp (labData (comp w)) "AUTO_VARIANTS" reply ok
              w id Hid) as (Hlab & Hthink & Hinit & Hid' & Hcalls).
  split.
  - rewrite Hcalls, length_app. simpl. lia.
  - unfold autoVariantsCondition in *.
    rewrite Hlab, Hthink, Hinit, Hid'.
    repeat (apply andb_prop in Hc as [Hc ?]).
    rewrite Hc. rewrite (bool_decide_eq_true_2 (is_Some (Some id))) by done.
    cbn [andb negb]. rewrite andb_true_r.
    unfold leavesNoOptions.
    destruct reply as [|result].
    + by repeat (apply andb_true_intro; split).
    + destruct (Route.r_success result).
      * cbn. match goal with
             | Hs : bool_decide (currentStage _ = variants) = true |- _ =>
                 rewrite Hs
             end.
        cbn. destruct (default [] (Route.r_generatedItems result));
          by repeat case_bool_decide.
      * by repeat (apply andb_true_intro; split).
Qed.

Lemma autoVariantsRun_refires replies : forall w,
  autoVariantsCondition w = true ->
  Forall (fun r => leavesNoOptions r.1 = true) replies ->
  autoVariantsCondition (autoVariantsRun w replies) = true
  /\ length (calls (autoVariantsRun w replies))
     = (length (calls w) + length replies)%nat.
Proof.
  induction replies as [|[reply ok] replies IH]; intros w Hc Hall.
  - split; [done|]. simpl. lia.
  - inversion Hall as [|? ? Hr Hrest]; subst. simpl in Hr.
    destruct (autoVariantsEffect_step reply ok w Hc) as [Hlen Hcond].
    rewrite Hr in Hcond.
    destruct (IH _ Hcond Hrest) as [H1 H2].
    unfold autoVariantsRun in *. simpl. split; [exact H1|].
    rewrite H2, Hlen. simpl. lia.
Qed.

End Regeneration.

(** X22. The effect that generates variants on entering the Variants
    stage fires again after every reply that leaves the lab data
    without options, be it a failed call or a successful reply without
    items: after any number of such replies its condition still holds
    and one request has been issued per reply.  It settles, its
    condition being false, exactly after a successful reply that
    carries at least one item. *)
Theorem variants_effect_refires (w : CoFounderLab.World)
    (replies : list (CoFounderLab.FetchOutcome * bool))
    (reply : CoFounderLab.FetchOutcome) (ok : bool) :
  CoFounderLab.autoVariantsCondition w = true ->
  Forall (fun r => leavesNoOptions r.1 = true) replies ->
  let w' := autoVariantsRun w replies in
  CoFounderLab.autoVariantsCondition w' = true
  /\ length (CoFounderLab.calls w')
     = (length (CoFounderLab.calls w) + length replies)%nat
  /\ CoFounderLab.autoVariantsCondition
       (CoFounderLab.autoVariantsEffect reply ok w')
     = leavesNoOptions reply.
Proof.
  intros Hc Hall. cbv zeta.
  destruct (autoVariantsRun_refires replies w Hc Hall) as [H1 H2].
  split; [exact H1|]. split; [exact H2|].
  by apply autoVariantsEffect_step.
Qed.

Lemma variants_effect_refires_witness :
  length
    (CoFounderLab.calls
       (autoVariantsRun
          (sampleWorld (CoFounderLab.withStage variants EMPTY_LAB_DATA))
          [(failedReply, true); (CoFounderLab.FetchRejected, true);
           (goodReply, false)]))
  = 3%nat.
Proof.
  assert (Hc : CoFounderLab.autoVariantsCondition
                 (sampleWorld (CoFounderLab.withStage variants EMPTY_LAB_DATA))
               = true) by (vm_compute; reflexivity).
  assert (Hall : Forall (fun r => leavesNoOptions r.1 = true)
                   [(failedReply, true); (CoFounderLab.FetchRejected, true);
                    (goodReply, false)]).
  { repeat constructor. }
  destruct (variants_effect_refires
              (sampleWorld (CoFounderLab.withStage variants EMPTY_LAB_DATA))
              _ goodReply true Hc Hall) as (_ & H & _).
  exact H.
Defined.

Section Locking.

Import CoFounderLab.

Lemma onLock_first_write choice ok2 w id doc :
  actualProjectId (comp w) = Some id ->
  db w !! id = Some doc ->
  let next := withLock choice (proposedFor choice) (labData (comp w)) in
  let locked := (onLock choice true ok2 w).1 in
  actualProjectId (comp locked) = Some id
  /\ labData (comp locked) = next
  /\ exists d, db locked !! id = Some d /\ coFounderLab d = Some next.
Proof.
  intros Hid Hdoc. cbv zeta. unfold onLock.
  set (next := withLock choice (proposedFor choice) (labData (comp w))).
  set (w1 := saveLabData true next (withComp (setLabData next) w)).
  assert (Hid1 : actualProjectId (comp w1) = Some id).
  { subst w1. rewrite comp_saveLabData. exact Hid. }
  assert (Hlab1 : labData (comp w1) = next).
  { subst w1. by rewrite comp_saveLabData. }
  assert (Hdb1 : db w1
                 = <[id := applyWrite doc (SetCoFounderLab (Some next))]> (db w)).
  { subst w1. by rewrite (db_saveLabData_found true next _ id doc). }
  clearbody w1. rewrite Hid1. unfold updateProject.
  rewrite Hdb1, lookup_insert_eq.
  destruct ok2; cbn.
  - rewrite Hid1, Hlab1. repeat split. rewrite lookup_insert_eq. by eexists.
  - rewrite Hid1, Hlab1, Hdb1, lookup_insert_eq. repeat split. by eexists.
Qed.

(** What [proceedToSelection] leaves in the component and in the store
    when the bank is full and its own write succeeds: the lab data it
    started from, at the Selection stage, with some conversation. *)
Lemma proceedToSelection_stored reply now ok w id d :
  actualProjectId (comp w) = Some id ->
  db w !! id = Some d ->
  (3 <= length (bankOf (labData (comp w))))%nat ->
  let w' := proceedToSelection true reply now ok w in
  (exists h, labData (comp w')
             = withHistory h (withStage selection (labData (comp w))))
  /\ exists d', db w' !! id = Some d'
                /\ exists h, coFounderLab d'
                             = Some (withHistory h
                                       (withStage selection (labData (comp w)))).
Proof.
  intros Hid Hd Hfull. cbv zeta. unfold proceedToSelection. rewrite Hid.
  destruct (length (bankOf (labData (comp w))) <? 3)%nat eqn:Hlt;
    [apply Nat.ltb_lt in Hlt; lia|].
  set (updated := withStage selection (labData (comp w))).
  set (w3 := withComp _ (saveLabData true updated _)).
  assert (Hid3 : actualProjectId (comp w3) = Some id).
  { subst w3. cbn. rewrite comp_saveLabData. exact Hid. }
  assert (Hlab3 : labData (comp w3) = updated).
  { subst w3. cbn. by rewrite comp_saveLabData. }
  assert (Hdb3 : exists d3, db w3 !! id = Some d3
                            /\ coFounderLab d3 = Some updated).
  { subst w3. cbn [db withComp].
    rewrite (db_saveLabData_found true updated _ id d); [|exact Hid|exact Hd].
    rewrite lookup_insert_eq. by eexists. }
  clearbody w3. destruct Hdb3 as (d3 & Hd3 & Hlabd3).
  assert (Hsame : withHistory (conversationHistory updated) updated = updated)
    by (by destruct updated).
  unfold generateSelectionAI. rewrite Hid3.
  destruct (successfulFeedback reply) as [fb|].
  - cbn [comp withComp db]. rewrite comp_saveLabData.
    cbn [comp withComp setLabData labData].
    split; [by eexists|].
    set (w4 := withComp _ (logCall _ _ (withComp _ w3))).
    destruct ok.
    + rewrite (db_saveLabData_found true _ w4 id d3);
        [|subst w4; cbn; exact Hid3|subst w4; cbn; exact Hd3].
      rewrite lookup_insert_eq. eexists. split; [reflexivity|]. by eexists.
    + rewrite (db_saveLabData_found false _ w4 id d3);
        [|subst w4; cbn; exact Hid3|subst w4; cbn; exact Hd3].
      subst w4. cbn. exists d3. split; [exact Hd3|].
      exists (conversationHistory updated). by rewrite Hsame.
  - cbn. rewrite Hlab3. split.
    + exists (conversationHistory updated). by rewrite Hsame.
    + exists d3. split; [exact Hd3|].
      exists (conversationHistory updated). by rewrite Hsame.
Qed.

End Locking.

(** X23. Locking a direction completes the step for the journey: once
    the first write of the lock has succeeded, the stored project
    passes the journey's gate for the Co-Founder Lab, whatever the
    choice and whatever happens to the second write.  The lock is not
    final, though: a successful reset, and also the Continue button of
    the variants section when the bank holds three ideas, store lab
    data that no longer passes the gate; after Continue the locked
    variant is still recorded. *)
Theorem lock_completes_step (choice : string) (ok2 : bool)
    (reply : CoFounderLab.FetchOutcome) (now : Z) (ok3 : bool)
    (w : CoFounderLab.World) (id : string) (doc : ProjectDoc) :
  CoFounderLab.actualProjectId (CoFounderLab.comp w) = Some id ->
  CoFounderLab.db w !! id = Some doc ->
  let locked := (CoFounderLab.onLock choice true ok2 w).1 in
  let continued := CoFounderLab.proceedToSelection true reply now ok3 locked in
  (exists d, CoFounderLab.db locked !! id = Some d
             /\ CoFounderLab.stepIsComplete d = true)
  /\ (exists d, CoFounderLab.db (CoFounderLab.handleReset true locked) !! id
                = Some d
                /\ CoFounderLab.stepIsComplete d = false)
  /\ ((3 <= length (bank w))%nat ->
      stageOf continued = selection
      /\ lockedVariant (CoFounderLab.labData (CoFounderLab.comp continued))
         = Some choice
      /\ exists d, CoFounderLab.db continued !! id = Some d
                   /\ CoFounderLab.stepIsComplete d = false).
Proof.
  intros Hid Hdoc. cbv zeta.
  destruct (onLock_first_write choice ok2 w id doc Hid Hdoc)
    as (Hid2 & Hlab2 & d2 & Hd2 & Hlabd2).
  set (next := CoFounderLab.withLock choice (CoFounderLab.proposedFor choice)
                 (CoFounderLab.labData (CoFounderLab.comp w))) in *.
  set (locked := (CoFounderLab.onLock choice true ok2 w).1) in *.
  clearbody locked.
  split; [|split].
  - exists d2. split; [exact Hd2|].
    unfold CoFounderLab.stepIsComplete. by rewrite Hlabd2.
  - unfold CoFounderLab.handleReset. rewrite Hid2.
    cbn [CoFounderLab.comp CoFounderLab.withComp CoFounderLab.db].
    unfold CoFounderLab.updateProject. rewrite Hd2.
    cbn. rewrite lookup_insert_eq. by eexists.
  - intros Hfull.
    destruct (proceedToSelection_stored reply now ok3 locked id d2 Hid2 Hd2)
      as (Hlab3 & d3 & Hd3 & Hlabd3).
    { rewrite Hlab2. change (CoFounderLab.bankOf next) with (bank w). exact Hfull. }
    unfold stageOf. rewrite Hlab2 in Hlab3, Hlabd3.
    destruct Hlab3 as [h Hlab3]. rewrite Hlab3. split; [done|]. split; [done|].
    exists d3. split; [exact Hd3|].
    unfold CoFounderLab.stepIsComplete.
    destruct Hlabd3 as [h' Hlabd3]. by rewrite Hlabd3.
Qed.

Lemma lock_completes_step_witness :
  exists d,
    CoFounderLab.db (CoFounderLab.onLock "Bike share" true false
                       (sampleWorld selectionLab)).1 !! "p1" = Some d
    /\ CoFounderLab.stepIsComplete d = true.
Proof.
  assert (Hdoc : CoFounderLab.db (sampleWorld selectionLab) !! "p1"
                 = Some (CoFounderLab.applyWrite sampleDoc
                           (CoFounderLab.SetCoFounderLab (Some selectionLab))))
    by (vm_compute; reflexivity).
  apply (lock_completes_step "Bike share" false goodReply 0 true
           (sampleWorld selectionLab) "p1" _ eq_refl Hdoc).
Defined.

(** X24. The stage markers of the lab follow the order of the stages:
    a stage is shown complete exactly when it comes before the current
    one, or when the session is completed, in which case all seven are;
    so every stage before a complete one is complete, and the current
    stage is never complete unless the session is. *)
Theorem stage_markers_ordered (lab : CoFounderLabData) (s s' : StageId) :
  (CoFounderLab.isStageComplete lab s = true <->
   (CoFounderLab.indexOf s CoFounderLab.stages
      < CoFounderLab.indexOf (currentStage lab) CoFounderLab.stages)%nat
   \/ currentStage lab = completed)
  /\ ((CoFounderLab.indexOf s' CoFounderLab.stages
         <= CoFounderLab.indexOf s CoFounderLab.stages)%nat ->
      CoFounderLab.isStageComplete lab s = true ->
      CoFounderLab.isStageComplete lab s' = true)
  /\ (CoFounderLab.isStageActive lab s = true ->
      CoFounderLab.isStageComplete lab s = true ->
      s = completed)
  /\ length (filter (fun x => CoFounderLab.isStageComplete lab x = true)
               CoFounderLab.stages)
     = (if bool_decide (currentStage lab = completed) then 7
        else CoFounderLab.indexOf (currentStage lab) CoFounderLab.stages)%nat.
Proof.
  unfold CoFounderLab.isStageComplete, CoFounderLab.isStageActive.
  split; [|split; [|split]].
  - rewrite orb_true_iff, Nat.ltb_lt, bool_decide_eq_true. done.
  - rewrite !orb_true_iff, !Nat.ltb_lt, !bool_decide_eq_true.
    intros Hle [Hlt|Hdone]; [left; lia|by right].
  - rewrite orb_true_iff, Nat.ltb_lt, !bool_decide_eq_true.
    intros <- [Hlt| ->]; [lia|done].
  - destruct (currentStage lab); vm_compute; reflexivity.
Qed.

Lemma stage_markers_ordered_witness :
  CoFounderLab.isStageComplete selectionLab choosing_directions = true.
Proof.
  destruct (stage_markers_ordered selectionLab variants choosing_directions)
    as (_ & H & _).
  apply H; [vm_compute; lia|reflexivity].
Defined.

(* ================================================================== *)
(** * Callers of the validator *)
(* ================================================================== *)

Section Gates.

Import Validation.

Lemma filter_all {A} (f : A -> bool) (l : list A) :
  (forall x, In x l -> f x = true) -> List.filter f l = l.
Proof.
  induction l as [|x l IH]; intros H; [done|]. simpl.
  rewrite (H x) by (by left). f_equal. apply IH. intros y Hy. apply H.
  by right.
Qed.

Lemma dots_counted (answers : list string) (n : nat) :
  (forall i, (i < n)%nat -> ExploreStep.progressDot answers i = true) ->
  (n <= getValidResponseCount answers)%nat.
Proof.
  intros Hdots.
  assert (Hlen : (n <= length answers)%nat).
  { destruct (decide (n <= length answers)%nat) as [|Hgt]; [done|].
    exfalso. assert (Hlt : (length answers < n)%nat) by lia.
    specialize (Hdots (length answers) Hlt).
    unfold ExploreStep.progressDot in Hdots.
    rewrite lookup_ge_None_2 in Hdots by lia. discriminate. }
  unfold getValidResponseCount, validResponses.
  set (P := fun response : string =>
              isValidResponse response 10 && isUniqueResponse response answers).
  replace (List.filter P answers)
    with (List.filter P (take n answers ++ drop n answers))
    by (by rewrite take_drop).
  rewrite List.filter_app, length_app.
  rewrite (filter_all P (take n answers)).
  - rewrite length_take. lia.
  - intros x Hx. apply list_elem_of_In, list_elem_of_lookup in Hx as [i Hi].
    assert (Hin : (i < n)%nat).
    { apply lookup_lt_Some in Hi. rewrite length_take in Hi. lia. }
    rewrite lookup_take_lt in Hi by done.
    specialize (Hdots i Hin). unfold ExploreStep.progressDot in Hdots.
    by rewrite Hi in Hdots.
Qed.

Lemma valid_lower_aux (response : string) (m m' : nat) :
  (m' <= m)%nat ->
  isValidResponse response m = true -> isValidResponse response m' = true.
Proof.
  intros Hle. unfold isValidResponse.
  destruct (String.length (JS.trim response) =? 0)%nat; [done|].
  destruct (String.length (JS.trim response) <? m)%nat eqn:Hm; [done|].
  apply Nat.ltb_ge in Hm.
  assert (Hm' : (String.length (JS.trim response) <? m')%nat = false)
    by (apply Nat.ltb_ge; lia).
  by rewrite Hm'.
Qed.

End Gates.

(** X25. A zone card whose progress dots are all filled belongs to a
    zone that the journey counts as complete: when each of the first
    three answers (the first one for the motivation zone) is valid and
    unique, the zone holds the required number of counted responses,
    and with the feedback checked it passes the journey's test. *)
Theorem filled_dots_complete_zone (isMotivation : bool)
    (answers : list string) :
  forallb (fun dot => dot) (ExploreStep.progressDots isMotivation answers)
  = true ->
  let required := if isMotivation then 1%nat else 3%nat in
  Validation.isZoneComplete answers required = true
  /\ Journey.zoneOk
       (Some {| Journey.answers := Some answers;
                Journey.hasCheckedFeedback := Some true |}) required = true.
Proof.
  intros Hdots. cbv zeta.
  assert (H : Validation.isZoneComplete answers
                (if isMotivation then 1%nat else 3%nat) = true).
  { unfold Validation.isZoneComplete. apply Nat.leb_le, dots_counted.
    intros i Hi. unfold ExploreStep.progressDots in Hdots.
    rewrite forallb_forall in Hdots. apply Hdots.
    apply in_map, in_seq. lia. }
  split; [exact H|]. unfold Journey.zoneOk. cbn. by rewrite H.
Qed.

Lemma filled_dots_complete_zone_witness :
  Validation.isZoneComplete
    ["Plastic bottles pile up behind the gym";
     "Bins overflow every single Friday";
     "Nobody sorts the recycling at lunch"] 3 = true.
Proof.
  apply (filled_dots_complete_zone false
           ["Plastic bottles pile up behind the gym";
            "Bins overflow every single Friday";
            "Nobody sorts the recycling at lunch"]).
  vm_compute. reflexivity.
Defined.

(** The converse fails: a zone can be complete for the journey while a
    dot of its card stays empty, because the dots look at the first
    positions only. *)
Example complete_zone_with_empty_dot :
  Validation.isZoneComplete
    ["idk"; "Plastic bottles pile up behind the gym";
     "Bins overflow every single Friday";
     "Nobody sorts the recycling at lunch"] 3 = true
  /\ ExploreStep.progressDots false
       ["idk"; "Plastic bottles pile up behind the gym";
        "Bins overflow every single Friday";
        "Nobody sorts the recycling at lunch"] = [false; true; true].
Proof. split; vm_compute; reflexivity. Qed.

(** X26. The journey is stricter than the stakeholder map about a
    finished node: whenever the journey's gate for the stakeholders
    step holds, the map itself shows a complete node.  The gate asks
    for ten characters per field and for the planned mark, the map for
    three characters only. *)
Theorem journey_gate_implies_map_complete
    (nodes : list (string * StakeholderMap.StakeholderNodeState)) :
  Journey.stakeholdersIsComplete (Some nodes) = true ->
  StakeholderMap.anyComplete nodes = true
  /\ exists id node,
       In (id, node) nodes
       /\ StakeholderMap.planned node = Some true
       /\ StakeholderMap.isNodeComplete (Some node) = true.
Proof.
  intros H. cbn in H. apply existsb_exists in H as [[id node] [Hin Hok]].
  cbn in Hok. unfold Journey.nodeOk in Hok.
  apply andb_prop in Hok as [Hall Hplanned].
  apply bool_decide_eq_true_1 in Hplanned.
  assert (Hnode : StakeholderMap.isNodeComplete (Some node) = true).
  { unfold StakeholderMap.isNodeComplete. cbn [mbind option_bind].
    cbn in Hall. repeat (apply andb_prop in Hall as [? Hall]).
    repeat (apply andb_true_intro; split);
      by apply (valid_lower_aux _ 10 3); [lia|]. }
  split.
  - unfold StakeholderMap.anyComplete. apply existsb_exists.
    exists (id, node). by split.
  - by exists id, node.
Qed.

Lemma journey_gate_implies_map_complete_witness :
  StakeholderMap.anyComplete
    [("media",
      {| StakeholderMap.planned := Some true;
         StakeholderMap.answers :=
           Some {| StakeholderMap.name := Some "The school newspaper";
                   StakeholderMap.contactMethod := Some "Email the editor";
                   StakeholderMap.introductionMessage :=
                     Some "We are pupils fighting plastic waste";
                   StakeholderMap.involvement := Some "Publish our survey";
                   StakeholderMap.appeal := Some "A story readers care about" |} |})]
  = true.
Proof.
  apply (journey_gate_implies_map_complete
           [("media",
             {| StakeholderMap.planned := Some true;
                StakeholderMap.answers :=
                  Some {| StakeholderMap.name := Some "The school newspaper";
                          StakeholderMap.contactMethod := Some "Email the editor";
                          StakeholderMap.introductionMessage :=
                            Some "We are pupils fighting plastic waste";
                          StakeholderMap.involvement := Some "Publish our survey";
                          StakeholderMap.appeal :=
                            Some "A story readers care about" |} |})]).
  vm_compute. reflexivity.
Defined.

(** The map shows a node complete that the journey does not accept. *)
Example map_complete_journey_not :
  StakeholderMap.anyComplete
    [("media",
      {| StakeholderMap.planned := Some true;
         StakeholderMap.answers :=
           Some {| StakeholderMap.name := Some "Mr Lee";
                   StakeholderMap.contactMethod := Some "Email";
                   StakeholderMap.introductionMessage := Some "Hello";
                   StakeholderMap.involvement := Some "Print";
                   StakeholderMap.appeal := Some "News" |} |})] = true
  /\ Journey.stakeholdersIsComplete
       (Some [("media",
               {| StakeholderMap.planned := Some true;
                  StakeholderMap.answers :=
                    Some {| StakeholderMap.name := Some "Mr Lee";
                            StakeholderMap.contactMethod := Some "Email";
                            StakeholderMap.introductionMessage := Some "Hello";
                            StakeholderMap.involvement := Some "Print";
                            StakeholderMap.appeal := Some "News" |} |})])
     = false.
Proof. split; vm_compute; reflexivity. Qed.

(* ================================================================== *)
(** * Items need a bracket *)
(* ================================================================== *)

Section Brackets.

Import JS.

Lemma parseMembers_obj f : forall l acc v t,
  Json.parseMembers f l acc = Some (v, t) -> exists m, v = JObj m.
Proof.
  induction f as [|f IH]; intros l acc v t H; [discriminate|].
  simpl in H.
  repeat (case_match; try discriminate); simplify_eq; eauto.
Qed.

Lemma parseValue_array f l a t :
  Json.parseValue f l = Some (JArr a, t) ->
  exists r, Json.skipWs l = "["%char :: r.
Proof.
  destruct f as [|f]; [discriminate|]. simpl.
  destruct (Json.skipWs l) as [|c r]; [discriminate|].
  destruct (Ascii.eqb c "[") eqn:Hc.
  { apply Ascii.eqb_eq in Hc. subst c. by exists r. }
  intros H. exfalso.
  destruct (Ascii.eqb c "{").
  { destruct (Json.skipWs r) as [|c' r']; [discriminate|].
    destruct (Ascii.eqb c' "}"); [discriminate|].
    apply parseMembers_obj in H as [m Hm]. discriminate. }
  destruct (Ascii.eqb c Json.dquote).
  { destruct (Json.parseChars r) as [[s u]|]; discriminate. }
  unfold Json.parseWord in H.
  repeat (case_match; try discriminate).
Qed.

Lemma skipWs_In x l : In x (Json.skipWs l) -> In x l.
Proof.
  induction l as [|c l IH]; [done|]. simpl.
  destruct (Json.isJsonWs c); [|done]. intros H. right. by apply IH.
Qed.

Lemma trimStartL_In x l : In x (trimStartL l) -> In x l.
Proof.
  induction l as [|c l IH]; [done|]. simpl.
  destruct (isWhiteSpace c); [|done]. intros H. right. by apply IH.
Qed.

Lemma trimEndL_In x l : In x (trimEndL l) -> In x l.
Proof.
  unfold trimEndL. intros H. apply in_rev in H. apply trimStartL_In in H.
  by apply in_rev.
Qed.

Lemma trimL_In x l : In x (trimL l) -> In x l.
Proof. unfold trimL. intros H. by apply trimStartL_In, trimEndL_In. Qed.

Lemma skipn_In {A} (x : A) n l : In x (skipn n l) -> In x l.
Proof.
  revert l. induction n as [|n IH]; intros [|y l]; simpl; try done.
  intros H. right. by apply IH.
Qed.

Lemma firstn_In {A} (x : A) n l : In x (firstn n l) -> In x l.
Proof.
  revert l. induction n as [|n IH]; intros [|y l]; simpl; try done.
  intros [->|H]; [by left|]. right. by apply IH.
Qed.

Lemma stripOpenFence_In x l :
  In x (ReviewAssistant.stripOpenFence l) -> In x l.
Proof.
  unfold ReviewAssistant.stripOpenFence.
  destruct (startsWithL _ l); [|done].
  intros H. apply trimStartL_In in H.
  destruct (startsWithL _ _) in H.
  - by apply skipn_In, skipn_In in H.
  - by apply skipn_In in H.
Qed.

Lemma stripCloseFence_In x l :
  In x (ReviewAssistant.stripCloseFence l) -> In x l.
Proof.
  unfold ReviewAssistant.stripCloseFence.
  destruct (startsWithL _ _); [|done].
  intros H. by apply trimEndL_In, firstn_In in H.
Qed.

Lemma stripFences_In x text :
  In x (list_ascii_of_string (ReviewAssistant.stripFences text)) ->
  In x (list_ascii_of_string text).
Proof.
  unfold ReviewAssistant.stripFences.
  rewrite list_ascii_of_string_of_list_ascii. intros H.
  by apply trimL_In, stripCloseFence_In, stripOpenFence_In in H.
Qed.

Lemma indexOfL_absent c l : indexOfL c l = None -> ~ In c l.
Proof.
  induction l as [|x l IH]; [by intros _ []|]. simpl.
  case_bool_decide as Hx; [discriminate|].
  destruct (indexOfL c l); [discriminate|].
  intros _ [Heq|Hin]; [done|]. by apply IH.
Qed.

Lemma parseStringArray_bracket s items :
  ReviewAssistant.parseStringArray s = Some items ->
  In "["%char (list_ascii_of_string s).
Proof.
  unfold ReviewAssistant.parseStringArray, Json.JSON_parse.
  destruct (Json.parseValue _ _) as [[v t]|] eqn:Hp; [|discriminate].
  destruct (Json.skipWs t); [|discriminate]. cbn.
  destruct v; try discriminate. intros _.
  apply parseValue_array in Hp as [r Hr].
  apply skipWs_In. rewrite Hr. by left.
Qed.

Lemma tryExtractArray_bracket_aux text :
  indexOfL "[" (list_ascii_of_string text) = None ->
  ReviewAssistant.tryExtractArray text = None.
Proof.
  intros Hno. unfold ReviewAssistant.tryExtractArray.
  destruct (ReviewAssistant.parseStringArray (ReviewAssistant.stripFences text))
    as [items|] eqn:Hp.
  - exfalso. apply parseStringArray_bracket, stripFences_In in Hp.
    by apply indexOfL_absent in Hno.
  - unfold ReviewAssistant.bracketCandidate. by rewrite Hno.
Qed.

Lemma trim_bracket text :
  indexOfL "[" (list_ascii_of_string text) = None ->
  indexOfL "[" (list_ascii_of_string (trim text)) = None.
Proof.
  intros Hno. destruct (indexOfL _ (list_ascii_of_string (trim text)))
    as [i|] eqn:Hi; [exfalso|done].
  apply indexOfL_absent in Hno. apply Hno.
  assert (Hin : In "["%char (list_ascii_of_string (trim text))).
  { clear Hno. revert i Hi.
    induction (list_ascii_of_string (trim text)) as [|x l IH]; [done|].
    simpl. case_bool_decide as Hx; [by left|].
    destruct (indexOfL "[" l) as [j|]; [|done]. intros i _. right.
    by apply (IH j). }
  unfold trim in Hin. rewrite list_ascii_of_string_of_list_ascii in Hin.
  by apply trimL_In in Hin.
Qed.

End Brackets.

(** X27. Only a reply that contains an opening square bracket can be
    read as a list of items.  A reply without one gives no items,
    whatever else it holds (code fences included): it is interpreted as
    feedback, as exactly one statement, and its follow-up question, if
    any, is split off that statement. *)
Theorem bracketless_reply_is_feedback (text : string) :
  JS.indexOfL "[" (list_ascii_of_string text) = None ->
  ReviewAssistant.tryExtractArray text = None
  /\ ReviewAssistant.p_generatedItems (ReviewAssistant.parseResponse text)
     = None
  /\ exists s, ReviewAssistant.p_feedback (ReviewAssistant.parseResponse text)
               = [s].
Proof.
  intros Hno. split; [by apply tryExtractArray_bracket_aux|].
  pose proof (tryExtractArray_bracket_aux _ (trim_bracket text Hno)) as Ht.
  destruct (parseResponse_cases text) as [(items & H)|[H|(a & b & H)]].
  - exfalso. unfold ReviewAssistant.parseResponse in H. rewrite Ht in H.
    destruct (ReviewAssistant.questionMatch _) as [[g1 g2]|] in H;
      discriminate.
  - rewrite H. split; [done|]. by eexists.
  - rewrite H. split; [done|]. by eexists.
Qed.

Lemma bracketless_reply_is_feedback_witness :
  ReviewAssistant.p_generatedItems
    (ReviewAssistant.parseResponse "Good start. What else?") = None.
Proof.
  apply (bracketless_reply_is_feedback "Good start. What else?").
  reflexivity.
Defined.

(* ================================================================== *)
(** * The lab and the endpoint together *)
(* ================================================================== *)

Section EndToEnd.

Variable PROMPT_REGISTRY : gmap string PromptTemplate.
Variable create : ReviewAssistant.ChatRequest -> ReviewAssistant.Completion.

Lemma process_success_aux reachable db request :
  let r := Orchestrator.process PROMPT_REGISTRY create reachable db request in
  success r = true ->
  (exists items, generatedItems r = Some items /\ feedback r = [])
  \/ (generatedItems r = None /\ exists s, feedback r = [s]).
Proof.
  cbv zeta. unfold Orchestrator.process.
  destruct (buildContext_fulfilled reachable db request) as [context ->].
  unfold Orchestrator.dispatch.
  destruct (Orchestrator.getPrompt _ _ _) as [tpl|]; [|discriminate].
  destruct (action request) as [[| |]|]; [| |discriminate..]; intros Hs;
    pose proof (assistant_shape_aux create request context tpl) as H;
    cbv zeta in H; rewrite Hs in H;
    destruct H as [_ [(items & H1 & H2 & _)|[H1 H2]]];
    [left; by exists items|by right|left; by exists items|by right].
Qed.

End EndToEnd.

(** X28. The lab's handlers accept a reply exactly when the endpoint
    answered with status 200, and they then record the feedback of the
    orchestrator's response.  That feedback is a single statement,
    unless the reply was read as a list of items: then the feedback is
    empty and the message that the conversation handlers record has an
    empty content. *)
Theorem lab_accepts_exactly_ok
    (PROMPT_REGISTRY : gmap string PromptTemplate)
    (create : ReviewAssistant.ChatRequest -> ReviewAssistant.Completion)
    (apiKey : option string) (reachable : bool) (db : Projects)
    (request : AIRequest) (now : Z) (s : StageId) :
  let h := Route.POST PROMPT_REGISTRY create apiKey reachable db request in
  let reply := CoFounderLab.FetchJson (Route.body h) in
  (forall fb, CoFounderLab.successfulFeedback reply = Some fb <->
     Route.status h = 200%nat
     /\ fb = feedback (Orchestrator.process PROMPT_REGISTRY create reachable
                         db request))
  /\ (forall fb, CoFounderLab.successfulFeedback reply = Some fb ->
        match Route.r_generatedItems (Route.body h) with
        | Some _ => fb = [] /\ content (CoFounderLab.aiMessage fb now s) = ""%string
        | None => exists statement,
            fb = [statement]
            /\ content (CoFounderLab.aiMessage fb now s) = statement
        end).
Proof.
  cbv zeta. unfold Route.POST.
  destruct (bool_decide (projectId request = "")
            || bool_decide (stepId request = "")
            || bool_decide (action request = None)).
  { cbn. split; [|done]. intros fb. split; [done|]. by intros [? _]. }
  destruct (Orchestrator.nonEmpty apiKey).
  2:{ cbn. split; [|done]. intros fb. split; [done|]. by intros [? _]. }
  destruct (success (Orchestrator.process _ _ _ _ _)) eqn:Hok; cbn [negb].
  2:{ cbn. split; [|done]. intros fb. split; [done|]. by intros [? _]. }
  cbn. split.
  - intros fb. split; [intros [= <-]; done|]. by intros [_ ->].
  - intros fb [= <-].
    destruct (process_success_aux PROMPT_REGISTRY create reachable db request Hok)
      as [(items & -> & ->)|[-> [statement ->]]].
    + done.
    + by exists statement.
Qed.

(* ================================================================== *)
(** * Problem Incubator *)
(* ================================================================== *)

Section Domains.

Import Mentor.

Lemma fallback_clean :
  forallb (fun d => negb (containsSolutionLanguage d)) fallbackDomains = true.
Proof. vm_compute. reflexivity. Qed.

Lemma parseDomains_clean content domains :
  parseDomains content = Some domains ->
  (3 <= length domains)%nat
  /\ forallb (fun d => negb (containsSolutionLanguage d)) domains = true.
Proof.
  unfold parseDomains.
  destruct (Json.JSON_parse content ≫= Json.asStringArray) as [items|];
    [|discriminate].
  destruct (length (filterSolutions items) <? 3)%nat eqn:Hlen.
  - intros [= <-]. split; [simpl; lia|apply fallback_clean].
  - intros [= <-]. apply Nat.ltb_ge in Hlen. split; [exact Hlen|].
    apply forallb_forall. intros d Hd.
    unfold filterSolutions in Hd. by apply filter_In in Hd as [_ Hd].
Qed.

Lemma labelsOf_domain_imap (l : list string) :
  forall f : nat -> string -> ButtonOption,
  (forall i d, label (f i d) = d /\ type (f i d) = domain) ->
  labelsOf domain (imap f l) = l.
Proof.
  induction l as [|d l IH]; intros f Hf; [done|].
  unfold labelsOf in *. cbn [imap List.filter].
  destruct (Hf 0%nat d) as [Hl Ht]. rewrite Ht.
  rewrite bool_decide_eq_true_2 by done. cbn [map]. rewrite Hl. f_equal.
  apply IH. intros i x. apply Hf.
Qed.

End Domains.

(** X29. Whatever the reasoning service answers, and even when it
    answers nothing usable, the mentor offers between three and five
    domains, none of which contains solution language, followed by
    exactly two further buttons, one to ask for different domains and
    one to describe an own domain. *)
Theorem domains_never_suggest_solutions (passionTopic : string)
    (regenerate : bool) (reply : option string) :
  let r := Mentor.generateDomains passionTopic regenerate reply in
  exists offered,
    Mentor.buttons r
    = (imap (fun idx d => {| Mentor.id := "domain_" ++ Duck.indexKey idx;
                             Mentor.label := d;
                             Mentor.type := Mentor.domain |}) offered
       ++ [{| Mentor.id := "show_different";
              Mentor.label := "Show me different domain areas";
              Mentor.type := Mentor.action |};
           {| Mentor.id := "other_domain";
              Mentor.label := "Other (describe your own)";
              Mentor.type := Mentor.other |}])%list
    /\ labelsOf Mentor.domain (Mentor.buttons r) = offered
    /\ (3 <= length offered <= 5)%nat
    /\ Forall (fun d => Mentor.containsSolutionLanguage d = false) offered
    /\ Mentor.stage r = Mentor.stage_domain.
Proof.
  cbv zeta. unfold Mentor.generateDomains.
  set (content := Mentor.cleanJsonResponse _).
  set (domains := match Mentor.parseDomains content with
                  | Some d => d | None => Mentor.fallbackDomains end).
  assert (Hd : (3 <= length domains)%nat
               /\ forallb (fun d => negb (Mentor.containsSolutionLanguage d))
                    domains = true).
  { subst domains. destruct (Mentor.parseDomains content) as [d|] eqn:Hp.
    - by apply (parseDomains_clean content).
    - split; [simpl; lia|apply fallback_clean]. }
  clearbody domains. destruct Hd as [Hlen Hclean].
  exists (firstn 5 domains). cbn [Mentor.buttons Mentor.stage].
  split; [by rewrite <- app_assoc|]. split; [|split; [|split; [|done]]].
  - unfold labelsOf. rewrite !List.filter_app, !map_app. cbn.
    rewrite !app_nil_r.
    by apply labelsOf_domain_imap.
  - rewrite length_take. lia.
  - apply Forall_forall. intros d Hin.
    rewrite forallb_forall in Hclean.
    apply list_elem_of_In, firstn_In, Hclean in Hin.
    by apply negb_true_iff in Hin.
Qed.

(** The filter at work: a reply with one solution among five domains
    leaves four; a reply with three solutions among five is replaced by
    the default domains. *)
Example domains_filtered :
  labelsOf Mentor.domain
    (Mentor.buttons
       (Mentor.generateDomains "football" false
          (Some ("```json" ++ JS.LF ++ "["
                 ++ itemsText ["Pitch access"; "Launch a youth league";
                               "Injuries"; "Costs"; "Referee abuse"]
                 ++ "]" ++ JS.LF ++ "```"))))
  = ["Pitch access"; "Injuries"; "Costs"; "Referee abuse"]
  /\ labelsOf Mentor.domain
       (Mentor.buttons
          (Mentor.generateDomains "football" false
             (Some ("[" ++ itemsText ["Build a pitch"; "Start a club";
                                      "Injuries"; "Costs";
                                      "Design a kit"] ++ "]"))))
     = Mentor.fallbackDomains.
Proof. split; vm_compute; reflexivity. Qed.

Section Sanitize.

Import JS Incubator.
Open Scope list_scope.

Lemma collapse_singleSpaced l : forall b,
  singleSpaced b (collapseSpaces b l) = true.
Proof.
  induction l as [|c l IH]; intros b; [done|]. simpl.
  destruct (isWhiteSpace c) eqn:Hc.
  - destruct b; [apply IH|]. simpl. by rewrite IH.
  - simpl. rewrite Hc. apply IH.
Qed.

Lemma collapse_fixed l : forall b,
  singleSpaced b l = true -> collapseSpaces b l = l.
Proof.
  induction l as [|c l IH]; intros b H; [done|]. simpl in *.
  destruct (isWhiteSpace c) eqn:Hc.
  - apply andb_prop in H as [H Hr]. apply andb_prop in H as [Hsp Hb].
    apply Ascii.eqb_eq in Hsp. subst c. destruct b; [discriminate|].
    f_equal. by apply IH.
  - f_equal. by apply IH.
Qed.

Lemma singleSpaced_weaken l : singleSpaced true l = true ->
  singleSpaced false l = true.
Proof.
  destruct l as [|c l]; [done|]. simpl.
  destruct (isWhiteSpace c); [|done].
  intros H. apply andb_prop in H as [H _].
  apply andb_prop in H as [_ H]. discriminate.
Qed.

Lemma newlines_fixed l b :
  singleSpaced b l = true -> newlinesToSpaces l = l.
Proof.
  revert b. induction l as [|c l IH]; intros b H; [done|]. simpl in *.
  destruct (isWhiteSpace c) eqn:Hc.
  - apply andb_prop in H as [H Hr]. apply andb_prop in H as [Hsp _].
    apply Ascii.eqb_eq in Hsp. subst c. cbn. f_equal. by apply (IH true).
  - destruct (Ascii.eqb c (ascii_of_nat 10)) eqn:Hn.
    + apply Ascii.eqb_eq in Hn. subst c. discriminate.
    + f_equal. by apply (IH false).
Qed.

Lemma collapse_snoc l c : forall b,
  isWhiteSpace c = false ->
  collapseSpaces b (l ++ [c]) = collapseSpaces b l ++ [c].
Proof.
  intros b Hc. revert b. induction l as [|x l IH]; intros b; simpl.
  - by rewrite Hc.
  - destruct (isWhiteSpace x); [destruct b|]; by rewrite IH.
Qed.

Lemma newlines_ws c :
  isWhiteSpace (if Ascii.eqb c (ascii_of_nat 10) then " "%char else c)
  = isWhiteSpace c.
Proof.
  destruct (Ascii.eqb c (ascii_of_nat 10)) eqn:Hn; [|done].
  apply Ascii.eqb_eq in Hn. by subst c.
Qed.

Lemma tight_cases l :
  tight l = true ->
  l = [] \/ exists a, isWhiteSpace a = false
                      /\ (l = [a] \/ exists m b, isWhiteSpace b = false
                                                 /\ l = a :: m ++ [b]).
Proof.
  unfold tight. destruct l as [|a l]; [by left|]. intros H. right.
  apply andb_prop in H as [Ha Hb]. apply negb_true_iff in Ha.
  exists a. split; [exact Ha|].
  destruct (rev l) as [|b m] eqn:Hrev.
  - left. apply (f_equal (@rev ascii)) in Hrev.
    rewrite rev_involutive in Hrev. by subst l.
  - right. exists (rev m), b.
    apply (f_equal (@rev ascii)) in Hrev. rewrite rev_involutive in Hrev.
    subst l. simpl in Hb. rewrite rev_app_distr in Hb. simpl in Hb.
    apply negb_true_iff in Hb. by split.
Qed.

Lemma tight_trimL l : tight (trimL l) = true.
Proof.
  unfold trimL. destruct (trimStartL_head l) as [->|(c & t & -> & Hc)]; [done|].
  rewrite trimEndL_cons by done. unfold tight. rewrite Hc.
  cbn [negb andb]. unfold trimEndL.
  change (c :: rev (trimStartL (rev t))) with ([c] ++ rev (trimStartL (rev t))).
  rewrite rev_app_distr, rev_involutive.
  destruct (trimStartL_head (rev t)) as [->|(x & u & -> & Hx)]; simpl.
  - by rewrite Hc.
  - by rewrite Hx.
Qed.

Lemma tight_fixed l : tight l = true -> trimL l = l.
Proof.
  intros H. destruct (tight_cases l H)
    as [->|(a & Ha & [->|(m & b & Hb & ->)])]; [done| |by apply trimL_fixed].
  unfold trimL. rewrite trimStartL_keep by done.
  by apply (trimEndL_keep a []).
Qed.

Lemma sanitize_tight l :
  tight l = true -> tight (collapseSpaces false (newlinesToSpaces l)) = true.
Proof.
  intros H. destruct (tight_cases l H)
    as [->|(a & Ha & [->|(m & b & Hb & ->)])]; [done| |].
  - cbn. rewrite newlines_ws, Ha. cbn. unfold tight. cbn.
    rewrite newlines_ws, Ha. done.
  - unfold newlinesToSpaces. cbn [map]. rewrite map_app. cbn [map].
    cbn [collapseSpaces]. rewrite newlines_ws, Ha.
    rewrite collapse_snoc by (by rewrite newlines_ws).
    unfold tight. rewrite newlines_ws, Ha. cbn [negb andb].
    rewrite app_comm_cons, rev_app_distr. cbn.
    by rewrite newlines_ws, Hb.
Qed.

Lemma singleSpaced_spaces l : forall b,
  singleSpaced b l = true ->
  Forall (fun c => isWhiteSpace c = true -> c = " "%char) l.
Proof.
  induction l as [|c l IH]; intros b Hs; [constructor|]. simpl in Hs.
  destruct (isWhiteSpace c) eqn:Hc.
  - apply andb_prop in Hs as [H Hr]. apply andb_prop in H as [Hsp _].
    apply Ascii.eqb_eq in Hsp.
    constructor; [intros _; exact Hsp|]. by apply (IH true).
  - constructor; [intros H; congruence|]. by apply (IH false).
Qed.

End Sanitize.

(** X30. The sanitised input is in normal form, whatever was typed: it
    has no white space at either end, every white-space character in
    it is a single space (no line feed, no tab) that does not follow
    another space, and sanitising it again returns it unchanged. *)
Theorem sanitize_normal_form (input : string) :
  let s := Incubator.sanitizeInput input in
  JS.trim s = s
  /\ singleSpaced false (list_ascii_of_string s) = true
  /\ Forall (fun c => JS.isWhiteSpace c = true -> c = " "%char)
       (list_ascii_of_string s)
  /\ Incubator.sanitizeInput s = s.
Proof.
  cbv zeta. unfold Incubator.sanitizeInput.
  set (l := Incubator.collapseSpaces false
              (Incubator.newlinesToSpaces
                 (JS.trimL (list_ascii_of_string input)))).
  assert (Ht : tight l = true) by (apply sanitize_tight, tight_trimL).
  assert (Hs : singleSpaced false l = true) by apply collapse_singleSpaced.
  clearbody l. rewrite list_ascii_of_string_of_list_ascii.
  unfold JS.trim. rewrite list_ascii_of_string_of_list_ascii.
  rewrite (tight_fixed l Ht), (newlines_fixed l false Hs),
    (collapse_fixed l false Hs).
  repeat split; try done.
  by apply (singleSpaced_spaces l false).
Qed.

(** Line feeds, tabs and runs of spaces all come out as one space. *)
Example sanitize_sample :
  Incubator.sanitizeInput
    ("  street " ++ JS.LF ++ JS.LF ++ "  football   in my   town ")
  = "street football in my town"%string.
Proof. vm_compute. reflexivity. Qed.
